(** * Open-space planning cycle of Apollo: a shallow embedding

    The development follows [modules/planning/open_space_planning.cc]:
    the vehicle-state gate ([IsVehicleStateValid]), the gear partitioner
    ([TrajectoryPartition]), the predicted-environment collision checker
    ([BuildPredictedEnvironment], [IsCollisionFreeTrajectory]), the header
    fill ([FillPlanningPb]) and the cycle orchestrator ([Plan], [RunOnce]).

    A C++ [double] is a binary64 primitive float.  Protobuf messages are
    records; an optional field whose presence the code can observe is an
    [option].  Collaborators that live in other translation units (the
    planner strategy, the stitcher, the vehicle-state provider, [Box2d],
    libm) are section variables. *)

From Stdlib Require Import Floats ZArith NArith List Bool String Lia DecimalString.
From Stdlib Require DecimalNat.
Import ListNotations.

Set Implicit Arguments.

Definition double := float.

(** ** Results of code that can leave the defined behaviour of C++ *)

(** [Done a]: the call returned [a].  [Undefined]: the call read a
    [std::vector] or repeated field outside its bounds.  [Aborted]: a
    [CHECK] failed.  [OutOfFuel]: a loop was still running when the
    fuel of the model ran out. *)
Inductive outcome (A : Type) : Type :=
| Done (a : A)
| Undefined
| Aborted
| OutOfFuel.

Arguments Done {A} a.
Arguments Undefined {A}.
Arguments Aborted {A}.
Arguments OutOfFuel {A}.

Definition obind {A B : Type} (c : outcome A) (k : A -> outcome B) : outcome B :=
  match c with
  | Done a => k a
  | Undefined => Undefined
  | Aborted => Aborted
  | OutOfFuel => OutOfFuel
  end.

Declare Scope outcome_scope.
Delimit Scope outcome_scope with outcome.
Notation "x <- c ;; k" := (obind c (fun x => k))
  (at level 61, c at next level, right associativity) : outcome_scope.
Notation "' p <- c ;; k" := (obind c (fun x => let p := x in k))
  (at level 61, p pattern, c at next level, right associativity) : outcome_scope.

Definition is_done {A : Type} (c : outcome A) : bool :=
  match c with Done _ => true | _ => false end.

(** [v[i]] on a vector: outside the bounds the read is undefined. *)
Definition at_index {A : Type} (l : list A) (i : nat) : outcome A :=
  match nth_error l i with
  | Some a => Done a
  | None => Undefined
  end.

(** [v.back()]: undefined on an empty vector. *)
Definition back {A : Type} (l : list A) : outcome A :=
  match rev l with
  | a :: _ => Done a
  | [] => Undefined
  end.

(** ** Status *)

Module Status.
(** [apollo::common::ErrorCode] values used here. *)
Definition OK_code : Z := 0.
Definition PLANNING_ERROR : Z := 6000.

Record t := mk { code : Z; msg : string }.

Definition OK : t := mk OK_code "".

Definition ok (s : t) : bool := (code s =? OK_code)%Z.

(** [operator==] compares the code and the message. *)
Definition eqb (s1 s2 : t) : bool :=
    (code s1 =? code s2)%Z && String.eqb (msg s1) (msg s2).

Definition error_message (s : t) : string := msg s.
End Status.

(** ** Messages *)

Module PathPoint.
Record t := mk { x : double; y : double; theta : double;
                   s : double; kappa : double }.
Definition default : t := mk 0%float 0%float 0%float 0%float 0%float.
End PathPoint.

Module TrajectoryPoint.
Record t := mk { path_point : PathPoint.t; v : double; a : double;
                   relative_time : double; steer : double }.
Definition default : t :=
    mk PathPoint.default 0%float 0%float 0%float 0%float.

Definition set_relative_time (p : t) (r : double) : t :=
    mk (path_point p) (v p) (a p) r (steer p).
End TrajectoryPoint.

(** [canbus::Chassis::GearPosition]. *)
Inductive GearPosition : Type :=
| GEAR_NEUTRAL | GEAR_DRIVE | GEAR_REVERSE | GEAR_PARKING
| GEAR_LOW | GEAR_INVALID | GEAR_NONE.

Definition gear_eqb (g1 g2 : GearPosition) : bool :=
  match g1, g2 with
  | GEAR_NEUTRAL, GEAR_NEUTRAL | GEAR_DRIVE, GEAR_DRIVE
  | GEAR_REVERSE, GEAR_REVERSE | GEAR_PARKING, GEAR_PARKING
  | GEAR_LOW, GEAR_LOW | GEAR_INVALID, GEAR_INVALID
  | GEAR_NONE, GEAR_NONE => true
  | _, _ => false
  end.

Module Header.
Record t := mk { timestamp_sec : option double;
                   sequence_num : option Z;
                   lidar_timestamp : option Z;
                   camera_timestamp : option Z;
                   radar_timestamp : option Z;
                   status : option Status.t }.
Definition default : t := mk None None None None None None.

(** Getters of unset fields return the default of the field type. *)
Definition get_timestamp_sec (h : t) : double :=
    match timestamp_sec h with Some d => d | None => 0%float end.
Definition get_sequence_num (h : t) : Z :=
    match sequence_num h with Some n => n | None => 0%Z end.
Definition get_lidar_timestamp (h : t) : Z :=
    match lidar_timestamp h with Some n => n | None => 0%Z end.
Definition get_camera_timestamp (h : t) : Z :=
    match camera_timestamp h with Some n => n | None => 0%Z end.
Definition get_radar_timestamp (h : t) : Z :=
    match radar_timestamp h with Some n => n | None => 0%Z end.

Definition set_timestamp_sec (d : double) (h : t) : t :=
    mk (Some d) (sequence_num h) (lidar_timestamp h) (camera_timestamp h)
       (radar_timestamp h) (status h).
Definition set_lidar_timestamp (n : Z) (h : t) : t :=
    mk (timestamp_sec h) (sequence_num h) (Some n) (camera_timestamp h)
       (radar_timestamp h) (status h).
Definition set_camera_timestamp (n : Z) (h : t) : t :=
    mk (timestamp_sec h) (sequence_num h) (lidar_timestamp h) (Some n)
       (radar_timestamp h) (status h).
Definition set_radar_timestamp (n : Z) (h : t) : t :=
    mk (timestamp_sec h) (sequence_num h) (lidar_timestamp h)
       (camera_timestamp h) (Some n) (status h).
(** [Status::Save] into the header's status field. *)
Definition save_status (st : Status.t) (h : t) : t :=
    mk (timestamp_sec h) (sequence_num h) (lidar_timestamp h)
       (camera_timestamp h) (radar_timestamp h) (Some st).
End Header.

(** [msg.header()] of a message whose header may be absent. *)
Definition header_or_default (h : option Header.t) : Header.t :=
  match h with Some h' => h' | None => Header.default end.

Module VehicleState.
Record t := mk { x : double; y : double; z : double; heading : double;
                   kappa : double; linear_velocity : double;
                   linear_acceleration : double; timestamp : double }.
End VehicleState.

Module EStop.
Record t := mk { is_estop : bool; reason : string }.
End EStop.

Module LatencyStats.
Record t := mk { init_frame_time_ms : option double;
                   total_time_ms : option double }.
Definition default : t := mk None None.
End LatencyStats.

(** [planning_internal::OpenSpaceDebug], as far as this file reads it. *)
Module OpenSpaceDebug.
Record obstacle := mk_obstacle { vertices_x_coords : list double;
                                   vertices_y_coords : list double }.
Record t := mk { xy_boundary : list double;
                   obstacles : list obstacle;
                   smoothed_trajectory : list TrajectoryPoint.t;
                   warm_start_trajectory : list TrajectoryPoint.t }.
Definition default : t := mk [] [] [] [].
Definition xy_boundary_size (d : t) : nat := List.length (xy_boundary d).
End OpenSpaceDebug.

(** [dreamview::Chart]. *)
Module Chart.
Record axis := mk_axis { min : double; max : double; label_string : string }.
Record curve := mk_curve { label : string;
                             point : list (double * double);
                             properties : list (string * string) }.
Record t := mk { title : string; x_axis : axis; y_axis : axis;
                   polygon : list curve; line : list curve }.
End Chart.

Module Debug.
Record t := mk { init_point : option TrajectoryPoint.t;
                   open_space : option OpenSpaceDebug.t;
                   chart : list Chart.t }.
Definition default : t := mk None None [].
End Debug.

Module ADCTrajectory.
Record t := mk { header : option Header.t;
                   trajectory_point : list TrajectoryPoint.t;
                   gear : option GearPosition;
                   estop : option EStop.t;
                   latency_stats : LatencyStats.t;
                   is_replan : option bool;
                   not_ready_reason : option string;
                   debug : Debug.t;
                   routing_header : option Header.t }.

(** A message as its default constructor leaves it. *)
Definition fresh : t :=
    mk None [] None None LatencyStats.default None None Debug.default None.

Definition with_header (h : option Header.t) (m : t) : t :=
    mk h (trajectory_point m) (gear m) (estop m) (latency_stats m)
       (is_replan m) (not_ready_reason m) (debug m) (routing_header m).
Definition with_trajectory_point (l : list TrajectoryPoint.t) (m : t) : t :=
    mk (header m) l (gear m) (estop m) (latency_stats m)
       (is_replan m) (not_ready_reason m) (debug m) (routing_header m).
Definition with_gear (g : option GearPosition) (m : t) : t :=
    mk (header m) (trajectory_point m) g (estop m) (latency_stats m)
       (is_replan m) (not_ready_reason m) (debug m) (routing_header m).
Definition with_estop (e : option EStop.t) (m : t) : t :=
    mk (header m) (trajectory_point m) (gear m) e (latency_stats m)
       (is_replan m) (not_ready_reason m) (debug m) (routing_header m).
Definition with_latency_stats (l : LatencyStats.t) (m : t) : t :=
    mk (header m) (trajectory_point m) (gear m) (estop m) l
       (is_replan m) (not_ready_reason m) (debug m) (routing_header m).
Definition with_is_replan (b : option bool) (m : t) : t :=
    mk (header m) (trajectory_point m) (gear m) (estop m) (latency_stats m)
       b (not_ready_reason m) (debug m) (routing_header m).
Definition with_not_ready_reason (r : option string) (m : t) : t :=
    mk (header m) (trajectory_point m) (gear m) (estop m) (latency_stats m)
       (is_replan m) r (debug m) (routing_header m).
Definition with_debug (d : Debug.t) (m : t) : t :=
    mk (header m) (trajectory_point m) (gear m) (estop m) (latency_stats m)
       (is_replan m) (not_ready_reason m) d (routing_header m).
Definition with_routing_header (h : option Header.t) (m : t) : t :=
    mk (header m) (trajectory_point m) (gear m) (estop m) (latency_stats m)
       (is_replan m) (not_ready_reason m) (debug m) h.

(** [mutable_header()->f]: the header is created when absent. *)
Definition mutable_header (f : Header.t -> Header.t) (m : t) : t :=
    with_header (Some (f (header_or_default (header m)))) m.
End ADCTrajectory.

(** [PublishableTrajectory]: the header time and the points of the
    [ADCTrajectory] it is built from. *)
Module PublishableTrajectory.
Record t := mk { header_time : double;
                   trajectory_points : list TrajectoryPoint.t }.

Definition of_ADCTrajectory (m : ADCTrajectory.t) : t :=
    mk (Header.get_timestamp_sec (header_or_default (ADCTrajectory.header m)))
       (ADCTrajectory.trajectory_point m).

Definition PrependTrajectoryPoints (prefix : list TrajectoryPoint.t) (p : t) : t :=
    mk (header_time p) (prefix ++ trajectory_points p).
End PublishableTrajectory.

(** * The vehicle-state gate *)

Definition IsVehicleStateValid (vehicle_state : VehicleState.t) : bool :=
  if PrimFloat.is_nan (VehicleState.x vehicle_state)
     || PrimFloat.is_nan (VehicleState.y vehicle_state)
     || PrimFloat.is_nan (VehicleState.z vehicle_state)
     || PrimFloat.is_nan (VehicleState.heading vehicle_state)
     || PrimFloat.is_nan (VehicleState.kappa vehicle_state)
     || PrimFloat.is_nan (VehicleState.linear_velocity vehicle_state)
     || PrimFloat.is_nan (VehicleState.linear_acceleration vehicle_state)
  then false
  else true.

Module RoutingResponse.
Record t := mk { header : option Header.t }.
Definition cleared : t := mk None.
End RoutingResponse.

(** [timestamp_sec() != timestamp_sec()] on doubles. *)
Definition double_neq (d1 d2 : double) : bool := negb (PrimFloat.eqb d1 d2).

Definition IsDifferentRouting (first second : RoutingResponse.t) : bool :=
  match RoutingResponse.header first, RoutingResponse.header second with
  | Some h1, Some h2 =>
      if negb (Header.get_sequence_num h1 =? Header.get_sequence_num h2)%Z
      then true
      else if double_neq (Header.get_timestamp_sec h1) (Header.get_timestamp_sec h2)
      then true
      else false
  | _, _ => true
  end.

(** * The gear partitioner *)

Module Partitioner.
Local Open Scope float_scope.
Import TrajectoryPoint.

(** [kepsilon = 1e-2], the double nearest to one hundredth. *)
Definition kepsilon : double := 0x1.47ae147ae147bp-7.
Definition initial_gear_check_horizon : nat := 3.
(** [M_PI]. *)
Definition M_PI : double := 0x1.921fb54442d18p+1.
(** [std::numeric_limits<double>::max()]. *)
Definition DBL_MAX : double := 0x1.fffffffffffffp+1023.

(** The two tests the code makes on a velocity. *)
Definition moves_forward (p : TrajectoryPoint.t) : bool := kepsilon <? v p.
Definition moves_backward (p : TrajectoryPoint.t) : bool := v p <? - kepsilon.

(** The [while (i != initial_gear_check_horizon)] loop.  [from_j] is the
    vector from index [j] on; reading it when it is empty is the read
    of [stitched_trajectory_to_end[j]] past the end. *)
Fixpoint initial_gear_scan (from_j : list TrajectoryPoint.t) (i : nat)
         (direction_flag init_direction : Z) {struct from_j} : outcome (Z * Z) :=
  if Nat.eqb i initial_gear_check_horizon then Done (direction_flag, init_direction)
  else match from_j with
       | [] => Undefined
       | p :: rest =>
           if moves_forward p then
             initial_gear_scan rest (S i) (direction_flag + 1)%Z
               (if (init_direction =? 0)%Z then (init_direction + 1)%Z else init_direction)
           else if moves_backward p then
             initial_gear_scan rest (S i) (direction_flag - 1)%Z
               (if (init_direction =? 0)%Z then (init_direction - 1)%Z else init_direction)
           else initial_gear_scan rest i direction_flag init_direction
       end.

Definition too_short : Status.t :=
  Status.mk Status.PLANNING_ERROR "Invalid trajectory length!".
Definition ambiguous_initial_gear : Status.t :=
  Status.mk Status.PLANNING_ERROR
    "Invalid trajectory start! initial speeds too small to decide gear".

(** The gear pushed first on [gear_positions], or the error returned. *)
Definition initial_gear (stitched_trajectory_to_end : list TrajectoryPoint.t)
  : outcome (Status.t + GearPosition) :=
  if Nat.ltb (List.length stitched_trajectory_to_end) initial_gear_check_horizon
  then Done (inl too_short)
  else
    obind (initial_gear_scan stitched_trajectory_to_end 0 0%Z 0%Z)
      (fun '(direction_flag, init_direction) =>
         if (direction_flag >? 1)%Z then Done (inr GEAR_DRIVE)
         else if (direction_flag <? -1)%Z then Done (inr GEAR_REVERSE)
         else if (init_direction >? 0)%Z then Done (inr GEAR_DRIVE)
         else if (init_direction <? 0)%Z then Done (inr GEAR_REVERSE)
         else Done (inl ambiguous_initial_gear)).

(** The state of the partition loop.  [trajectory_partition] of the code
    is [closed ++ [current_trajectory]], and [gear_positions] is
    [closed_gears ++ [gear_back]]: the loop only ever writes to the last
    trajectory and reads the last gear. *)
Record loop_state := mk_loop_state {
  closed : list (list TrajectoryPoint.t);
  current_trajectory : list TrajectoryPoint.t;
  closed_gears : list GearPosition;
  gear_back : GearPosition;
  distance_s : double }.

Definition trajectory_partition (st : loop_state) : list (list TrajectoryPoint.t) :=
  closed st ++ [current_trajectory st].
Definition gear_positions (st : loop_state) : list GearPosition :=
  closed_gears st ++ [gear_back st].

(** [add_trajectory(); gear_positions.push_back(g); distance_s = 0.0]. *)
Definition shift_gear (g : GearPosition) (st : loop_state) : loop_state :=
  mk_loop_state (closed st ++ [current_trajectory st]) []
                (closed_gears st ++ [gear_back st]) g 0.

Definition gear_drive (g : GearPosition) : double :=
  if gear_eqb g GEAR_REVERSE then (-1) else 1.

Section WithLibm.
Variable tanh : double -> double.

Definition steer_to_kappa (steer : double) (gd : double) : double :=
  tanh (steer * 470 * M_PI / 180 / 16) / 0x1.6cccccccccccdp+1 * gd.

(** The two gear tests at the head of the loop body. *)
Definition shift_if_reversed (p : TrajectoryPoint.t) (st : loop_state)
  : loop_state :=
  let st :=
    if moves_backward p && gear_eqb (gear_back st) GEAR_DRIVE
    then shift_gear GEAR_REVERSE st else st in
  if moves_forward p && gear_eqb (gear_back st) GEAR_REVERSE
  then shift_gear GEAR_DRIVE st else st.

(** [distance_s] after the [if (i > 0)] statement.  [prev] is
    [stitched_trajectory_to_end[i - 1]] when [i > 0]. *)
Definition accumulate_distance (prev : option TrajectoryPoint.t)
           (p : TrajectoryPoint.t) (distance_s0 : double) : double :=
  match prev with
  | Some q =>
      distance_s0 +
      PrimFloat.sqrt
        ((PathPoint.x (path_point p) - PathPoint.x (path_point q)) *
         (PathPoint.x (path_point p) - PathPoint.x (path_point q)) +
         (PathPoint.y (path_point p) - PathPoint.y (path_point q)) *
         (PathPoint.y (path_point p) - PathPoint.y (path_point q)))
  | None => distance_s0
  end.

(** The point added to the current trajectory. *)
Definition partitioned_point (g : GearPosition) (d : double)
           (p : TrajectoryPoint.t) : TrajectoryPoint.t :=
  let gd := gear_drive g in
  TrajectoryPoint.mk
    (PathPoint.mk (PathPoint.x (path_point p)) (PathPoint.y (path_point p))
                  (PathPoint.theta (path_point p)) d
                  (steer_to_kappa (steer p) gd))
    (v p * gd) (a p * gd) (relative_time p) 0.

(** One turn of the [for (size_t i = 0; i < horizon; i++)] loop. *)
Definition partition_step (prev : option TrajectoryPoint.t)
           (p : TrajectoryPoint.t) (st : loop_state) : loop_state :=
  let st := shift_if_reversed p st in
  let d := accumulate_distance prev p (distance_s st) in
  mk_loop_state (closed st)
                (current_trajectory st ++ [partitioned_point (gear_back st) d p])
                (closed_gears st) (gear_back st) d.

Fixpoint partition_loop (prev : option TrajectoryPoint.t)
         (from_i : list TrajectoryPoint.t) (st : loop_state) : loop_state :=
  match from_i with
  | [] => st
  | p :: rest => partition_loop (Some p) rest (partition_step prev p st)
  end.

(** The trajectories and their gears after the partition loop. *)
Definition partition (stitched_trajectory_to_end : list TrajectoryPoint.t)
  : outcome (Status.t + loop_state) :=
  obind (initial_gear stitched_trajectory_to_end)
    (fun g =>
       match g with
       | inl err => Done (inl err)
       | inr g0 =>
           Done (inr (partition_loop None stitched_trajectory_to_end
                        (mk_loop_state [] [] [] g0 0)))
       end).

(** The search for the closest point: [best] is
    [(min_distance, current_trajectory_index, closest_trajectory_point_index)]. *)
Definition squared_distance (vehicle_state : VehicleState.t)
           (p : TrajectoryPoint.t) : double :=
  (PathPoint.x (path_point p) - VehicleState.x vehicle_state) *
  (PathPoint.x (path_point p) - VehicleState.x vehicle_state) +
  (PathPoint.y (path_point p) - VehicleState.y vehicle_state) *
  (PathPoint.y (path_point p) - VehicleState.y vehicle_state).

Fixpoint closest_in_trajectory (vehicle_state : VehicleState.t) (i j : nat)
         (from_j : list TrajectoryPoint.t) (best : double * nat * nat)
  : double * nat * nat :=
  match from_j with
  | [] => best
  | p :: rest =>
      let distance := squared_distance vehicle_state p in
      closest_in_trajectory vehicle_state i (S j) rest
        (if distance <? fst (fst best) then (distance, i, j) else best)
  end.

Fixpoint closest_in_partition (vehicle_state : VehicleState.t) (i : nat)
         (from_i : list (list TrajectoryPoint.t)) (best : double * nat * nat)
  : double * nat * nat :=
  match from_i with
  | [] => best
  | trajectory :: rest =>
      closest_in_partition vehicle_state (S i) rest
        (closest_in_trajectory vehicle_state i 0 trajectory best)
  end.

Definition closest (vehicle_state : VehicleState.t)
           (trajectories : list (list TrajectoryPoint.t)) : double * nat * nat :=
  closest_in_partition vehicle_state 0 trajectories (DBL_MAX, 0%nat, 0%nat).

Definition shift_time (time_shift : double) (p : TrajectoryPoint.t) : TrajectoryPoint.t :=
  set_relative_time p (relative_time p - time_shift).

(** [TrajectoryPartition]: the status returned and the output record.
    [vehicle_state] is what [VehicleStateProvider::Instance()] holds. *)
Definition TrajectoryPartition (vehicle_state : VehicleState.t)
           (last_publishable_trajectory : PublishableTrajectory.t)
           (trajectory_pb : ADCTrajectory.t)
  : outcome (Status.t * ADCTrajectory.t) :=
  let stitched_trajectory_to_end :=
    PublishableTrajectory.trajectory_points last_publishable_trajectory in
  obind (partition stitched_trajectory_to_end)
    (fun r =>
       match r with
       | inl err => Done (err, trajectory_pb)
       | inr st =>
           let '(_, current_trajectory_index, closest_trajectory_point_index) :=
             closest vehicle_state (trajectory_partition st) in
           obind (at_index (trajectory_partition st) current_trajectory_index)
             (fun chosen =>
           obind (at_index chosen closest_trajectory_point_index)
             (fun nearest =>
           obind (at_index (gear_positions st) current_trajectory_index)
             (fun g =>
                let time_shift := relative_time nearest in
                Done (Status.OK,
                      ADCTrajectory.with_gear (Some g)
                        (ADCTrajectory.with_trajectory_point
                           (map (shift_time time_shift) chosen) trajectory_pb)))))
       end).

End WithLibm.
End Partitioner.

(** * Configuration *)

(** The gflags this file reads. *)
Record Flags := mk_Flags {
  FLAGS_estimate_current_vehicle_state : bool;
  FLAGS_publish_estop : bool;
  FLAGS_enable_record_debug : bool;
  FLAGS_export_chart : bool;
  FLAGS_use_planning_fallback : bool;
  FLAGS_enable_stitch_last_trajectory : bool;
  FLAGS_open_space_planning_period : double;
  FLAGS_trajectory_time_length : double;
  FLAGS_trajectory_time_resolution : double;
  FLAGS_max_history_frame_num : nat }.

(** [vehicle_config.vehicle_param()]. *)
Record VehicleParam := mk_VehicleParam {
  vehicle_length : double;
  vehicle_width : double;
  back_edge_to_center : double }.

(** * The debug chart *)

Module ChartExport.
Local Open Scope string_scope.

(** [std::to_string] of a non-negative [int]. *)
Definition to_string (n : nat) : string :=
  DecimalString.NilZero.string_of_uint (Nat.to_uint n).

(** The polygon points of one obstacle: [vertices_y_coords(k)] is read for
    every index of [vertices_x_coords]. *)
Fixpoint obstacle_points (xs ys : list double) : outcome (list (double * double)) :=
  match xs with
  | [] => Done []
  | x :: xs' =>
      match ys with
      | [] => Undefined
      | y :: ys' =>
          obind (obstacle_points xs' ys') (fun rest => Done ((x, y) :: rest))
      end
  end.

Definition obstacle_properties : list (string * string) :=
  [("borderWidth", "2"); ("pointRadius", "0"); ("lineTension", "0");
   ("fill", "false"); ("showLine", "true")].

Definition line_properties : list (string * string) :=
  [("borderWidth", "2"); ("pointRadius", "0");
   ("fill", "false"); ("showLine", "true")].

Fixpoint obstacle_polygons (obstacle_index : nat)
         (obstacles : list OpenSpaceDebug.obstacle) : outcome (list Chart.curve) :=
  match obstacles with
  | [] => Done []
  | o :: rest =>
      obind (obstacle_points (OpenSpaceDebug.vertices_x_coords o)
                             (OpenSpaceDebug.vertices_y_coords o))
        (fun pts =>
      obind (obstacle_polygons (obstacle_index + 1) rest)
        (fun polys =>
           Done (Chart.mk_curve ("boundary_" ++ to_string obstacle_index)
                                pts obstacle_properties :: polys)))
  end.

Definition line_of (label : string) (points : list TrajectoryPoint.t) : Chart.curve :=
  Chart.mk_curve label
    (map (fun p => (PathPoint.x (TrajectoryPoint.path_point p),
                    PathPoint.y (TrajectoryPoint.path_point p))) points)
    line_properties.

(** [AddOpenSpaceTrajectory] on the chart [add_chart()] has just made. *)
Definition AddOpenSpaceTrajectory (open_space_debug : OpenSpaceDebug.t)
  : outcome Chart.t :=
  if negb (Nat.eqb (OpenSpaceDebug.xy_boundary_size open_space_debug) 4)
  then Aborted
  else
    obind (obstacle_polygons 1 (OpenSpaceDebug.obstacles open_space_debug))
      (fun polygons =>
         Done (Chart.mk "Open Space Trajectory Visualization"
                 (Chart.mk_axis (-20)%float 20%float "x (meter)")
                 (Chart.mk_axis (-10)%float 10%float "y (meter)")
                 polygons
                 [line_of "smoothed"
                    (OpenSpaceDebug.smoothed_trajectory open_space_debug);
                  line_of "warm_start"
                    (OpenSpaceDebug.warm_start_trajectory open_space_debug)])).

Definition ExportOpenSpaceChart (flags : Flags) (debug_info : OpenSpaceDebug.t)
           (debug_chart : Debug.t) : outcome Debug.t :=
  if FLAGS_enable_record_debug flags then
    obind (AddOpenSpaceTrajectory debug_info)
      (fun c => Done (Debug.mk (Debug.init_point debug_chart)
                               (Debug.open_space debug_chart)
                               (Debug.chart debug_chart ++ [c])))
  else Done debug_chart.

End ChartExport.

Definition CheckPlanningConfig {Config : Type} (config : Config) : bool := true.

Module PredictionObstacles.
Record t := mk { header : option Header.t }.
End PredictionObstacles.

(** * The cycle orchestrator *)

Section Orchestrator.

(** Types declared in other parts of Apollo. *)
Variables Localization Chassis Obstacle Box2d PlannerState : Type.

Record LocalView := mk_LocalView {
  localization_estimate : Localization;
  chassis : Chassis;
  routing : RoutingResponse.t;
  prediction_obstacles : PredictionObstacles.t }.

(** [Frame]: the per-cycle context.  [trajectory] is the frame's own
    record ([mutable_trajectory()]). *)
Record Frame := mk_Frame {
  SequenceNum : Z;
  frame_local_view : LocalView;
  planning_start_point : TrajectoryPoint.t;
  start_time : double;
  frame_vehicle_state : VehicleState.t;
  trajectory : ADCTrajectory.t;
  obstacles : list Obstacle;
  open_space_debug : OpenSpaceDebug.t }.

Definition Frame_with_trajectory (m : ADCTrajectory.t) (f : Frame) : Frame :=
  mk_Frame (SequenceNum f) (frame_local_view f) (planning_start_point f)
           (start_time f) (frame_vehicle_state f) m (obstacles f)
           (open_space_debug f).

(** What a collaborator can write in a frame it is handed: the members
    set by the constructor (the sequence number among them) have no
    setter. *)
Record FrameUpdate := mk_FrameUpdate {
  new_trajectory : ADCTrajectory.t;
  new_obstacles : list Obstacle;
  new_open_space_debug : OpenSpaceDebug.t }.

Definition Frame_update (u : FrameUpdate) (f : Frame) : Frame :=
  mk_Frame (SequenceNum f) (frame_local_view f) (planning_start_point f)
           (start_time f) (frame_vehicle_state f) (new_trajectory u)
           (new_obstacles u) (new_open_space_debug u).

(** The collaborators of the orchestrator and the declarations it relies
    on.  [NowInSeconds n] is what the clock returns the [n]-th time it is
    read. *)
Record Collaborators := mk_Collaborators {
  NowInSeconds : nat -> double;
  VehicleStateProvider_Update : Localization -> Chassis -> Status.t * VehicleState.t;
  EstimateFuturePosition : VehicleState.t -> double -> double * double;
  ComputeStitchingTrajectory :
    VehicleState.t -> double -> double -> option PublishableTrajectory.t ->
    list TrajectoryPoint.t;
  InitForOpenSpace : Frame -> Status.t * FrameUpdate;
  planner_Plan : PlannerState -> TrajectoryPoint.t -> Frame ->
                 Status.t * FrameUpdate * PlannerState;
(** the points [SetFallbackTrajectory] adds to an output record that
      has none *)
  SetFallbackTrajectory :
    option PublishableTrajectory.t -> ADCTrajectory.t ->
    list TrajectoryPoint.t;
  Status_ToString : Status.t -> string;
  GetPointAtTime : Obstacle -> double -> TrajectoryPoint.t;
  GetBoundingBox : Obstacle -> TrajectoryPoint.t -> Box2d;
  Box2d_new : double * double -> double -> double -> double -> Box2d;
  Box2d_Shift : double * double -> Box2d -> Box2d;
  HasOverlap : Box2d -> Box2d -> bool;
  libm_tanh : double -> double;
  libm_cos : double -> double;
  libm_sin : double -> double;
  vehicle_param : VehicleParam;
  flags : Flags;
(** the width in bits of the counter [seq_num_] *)
  seq_num_bits : Z }.

(** Modelled from the spec: the frame history ([FrameHistory], declared
    outside this file), "a bounded-size history keyed by sequence number"
    where "inserting a new record evicts the oldest if full".  The oldest
    record is the head of the list. *)
Definition FrameHistory := list (Z * Frame).

Definition FrameHistory_Add (capacity : nat) (n : Z) (f : Frame)
           (h : FrameHistory) : FrameHistory :=
  (if Nat.leb capacity (List.length h) then tl h else h) ++ [(n, f)].

(** The members of [OpenSpacePlanning] and of the singletons it uses. *)
Record Planning := mk_Planning {
  local_view_ : LocalView;
  last_routing_ : RoutingResponse.t;
  last_publishable_trajectory_ : option PublishableTrajectory.t;
  seq_num_ : Z;
  frame_ : option Frame;
  predicted_bounding_rectangles_ : list (list Box2d);
  planner_ : PlannerState;
(** [VehicleStateProvider::Instance()->vehicle_state()] *)
  provider_vehicle_state : VehicleState.t;
(** [FrameHistory::Instance()] *)
  frame_history : FrameHistory;
(** how many times the clock has been read *)
  clock_reads : nat }.

Definition with_local_view (lv : LocalView) (st : Planning) : Planning :=
  mk_Planning lv (last_routing_ st) (last_publishable_trajectory_ st)
    (seq_num_ st) (frame_ st) (predicted_bounding_rectangles_ st) (planner_ st)
    (provider_vehicle_state st) (frame_history st) (clock_reads st).
Definition with_last_routing (r : RoutingResponse.t) (st : Planning) : Planning :=
  mk_Planning (local_view_ st) r (last_publishable_trajectory_ st)
    (seq_num_ st) (frame_ st) (predicted_bounding_rectangles_ st) (planner_ st)
    (provider_vehicle_state st) (frame_history st) (clock_reads st).
Definition with_last_publishable_trajectory
           (t : option PublishableTrajectory.t) (st : Planning) : Planning :=
  mk_Planning (local_view_ st) (last_routing_ st) t
    (seq_num_ st) (frame_ st) (predicted_bounding_rectangles_ st) (planner_ st)
    (provider_vehicle_state st) (frame_history st) (clock_reads st).
Definition with_seq_num (n : Z) (st : Planning) : Planning :=
  mk_Planning (local_view_ st) (last_routing_ st) (last_publishable_trajectory_ st)
    n (frame_ st) (predicted_bounding_rectangles_ st) (planner_ st)
    (provider_vehicle_state st) (frame_history st) (clock_reads st).
Definition with_frame (f : option Frame) (st : Planning) : Planning :=
  mk_Planning (local_view_ st) (last_routing_ st) (last_publishable_trajectory_ st)
    (seq_num_ st) f (predicted_bounding_rectangles_ st) (planner_ st)
    (provider_vehicle_state st) (frame_history st) (clock_reads st).
Definition with_predicted_bounding_rectangles
           (b : list (list Box2d)) (st : Planning) : Planning :=
  mk_Planning (local_view_ st) (last_routing_ st) (last_publishable_trajectory_ st)
    (seq_num_ st) (frame_ st) b (planner_ st)
    (provider_vehicle_state st) (frame_history st) (clock_reads st).
Definition with_planner (p : PlannerState) (st : Planning) : Planning :=
  mk_Planning (local_view_ st) (last_routing_ st) (last_publishable_trajectory_ st)
    (seq_num_ st) (frame_ st) (predicted_bounding_rectangles_ st) p
    (provider_vehicle_state st) (frame_history st) (clock_reads st).
Definition with_provider_vehicle_state (vs : VehicleState.t) (st : Planning)
  : Planning :=
  mk_Planning (local_view_ st) (last_routing_ st) (last_publishable_trajectory_ st)
    (seq_num_ st) (frame_ st) (predicted_bounding_rectangles_ st) (planner_ st)
    vs (frame_history st) (clock_reads st).
Definition with_frame_history (h : FrameHistory) (st : Planning) : Planning :=
  mk_Planning (local_view_ st) (last_routing_ st) (last_publishable_trajectory_ st)
    (seq_num_ st) (frame_ st) (predicted_bounding_rectangles_ st) (planner_ st)
    (provider_vehicle_state st) h (clock_reads st).
Definition with_clock_reads (n : nat) (st : Planning) : Planning :=
  mk_Planning (local_view_ st) (last_routing_ st) (last_publishable_trajectory_ st)
    (seq_num_ st) (frame_ st) (predicted_bounding_rectangles_ st) (planner_ st)
    (provider_vehicle_state st) (frame_history st) n.

Variable env : Collaborators.

(** [Clock::NowInSeconds()]: the reading and the state after it. *)
Definition read_clock (st : Planning) : double * Planning :=
  (NowInSeconds env (clock_reads st), with_clock_reads (S (clock_reads st)) st).

(** ** The predicted environment and the collision check *)

Local Open Scope float_scope.

(** The [while (relative_time < FLAGS_trajectory_time_length)] loop. *)
Fixpoint predicted_environment_loop (fuel : nat) (relative_time : double)
         (obstacle_list : list Obstacle) (rectangles : list (list Box2d))
  : outcome (list (list Box2d)) :=
  match fuel with
  | O => OutOfFuel
  | S fuel' =>
      if relative_time <? FLAGS_trajectory_time_length (flags env) then
        let predicted_env :=
          map (fun obstacle =>
                 GetBoundingBox env obstacle
                   (GetPointAtTime env obstacle relative_time)) obstacle_list in
        predicted_environment_loop fuel'
          (relative_time + FLAGS_trajectory_time_resolution (flags env))
          obstacle_list (rectangles ++ [predicted_env])
      else Done rectangles
  end.

(** [BuildPredictedEnvironment]: the new [predicted_bounding_rectangles_]. *)
Definition BuildPredictedEnvironment (fuel : nat) (obstacle_list : list Obstacle)
  : outcome (list (list Box2d)) :=
  predicted_environment_loop fuel 0 obstacle_list [].

Definition ego_box_at (trajectory_point : TrajectoryPoint.t) : Box2d :=
  let ego_length := vehicle_length (vehicle_param env) in
  let ego_width := vehicle_width (vehicle_param env) in
  let ego_theta := PathPoint.theta (TrajectoryPoint.path_point trajectory_point) in
  let ego_box :=
    Box2d_new env
      (PathPoint.x (TrajectoryPoint.path_point trajectory_point),
       PathPoint.y (TrajectoryPoint.path_point trajectory_point))
      ego_theta ego_length ego_width in
  let shift_distance :=
    ego_length / 2 - back_edge_to_center (vehicle_param env) in
  let shift_vec := (shift_distance * libm_cos env ego_theta,
                    shift_distance * libm_sin env ego_theta) in
  Box2d_Shift env shift_vec ego_box.

(** The [for (int i = 0; i < point_size; ++i)] loop; [from_i] holds the
    points from index [i] on. *)
Fixpoint collision_loop (rectangles : list (list Box2d)) (i : nat)
         (from_i : list TrajectoryPoint.t) : outcome bool :=
  match from_i with
  | [] => Done true
  | trajectory_point :: rest =>
      let ego_box := ego_box_at trajectory_point in
      if negb (Nat.eqb (List.length rectangles) 0) then
        obind (at_index rectangles i)
          (fun boxes =>
             if existsb (fun obstacle_box => HasOverlap env ego_box obstacle_box) boxes
             then Done false
             else collision_loop rectangles (S i) rest)
      else collision_loop rectangles (S i) rest
  end.

Definition IsCollisionFreeTrajectory (rectangles : list (list Box2d))
           (trajectory_pb : ADCTrajectory.t) : outcome bool :=
  collision_loop rectangles 0 (ADCTrajectory.trajectory_point trajectory_pb).

(** ** The header fill *)

(** The header part of [FillPlanningPb]. *)
Definition fill_header (timestamp : double) (st : Planning)
           (trajectory_pb : ADCTrajectory.t) : ADCTrajectory.t :=
  let trajectory_pb :=
    ADCTrajectory.mutable_header (Header.set_timestamp_sec timestamp) trajectory_pb in
  let prediction_header :=
    PredictionObstacles.header (prediction_obstacles (local_view_ st)) in
  let trajectory_pb :=
    match prediction_header with
    | None =>
        let h := header_or_default prediction_header in
        ADCTrajectory.mutable_header
          (Header.set_radar_timestamp (Header.get_radar_timestamp h))
          (ADCTrajectory.mutable_header
             (Header.set_camera_timestamp (Header.get_camera_timestamp h))
             (ADCTrajectory.mutable_header
                (Header.set_lidar_timestamp (Header.get_lidar_timestamp h))
                trajectory_pb))
    | Some _ => trajectory_pb
    end in
  ADCTrajectory.with_routing_header
    (Some (header_or_default (RoutingResponse.header (routing (local_view_ st)))))
    trajectory_pb.

(** The fallback part: the points of the record once the fallback
    trajectory has been substituted for an empty one. *)
Definition points_after_fallback (st : Planning)
           (trajectory_pb : ADCTrajectory.t) : list TrajectoryPoint.t :=
  if FLAGS_use_planning_fallback (flags env)
     && Nat.eqb (List.length (ADCTrajectory.trajectory_point trajectory_pb)) 0
  then SetFallbackTrajectory env (last_publishable_trajectory_ st) trajectory_pb
  else ADCTrajectory.trajectory_point trajectory_pb.

(** The wall-clock correction of one point. *)
Definition correct_relative_time (dt : double) (p : TrajectoryPoint.t)
  : TrajectoryPoint.t :=
  TrajectoryPoint.set_relative_time p (TrajectoryPoint.relative_time p - dt).

Definition FillPlanningPb (timestamp : double) (st : Planning)
           (trajectory_pb : ADCTrajectory.t) : Planning * ADCTrajectory.t :=
  let trajectory_pb := fill_header timestamp st trajectory_pb in
  let trajectory_pb :=
    ADCTrajectory.with_trajectory_point
      (points_after_fallback st trajectory_pb) trajectory_pb in
  let '(now, st) := read_clock st in
  let dt := timestamp - now in
  (st,
   ADCTrajectory.with_trajectory_point
     (map (correct_relative_time dt)
          (ADCTrajectory.trajectory_point trajectory_pb))
     trajectory_pb).

(** ** One cycle *)

(** [InitFrame]: the status, and [frame_] left pointing to the new frame. *)
Definition InitFrame (sequence_num : Z)
           (planning_start_point0 : TrajectoryPoint.t) (start_time0 : double)
           (vehicle_state : VehicleState.t) (st : Planning)
  : Status.t * Planning :=
  let frame :=
    mk_Frame sequence_num (local_view_ st) planning_start_point0 start_time0
             vehicle_state ADCTrajectory.fresh [] OpenSpaceDebug.default in
  let '(status, update) := InitForOpenSpace env frame in
  (status, with_frame (Some (Frame_update update frame)) st).

Definition collision_check_failed : Status.t :=
  Status.mk Status.PLANNING_ERROR "Collision Check failed".

(** [*frame_]: undefined when [frame_] is null. *)
Definition deref_frame (st : Planning) : outcome Frame :=
  match frame_ st with
  | Some f => Done f
  | None => Undefined
  end.

Definition record_init_point (start : TrajectoryPoint.t)
           (trajectory_pb : ADCTrajectory.t) : ADCTrajectory.t :=
  let d := ADCTrajectory.debug trajectory_pb in
  ADCTrajectory.with_debug
    (Debug.mk (Some start) (Debug.open_space d) (Debug.chart d)) trajectory_pb.

Definition record_open_space (o : OpenSpaceDebug.t)
           (trajectory_pb : ADCTrajectory.t) : ADCTrajectory.t :=
  let d := ADCTrajectory.debug trajectory_pb in
  ADCTrajectory.with_debug
    (Debug.mk (Debug.init_point d) (Some o) (Debug.chart d)) trajectory_pb.

(** The frame's trajectory after "adjust the relative time". *)
Definition trajectory_after_stitching_point (current_time_stamp : double)
           (start : TrajectoryPoint.t) (frame : Frame) : ADCTrajectory.t :=
  let t :=
    ADCTrajectory.mutable_header (Header.set_timestamp_sec current_time_stamp)
                                 (trajectory frame) in
  let last_stitching_trajectory_relative_time :=
    TrajectoryPoint.relative_time start in
  ADCTrajectory.with_trajectory_point
    (map (fun p => TrajectoryPoint.set_relative_time p
                     (TrajectoryPoint.relative_time p +
                      last_stitching_trajectory_relative_time))
         (ADCTrajectory.trajectory_point t))
    t.

(** What [last_publishable_trajectory_] is reset to: a copy of the
    adjusted frame trajectory, with the stitching points but the last
    prepended when the flag asks for it. *)
Definition new_last_publishable_trajectory
           (stitching_trajectory : list TrajectoryPoint.t)
           (adjusted : ADCTrajectory.t) : PublishableTrajectory.t :=
  let t := PublishableTrajectory.of_ADCTrajectory adjusted in
  if FLAGS_enable_stitch_last_trajectory (flags env)
  then PublishableTrajectory.PrependTrajectoryPoints
         (removelast stitching_trajectory) t
  else t.

(** The debug payload [Plan] records once the planner has succeeded. *)
Definition record_planner_debug (start : TrajectoryPoint.t)
           (debug_info : OpenSpaceDebug.t) (trajectory_pb : ADCTrajectory.t)
  : outcome ADCTrajectory.t :=
  let trajectory_pb :=
    if FLAGS_enable_record_debug (flags env)
    then record_open_space debug_info (record_init_point start trajectory_pb)
    else trajectory_pb in
  if FLAGS_enable_record_debug (flags env) && FLAGS_export_chart (flags env)
  then
    obind (ChartExport.ExportOpenSpaceChart (flags env) debug_info
             (ADCTrajectory.debug trajectory_pb))
      (fun d => Done (ADCTrajectory.with_debug d trajectory_pb))
  else Done trajectory_pb.

Definition Plan (fuel : nat) (current_time_stamp : double)
           (stitching_trajectory : list TrajectoryPoint.t)
           (st : Planning) (trajectory_pb : ADCTrajectory.t)
  : outcome (Status.t * Planning * ADCTrajectory.t) :=
  obind (back stitching_trajectory) (fun start =>
  let trajectory_pb :=
    if FLAGS_enable_record_debug (flags env)
    then record_init_point start trajectory_pb else trajectory_pb in
  obind (deref_frame st) (fun frame =>
  let '(status, update, planner') := planner_Plan env (planner_ st) start frame in
  let frame := Frame_update update frame in
  let st := with_planner planner' (with_frame (Some frame) st) in
  if negb (Status.eqb status Status.OK) then Done (status, st, trajectory_pb)
  else
    obind (record_planner_debug start (open_space_debug frame) trajectory_pb)
      (fun trajectory_pb =>
    let adjusted :=
      trajectory_after_stitching_point current_time_stamp start frame in
    let frame := Frame_with_trajectory adjusted frame in
    let published :=
      new_last_publishable_trajectory stitching_trajectory adjusted in
    let st :=
      with_last_publishable_trajectory (Some published)
        (with_frame (Some frame) st) in
    obind (Partitioner.TrajectoryPartition (libm_tanh env)
             (provider_vehicle_state st) published trajectory_pb)
      (fun '(trajectory_partition_status, trajectory_pb) =>
    if negb (Status.eqb trajectory_partition_status Status.OK)
    then Done (trajectory_partition_status, st, trajectory_pb)
    else
      obind (BuildPredictedEnvironment fuel (obstacles frame))
        (fun rectangles =>
      let st := with_predicted_bounding_rectangles rectangles st in
      obind (IsCollisionFreeTrajectory rectangles trajectory_pb)
        (fun free =>
      if negb free then Done (collision_check_failed, st, trajectory_pb)
      else Done (Status.OK, st, trajectory_pb))))))).

(** The vehicle state the gate looks at: the provider's, moved to the
    estimated position when the flag is set and the state is fresh. *)
Definition estimated_vehicle_state (start_timestamp : double)
           (vehicle_state : VehicleState.t) : VehicleState.t :=
  if FLAGS_estimate_current_vehicle_state (flags env)
     && (start_timestamp - VehicleState.timestamp vehicle_state
         <? 0x1.47ae147ae147bp-6)
  then
    let future_xy :=
      EstimateFuturePosition env vehicle_state
        (start_timestamp - VehicleState.timestamp vehicle_state) in
    VehicleState.mk (fst future_xy) (snd future_xy)
      (VehicleState.z vehicle_state) (VehicleState.heading vehicle_state)
      (VehicleState.kappa vehicle_state)
      (VehicleState.linear_velocity vehicle_state)
      (VehicleState.linear_acceleration vehicle_state)
      start_timestamp
  else vehicle_state.

(** [const uint32_t frame_num = seq_num_++]. *)
Definition frame_num_of (seq : Z) : Z := (seq mod 2 ^ 32)%Z.
Definition seq_num_incr (seq : Z) : Z := ((seq + 1) mod 2 ^ seq_num_bits env)%Z.

(** The frame's trajectory takes a copy of the output record, and
    [FrameHistory::Instance()->Add(n, std::move(frame_))] follows. *)
Definition archive (st : Planning) (trajectory_pb : ADCTrajectory.t)
  : outcome Planning :=
  obind (deref_frame st) (fun frame =>
  let frame := Frame_with_trajectory trajectory_pb frame in
  let n := SequenceNum frame in
  Done (with_frame None
          (with_frame_history
             (FrameHistory_Add (FLAGS_max_history_frame_num (flags env)) n frame
                               (frame_history st))
             st))).

Definition set_estop (reason : string) (m : ADCTrajectory.t) : ADCTrajectory.t :=
  ADCTrajectory.with_estop (Some (EStop.mk true reason)) m.

(** The branch of [RunOnce] taken when the gate rejects the state. *)
Definition fail_invalid_state (start_timestamp : double) (status : Status.t)
           (st : Planning) (trajectory_pb : ADCTrajectory.t)
  : Planning * ADCTrajectory.t :=
  FillPlanningPb start_timestamp st
    (ADCTrajectory.mutable_header (Header.save_status status) trajectory_pb).

(** The record the [InitFrame] failure branch hands to its first
    [FillPlanningPb]: a new e-stop record, or the output record with the
    not-ready decision. *)
Definition init_failure_record (status : Status.t)
           (trajectory_pb : ADCTrajectory.t) : ADCTrajectory.t :=
  if FLAGS_publish_estop (flags env) then
    ADCTrajectory.mutable_header (Header.save_status status)
      (set_estop (Status.error_message status) ADCTrajectory.fresh)
  else
    ADCTrajectory.mutable_header (Header.save_status status)
      (ADCTrajectory.with_not_ready_reason
         (Some (Status_ToString env status)) trajectory_pb).

(** The branch of [RunOnce] taken when [InitFrame] fails. *)
Definition fail_init_frame (start_timestamp : double) (status : Status.t)
           (st : Planning) (trajectory_pb : ADCTrajectory.t)
  : outcome (Planning * ADCTrajectory.t) :=
  let '(st, trajectory_pb) :=
    FillPlanningPb start_timestamp st
                   (init_failure_record status trajectory_pb) in
  let '(st, trajectory_pb) := FillPlanningPb start_timestamp st trajectory_pb in
  obind (archive st trajectory_pb) (fun st => Done (st, trajectory_pb)).

(** The end of [RunOnce] after [Plan] has returned [status]. *)
Definition finish_cycle (start_timestamp : double) (status : Status.t)
           (stitching_trajectory : list TrajectoryPoint.t)
           (st : Planning) (trajectory_pb : ADCTrajectory.t)
  : outcome (Planning * ADCTrajectory.t) :=
  let '(now, st) := read_clock st in
  let time_diff_ms := (now - start_timestamp) * 1000 in
  let trajectory_pb :=
    ADCTrajectory.with_latency_stats
      (LatencyStats.mk
         (LatencyStats.init_frame_time_ms (ADCTrajectory.latency_stats trajectory_pb))
         (Some time_diff_ms))
      trajectory_pb in
  let trajectory_pb :=
    if negb (Status.ok status) then
      let trajectory_pb :=
        ADCTrajectory.mutable_header (Header.save_status status) trajectory_pb in
      if FLAGS_publish_estop (flags env)
      then set_estop (Status.error_message status) trajectory_pb
      else trajectory_pb
    else trajectory_pb in
  let trajectory_pb :=
    ADCTrajectory.with_is_replan
      (Some (Nat.eqb (List.length stitching_trajectory) 1)) trajectory_pb in
  let '(st, trajectory_pb) := FillPlanningPb start_timestamp st trajectory_pb in
  obind (archive st trajectory_pb) (fun st => Done (st, trajectory_pb)).

(** The start of [RunOnce], up to the gate: the start timestamp, the
    status of the provider's update, the state the gate looks at, and the
    members after these steps. *)
Definition begin_cycle (st : Planning) (local_view : LocalView)
  : double * Status.t * VehicleState.t * Planning :=
  let st := with_local_view local_view st in
  let '(start_timestamp, st) := read_clock st in
  let '(status, provided) :=
    VehicleStateProvider_Update env (localization_estimate local_view)
                                (chassis local_view) in
  let st := with_provider_vehicle_state provided st in
  (start_timestamp, status, estimated_vehicle_state start_timestamp provided, st).

(** From the gate to the test of [InitFrame]'s status: the stitching
    trajectory, its last point, that status, the members and the output
    record with the frame-initialization latency. *)
Definition prepare_frame (start_timestamp : double)
           (vehicle_state : VehicleState.t) (st : Planning)
           (local_view : LocalView) (trajectory_pb : ADCTrajectory.t)
  : outcome (list TrajectoryPoint.t * TrajectoryPoint.t * Status.t *
             Planning * ADCTrajectory.t) :=
  let st :=
    if IsDifferentRouting (last_routing_ st) (routing local_view)
    then with_last_routing (routing local_view) st else st in
  let planning_cycle_time := FLAGS_open_space_planning_period (flags env) in
  let stitching_trajectory :=
    ComputeStitchingTrajectory env vehicle_state start_timestamp
      planning_cycle_time (last_publishable_trajectory_ st) in
  let frame_num := frame_num_of (seq_num_ st) in
  let st := with_seq_num (seq_num_incr (seq_num_ st)) st in
  obind (back stitching_trajectory) (fun start =>
  let '(status, st) :=
    InitFrame frame_num start start_timestamp vehicle_state st in
  let '(now, st) := read_clock st in
  let trajectory_pb :=
    ADCTrajectory.with_latency_stats
      (LatencyStats.mk
         (Some (now - start_timestamp))
         (LatencyStats.total_time_ms (ADCTrajectory.latency_stats trajectory_pb)))
      trajectory_pb in
  Done (stitching_trajectory, start, status, st, trajectory_pb)).

Definition RunOnce (fuel : nat) (st : Planning) (local_view : LocalView)
           (trajectory_pb : ADCTrajectory.t)
  : outcome (Planning * ADCTrajectory.t) :=
  let '(start_timestamp, status, vehicle_state, st) := begin_cycle st local_view in
  if negb (IsVehicleStateValid vehicle_state) then
    Done (fail_invalid_state start_timestamp status st trajectory_pb)
  else
    obind (prepare_frame start_timestamp vehicle_state st local_view trajectory_pb)
      (fun '(stitching_trajectory, _, status, st, trajectory_pb) =>
    if negb (Status.ok status) then
      fail_init_frame start_timestamp status st trajectory_pb
    else
      obind (Plan fuel start_timestamp stitching_trajectory st trajectory_pb)
        (fun '(status, st, trajectory_pb) =>
           finish_cycle start_timestamp status stitching_trajectory st
                        trajectory_pb)).

(** The arguments with which the cycle reaches [planner_->Plan]: the
    start timestamp, the stitching trajectory, its last point, the frame
    and the planner; [None] when the cycle ends before that call (the
    gate rejects the state, or [InitFrame] fails). *)
Definition planner_call (st : Planning) (local_view : LocalView)
           (trajectory_pb : ADCTrajectory.t)
  : option (double * list TrajectoryPoint.t * TrajectoryPoint.t * Frame *
            PlannerState) :=
  let '(start_timestamp, _, vehicle_state, st) := begin_cycle st local_view in
  if negb (IsVehicleStateValid vehicle_state) then None
  else
    match prepare_frame start_timestamp vehicle_state st local_view trajectory_pb with
    | Done (stitching_trajectory, start, status, st, _) =>
        if negb (Status.ok status) then None
        else
          match frame_ st with
          | Some frame =>
              Some (start_timestamp, stitching_trajectory, start, frame, planner_ st)
          | None => None
          end
    | _ => None
    end.

End Orchestrator.

Arguments mk_LocalView {Localization Chassis} _ _ _ _.
Arguments mk_Planning {Localization Chassis Obstacle Box2d PlannerState}
  _ _ _ _ _ _ _ _ _ _.

(** * A test bench

    Concrete collaborators, in the manner of a unit test's fixtures, on
    which the cycle can be run.  The localization message is the pose
    itself, the planner returns the raw trajectory and status held in its
    state, boxes are axis-aligned, and the libm functions are the ones
    exact at the only argument the bench reaches ([theta = 0],
    [steer = 0]). *)
Module Bench.
Local Open Scope float_scope.

Record Box := mk_Box { cx : double; cy : double; half_length : double;
                       half_width : double }.

Definition overlap (b1 b2 : Box) : bool :=
  (PrimFloat.abs (cx b1 - cx b2) <=? half_length b1 + half_length b2)
  && (PrimFloat.abs (cy b1 - cy b2) <=? half_width b1 + half_width b2).

(** The raw trajectory the planner will return, and its status. *)
Record Scripted := mk_Scripted { raw : list TrajectoryPoint.t;
                                 verdict : Status.t;
                                 tracked : list Box }.

Definition point (x v t : double) : TrajectoryPoint.t :=
  TrajectoryPoint.mk (PathPoint.mk x 0 0 0 0) v 0 t 0.

Definition pose (x y : double) : VehicleState.t :=
  VehicleState.mk x y 0 0 0 0 0 0.

Definition flags : Flags :=
  mk_Flags false true false false true true
           0x1p-3 2 0x1p-1 1.

Definition env (init_status : Status.t)
  : Collaborators VehicleState.t unit Box Box Scripted :=
  mk_Collaborators
    (fun n => 100 + PrimFloat.of_uint63 (Uint63.of_nat n))
    (fun loc _ => (Status.OK, loc))
    (fun vs _ => (VehicleState.x vs, VehicleState.y vs))
    (fun vs _ _ _ => [point (VehicleState.x vs) (VehicleState.linear_velocity vs) 0])
    (fun f => (init_status,
               mk_FrameUpdate (trajectory f) (obstacles f) (open_space_debug f)))
    (fun script _ f =>
       (verdict script,
        mk_FrameUpdate
          (ADCTrajectory.with_trajectory_point (raw script) (trajectory f))
          (tracked script) (open_space_debug f),
        script))
    (fun last _ =>
       match last with
       | Some t => PublishableTrajectory.trajectory_points t
       | None => []
       end)
    Status.msg
    (fun o _ => point (cx o) 0 0)
    (fun o _ => o)
    (fun c _ l w => mk_Box (fst c) (snd c) (l / 2) (w / 2))
    (fun d b => mk_Box (cx b + fst d) (cy b + snd d) (half_length b) (half_width b))
    overlap
    (fun x => x)
    (fun _ => 1)
    (fun x => x)
    (mk_VehicleParam 4 2 1)
    flags
    64.

Definition origin : VehicleState.t := pose 0 0.
Definition nan_position : VehicleState.t := pose nan 0.
Definition infinite_position : VehicleState.t := pose infinity 0.

Definition view (vs : VehicleState.t) : LocalView VehicleState.t unit :=
  mk_LocalView vs tt (RoutingResponse.mk None) (PredictionObstacles.mk None).

Definition initial (script : Scripted)
  : Planning VehicleState.t unit Box Box Scripted :=
  mk_Planning (view origin) RoutingResponse.cleared None 0%Z None []
              script origin [] 0%nat.

(** Three forward points, no obstacle: a cycle that publishes. *)
Definition forward : Scripted :=
  mk_Scripted [point 0 1 0; point 1 1 1; point 2 1 2] Status.OK [].

(** Two points: the planner succeeds and the partitioner refuses. *)
Definition too_few : Scripted :=
  mk_Scripted [point 0 1 0; point 1 1 1] Status.OK [].

Definition init_failure : Status.t := Status.mk Status.PLANNING_ERROR "no frame".

(** The velocities [1,1,1,-1,-1,-1] along the x axis, one metre and one
    second apart. *)
Definition there_and_back : list TrajectoryPoint.t :=
  [point 0 1 0; point 1 1 1; point 2 1 2;
   point 3 (-1) 3; point 4 (-1) 4; point 5 (-1) 5].

(** Three samples at rest, then three forward. *)
Definition slow_start : list TrajectoryPoint.t :=
  [point 0 0 0; point 0 0 1; point 0 0 2;
   point 1 1 3; point 2 1 4; point 3 1 5].

(** Three samples in reverse. *)
Definition backing : list TrajectoryPoint.t :=
  [point 0 (-1) 0; point (-1) (-1) 1; point (-2) (-1) 2].



(** Members that hold a trajectory published earlier. *)
Definition warm (script : Scripted)
  : Planning VehicleState.t unit Box Box Scripted :=
  with_last_publishable_trajectory
    (Some (PublishableTrajectory.mk 0 [point 0 1 0; point 1 1 1]))
    (initial script).

(** One cycle from the initial members, on a new output record. *)
Definition cycle (script : Scripted) (init_status : Status.t)
           (vs : VehicleState.t)
  : outcome (Planning VehicleState.t unit Box Box Scripted * ADCTrajectory.t) :=
  RunOnce (env init_status) 10 (initial script) (view vs) ADCTrajectory.fresh.

(** The cycles the statements below look at. *)
Definition published := cycle forward Status.OK origin.
Definition refused := cycle too_few Status.OK origin.
Definition rejected := cycle forward Status.OK nan_position.
Definition at_infinity := cycle forward Status.OK infinite_position.
Definition without_frame := cycle forward init_failure origin.

End Bench.

(** * Observations used in the statements *)

(** The seven fields [IsVehicleStateValid] tests. *)
Definition gate_fields (vs : VehicleState.t) : list double :=
  [VehicleState.x vs; VehicleState.y vs; VehicleState.z vs;
   VehicleState.heading vs; VehicleState.kappa vs;
   VehicleState.linear_velocity vs; VehicleState.linear_acceleration vs].

(** The upstream sensor timestamps of an output record's header. *)
Definition sensor_timestamps (m : ADCTrajectory.t)
  : option Z * option Z * option Z :=
  let h := header_or_default (ADCTrajectory.header m) in
  (Header.lidar_timestamp h, Header.camera_timestamp h, Header.radar_timestamp h).

(** The header timestamp of an output record, when it has a header. *)
Definition header_timestamp (m : ADCTrajectory.t) : option double :=
  match ADCTrajectory.header m with
  | Some h => Header.timestamp_sec h
  | None => None
  end.

(** The members and the output record a cycle returned with. *)
Definition members_after {S : Type} (r : outcome (S * ADCTrajectory.t))
           (otherwise : S) : S :=
  match r with Done (st, _) => st | _ => otherwise end.

Definition record_after {S : Type} (r : outcome (S * ADCTrajectory.t))
  : ADCTrajectory.t :=
  match r with Done (_, m) => m | _ => ADCTrajectory.fresh end.

(** * Basic facts *)

Lemma obind_Done {A B : Type} (c : outcome A) (k : A -> outcome B) (b : B) :
  obind c k = Done b -> exists a, c = Done a /\ k a = Done b.
Proof.
  destruct c as [a| | |]; simpl; intros H; try discriminate.
  exists a; split; [reflexivity | exact H].
Qed.

Ltac obind_inv H :=
  let a := fresh "r" in
  let Ha := fresh "E" in
  apply obind_Done in H; destruct H as [a [Ha H]].

Lemma IsVehicleStateValid_existsb (vs : VehicleState.t) :
  IsVehicleStateValid vs = negb (existsb PrimFloat.is_nan (gate_fields vs)).
Proof.
  unfold IsVehicleStateValid, gate_fields; simpl.
  rewrite orb_false_r.
  repeat rewrite orb_assoc.
  destruct (_ || _); reflexivity.
Qed.

Section OrchestratorFacts.
Variables Localization Chassis Obstacle Box2d PlannerState : Type.
Local Notation "'Env'" :=
  (Collaborators Localization Chassis Obstacle Box2d PlannerState).
Local Notation "'State'" :=
  (Planning Localization Chassis Obstacle Box2d PlannerState).
Variable env : Env.

Lemma FillPlanningPb_sensor_timestamps (timestamp : double) (st : State)
      (pb : ADCTrajectory.t) :
  sensor_timestamps (snd (FillPlanningPb env timestamp st pb)) =
  match PredictionObstacles.header (prediction_obstacles (local_view_ st)) with
  | None => (Some 0%Z, Some 0%Z, Some 0%Z)
  | Some _ => sensor_timestamps pb
  end.
Proof.
  unfold FillPlanningPb, fill_header, read_clock.
  destruct (PredictionObstacles.header _); reflexivity.
Qed.

Lemma FillPlanningPb_header_timestamp (timestamp : double) (st : State)
      (pb : ADCTrajectory.t) :
  header_timestamp (snd (FillPlanningPb env timestamp st pb)) = Some timestamp.
Proof.
  unfold FillPlanningPb, fill_header, read_clock.
  destruct (PredictionObstacles.header _); reflexivity.
Qed.

Lemma FillPlanningPb_local_view (timestamp : double) (st : State)
      (pb : ADCTrajectory.t) :
  local_view_ (fst (FillPlanningPb env timestamp st pb)) = local_view_ st.
Proof. reflexivity. Qed.


(** The partitioner writes the points and the gear of the output record
    and nothing else. *)
Lemma TrajectoryPartition_frame (tanh : double -> double)
      (vs : VehicleState.t) (published : PublishableTrajectory.t)
      (pb pb' : ADCTrajectory.t) (status : Status.t) :
  Partitioner.TrajectoryPartition tanh vs published pb = Done (status, pb') ->
  ADCTrajectory.header pb' = ADCTrajectory.header pb /\
  ADCTrajectory.estop pb' = ADCTrajectory.estop pb /\
  ADCTrajectory.latency_stats pb' = ADCTrajectory.latency_stats pb /\
  ADCTrajectory.debug pb' = ADCTrajectory.debug pb.
Proof.
  unfold Partitioner.TrajectoryPartition; intros H.
  obind_inv H. destruct r as [err | lst].
  - inversion H; subst; auto.
  - destruct (Partitioner.closest _ _) as [[d ci] cj].
    obind_inv H. obind_inv H. obind_inv H.
    inversion H; subst; simpl; auto.
Qed.

(** Case analysis on the tests and calls of a stage that returned. *)
Ltac stage_step H :=
  match type of H with
  | obind _ _ = Done _ => obind_inv H
  | (let '(_, _) := ?x in _) = Done _ => destruct x eqn:?
  | (if ?b then _ else _) = Done _ => destruct b eqn:?
  | match ?x with _ => _ end = Done _ => destruct x eqn:?
  | Done _ = Done _ => inversion H; subst; clear H
  | Undefined = Done _ => discriminate H
  | Aborted = Done _ => discriminate H
  | OutOfFuel = Done _ => discriminate H
  end.

Lemma record_planner_debug_frame (start : TrajectoryPoint.t)
      (debug_info : OpenSpaceDebug.t) (pb pb' : ADCTrajectory.t) :
  record_planner_debug env start debug_info pb = Done pb' ->
  ADCTrajectory.header pb' = ADCTrajectory.header pb /\
  ADCTrajectory.trajectory_point pb' = ADCTrajectory.trajectory_point pb /\
  ADCTrajectory.estop pb' = ADCTrajectory.estop pb /\
  ADCTrajectory.latency_stats pb' = ADCTrajectory.latency_stats pb.
Proof.
  unfold record_planner_debug; intros H.
  repeat stage_step H; simpl;
    destruct (FLAGS_enable_record_debug (flags env)); simpl; auto.
Qed.

Lemma deref_frame_Done (st : State) (f : Frame Localization Chassis Obstacle) :
  deref_frame st = Done f -> frame_ st = Some f.
Proof. unfold deref_frame; destruct (frame_ st); congruence. Qed.

(** Everything [Plan] leaves alone, and what it does to
    [last_publishable_trajectory_]. *)
Lemma Plan_frame_conditions (fuel : nat) (t : double)
      (stitching : list TrajectoryPoint.t) (st st' : State)
      (pb pb' : ADCTrajectory.t) (status : Status.t) :
  Plan env fuel t stitching st pb = Done (status, st', pb') ->
  local_view_ st' = local_view_ st /\
  seq_num_ st' = seq_num_ st /\
  frame_history st' = frame_history st /\
  clock_reads st' = clock_reads st /\
  ADCTrajectory.header pb' = ADCTrajectory.header pb /\
  (exists f f', frame_ st = Some f /\ frame_ st' = Some f' /\
                SequenceNum f' = SequenceNum f).
Proof.
  unfold Plan; intros H.
  repeat stage_step H; simpl;
    repeat match goal with
    | E : Partitioner.TrajectoryPartition _ _ _ _ = Done _ |- _ =>
        apply TrajectoryPartition_frame in E; destruct E as (? & ? & ? & ?)
    | E : deref_frame _ = Done _ |- _ => apply deref_frame_Done in E
    | E : record_planner_debug _ _ _ _ = Done _ |- _ =>
        apply record_planner_debug_frame in E; destruct E as (? & ? & ? & ?)
    end;
    repeat split; simpl in *;
    try solve [ eauto | congruence
              | destruct (FLAGS_enable_record_debug _); simpl in *; congruence
              | repeat (destruct (FLAGS_enable_record_debug _); simpl in *); congruence ].
Qed.


Lemma FillPlanningPb_members (timestamp : double) (st : State)
      (pb : ADCTrajectory.t) :
  fst (FillPlanningPb env timestamp st pb) =
  with_clock_reads (S (clock_reads st)) st.
Proof. reflexivity. Qed.

Lemma FillPlanningPb_eta (timestamp : double) (st : State)
      (pb : ADCTrajectory.t) :
  FillPlanningPb env timestamp st pb =
  (with_clock_reads (S (clock_reads st)) st,
   snd (FillPlanningPb env timestamp st pb)).
Proof. reflexivity. Qed.

Lemma FillPlanningPb_points (timestamp : double) (st : State)
      (pb : ADCTrajectory.t) :
  ADCTrajectory.trajectory_point (snd (FillPlanningPb env timestamp st pb)) =
  map (correct_relative_time
         (timestamp - NowInSeconds env (clock_reads st))%float)
      (points_after_fallback env st (fill_header timestamp st pb)).
Proof. reflexivity. Qed.

Lemma archive_Done (st st' : State) (pb : ADCTrajectory.t) :
  archive env st pb = Done st' ->
  exists f,
    frame_ st = Some f /\
    st' = with_frame None
            (with_frame_history
               (FrameHistory_Add (FLAGS_max_history_frame_num (flags env))
                                 (SequenceNum f) (Frame_with_trajectory pb f)
                                 (frame_history st))
               st).
Proof.
  unfold archive; intros H. obind_inv H.
  apply deref_frame_Done in E. inversion H; subst.
  exists r; split; [exact E | reflexivity].
Qed.

Lemma begin_cycle_members (st : State)
      (lv : LocalView Localization Chassis) :
  let '(t, _, _, st1) := begin_cycle env st lv in
  t = NowInSeconds env (clock_reads st) /\
  local_view_ st1 = lv /\
  last_publishable_trajectory_ st1 = last_publishable_trajectory_ st /\
  seq_num_ st1 = seq_num_ st /\
  frame_history st1 = frame_history st /\
  clock_reads st1 = S (clock_reads st).
Proof.
  unfold begin_cycle, read_clock.
  destruct (VehicleStateProvider_Update env _ _) as [status provided]; simpl.
  repeat split.
Qed.

Lemma prepare_frame_Done (t : double) (vs : VehicleState.t) (st st2 : State)
      (lv : LocalView Localization Chassis) (pb pb2 : ADCTrajectory.t)
      (stitching : list TrajectoryPoint.t) (start : TrajectoryPoint.t)
      (init_status : Status.t) :
  prepare_frame env t vs st lv pb = Done (stitching, start, init_status, st2, pb2) ->
  back stitching = Done start /\
  local_view_ st2 = local_view_ st /\
  last_publishable_trajectory_ st2 = last_publishable_trajectory_ st /\
  seq_num_ st2 = seq_num_incr env (seq_num_ st) /\
  frame_history st2 = frame_history st /\
  clock_reads st2 = S (clock_reads st) /\
  (exists f, frame_ st2 = Some f /\ SequenceNum f = frame_num_of (seq_num_ st)) /\
  ADCTrajectory.header pb2 = ADCTrajectory.header pb /\
  ADCTrajectory.trajectory_point pb2 = ADCTrajectory.trajectory_point pb.
Proof.
  unfold prepare_frame, InitFrame, read_clock; intros H.
  obind_inv H.
  destruct (InitForOpenSpace env _) as [status update] eqn:Hinit.
  inversion H; subst; clear H; simpl.
  destruct (IsDifferentRouting _ _); simpl; repeat split; eauto.
Qed.

Lemma fail_init_frame_Done (t : double) (status : Status.t) (st st' : State)
      (pb pb' : ADCTrajectory.t) :
  fail_init_frame env t status st pb = Done (st', pb') ->
  pb' = snd (FillPlanningPb env t (with_clock_reads (S (clock_reads st)) st)
               (snd (FillPlanningPb env t st (init_failure_record env status pb)))) /\
  local_view_ st' = local_view_ st /\
  last_publishable_trajectory_ st' = last_publishable_trajectory_ st /\
  seq_num_ st' = seq_num_ st /\
  exists f,
    frame_ st = Some f /\
    frame_history st' =
    FrameHistory_Add (FLAGS_max_history_frame_num (flags env))
                     (SequenceNum f) (Frame_with_trajectory pb' f)
                     (frame_history st).
Proof.
  unfold fail_init_frame; intros H.
  rewrite (FillPlanningPb_eta t st) in H.
  rewrite (FillPlanningPb_eta t (with_clock_reads _ st)) in H.
  obind_inv H. inversion H; subst; clear H.
  apply archive_Done in E. destruct E as [f [Hf ->]].
  simpl in *. repeat split. exists f; split; [exact Hf | reflexivity].
Qed.

(** The record [finish_cycle] hands to [FillPlanningPb]. *)
Lemma finish_cycle_Done (t : double) (status : Status.t)
      (stitching : list TrajectoryPoint.t) (st st' : State)
      (pb pb' : ADCTrajectory.t) :
  finish_cycle env t status stitching st pb = Done (st', pb') ->
  (exists pbx,
     sensor_timestamps pbx = sensor_timestamps pb /\
     pb' = snd (FillPlanningPb env t (with_clock_reads (S (clock_reads st)) st) pbx)) /\
  local_view_ st' = local_view_ st /\
  last_publishable_trajectory_ st' = last_publishable_trajectory_ st /\
  seq_num_ st' = seq_num_ st /\
  exists f,
    frame_ st = Some f /\
    frame_history st' =
    FrameHistory_Add (FLAGS_max_history_frame_num (flags env))
                     (SequenceNum f) (Frame_with_trajectory pb' f)
                     (frame_history st).
Proof.
  unfold finish_cycle, read_clock; intros H.
  rewrite FillPlanningPb_eta in H.
  obind_inv H. inversion H; subst; clear H.
  apply archive_Done in E. destruct E as [f [Hf ->]].
  simpl in *. repeat split.
  - eexists; split; [| reflexivity].
    destruct (Status.ok status); simpl; [reflexivity |].
    destruct (FLAGS_publish_estop (flags env)); reflexivity.
  - exists f; split; [exact Hf | reflexivity].
Qed.

(** How a cycle that returned went through its stages. *)
Lemma RunOnce_Done (fuel : nat) (st st' : State)
      (lv : LocalView Localization Chassis) (pb pb' : ADCTrajectory.t) :
  RunOnce env fuel st lv pb = Done (st', pb') ->
  let '(t, status0, vs, st1) := begin_cycle env st lv in
  (IsVehicleStateValid vs = false /\
   (st', pb') = fail_invalid_state env t status0 st1 pb)
  \/
  (IsVehicleStateValid vs = true /\
   exists stitching start init_status st2 pb2,
     prepare_frame env t vs st1 lv pb =
     Done (stitching, start, init_status, st2, pb2) /\
     ((Status.ok init_status = false /\
       fail_init_frame env t init_status st2 pb2 = Done (st', pb'))
      \/
      (Status.ok init_status = true /\
       exists status st3 pb3,
         Plan env fuel t stitching st2 pb2 = Done (status, st3, pb3) /\
         finish_cycle env t status stitching st3 pb3 = Done (st', pb')))).
Proof.
  unfold RunOnce.
  destruct (begin_cycle env st lv) as [[[t status0] vs] st1].
  destruct (IsVehicleStateValid vs); simpl; intros H.
  - right; split; [reflexivity |].
    obind_inv H. destruct r as [[[[stitching start] init_status] st2] pb2].
    exists stitching, start, init_status, st2, pb2; split; [exact E |].
    destruct (Status.ok init_status); simpl in H.
    + right; split; [reflexivity |].
      obind_inv H. destruct r as [[status st3] pb3].
      exists status, st3, pb3; split; assumption.
    + left; split; [reflexivity | exact H].
  - left; split; [reflexivity |]. inversion H; reflexivity.
Qed.


Lemma Plan_last_publishable (fuel : nat) (t : double)
      (stitching : list TrajectoryPoint.t) (st st' : State)
      (pb pb' : ADCTrajectory.t) (status : Status.t)
      (start : TrajectoryPoint.t) (frame : Frame Localization Chassis Obstacle) :
  Plan env fuel t stitching st pb = Done (status, st', pb') ->
  back stitching = Done start ->
  frame_ st = Some frame ->
  last_publishable_trajectory_ st' =
  let '(planner_status, update, _) := planner_Plan env (planner_ st) start frame in
  if Status.eqb planner_status Status.OK
  then Some (new_last_publishable_trajectory env stitching
               (trajectory_after_stitching_point t start
                  (Frame_update update frame)))
  else last_publishable_trajectory_ st.
Proof.
  unfold Plan; intros H Hstart Hframe.
  rewrite Hstart in H; simpl in H.
  unfold deref_frame in H; rewrite Hframe in H; simpl in H.
  destruct (planner_Plan env (planner_ st) start frame) as [[ps update] planner'].
  destruct (Status.eqb ps Status.OK); simpl in H.
  - repeat stage_step H; reflexivity.
  - inversion H; reflexivity.
Qed.

Lemma with_trajectory_point_eta (m : ADCTrajectory.t) :
  ADCTrajectory.with_trajectory_point (ADCTrajectory.trajectory_point m) m = m.
Proof. destruct m; reflexivity. Qed.

Lemma fill_header_idem (t : double) (st1 st2 : State) (m : ADCTrajectory.t) :
  local_view_ st1 = local_view_ st2 ->
  fill_header t st1 (fill_header t st2 m) = fill_header t st2 m.
Proof.
  unfold fill_header; intros ->.
  destruct (PredictionObstacles.header _); destruct m as [[h|] ? ? ? ? ? ? ? ?];
    reflexivity.
Qed.

Lemma fill_header_points (t : double) (st : State) (m : ADCTrajectory.t) :
  ADCTrajectory.trajectory_point (fill_header t st m) =
  ADCTrajectory.trajectory_point m.
Proof.
  unfold fill_header; destruct (PredictionObstacles.header _); reflexivity.
Qed.

(** A second [FillPlanningPb] finds the points the first one left: it
    substitutes no new fallback. *)
Lemma second_fill_keeps_points (t : double) (st : State) (m : ADCTrajectory.t) :
  let first := FillPlanningPb env t st m in
  points_after_fallback env (fst first) (fill_header t (fst first) (snd first)) =
  ADCTrajectory.trajectory_point (snd first).
Proof.
  cbv zeta. rewrite FillPlanningPb_members, FillPlanningPb_points.
  unfold points_after_fallback at 1.
  rewrite fill_header_points, FillPlanningPb_points.
  destruct (FLAGS_use_planning_fallback (flags env)) eqn:Hflag;
    cbn [andb]; [| reflexivity].
  destruct (points_after_fallback env st (fill_header t st m)) as [| p l] eqn:Hpts;
    cbn [map List.length Nat.eqb]; [| reflexivity].
  (* the first fill left no point: the fallback had none to give *)
  unfold points_after_fallback in Hpts.
  rewrite Hflag, fill_header_points in Hpts; cbn [andb] in Hpts.
  destruct (ADCTrajectory.trajectory_point m) as [| q k] eqn:Hq;
    cbn [List.length Nat.eqb] in Hpts; [| discriminate].
  assert (Hsame : fill_header t (with_clock_reads (S (clock_reads st)) st)
                    (snd (FillPlanningPb env t st m)) = fill_header t st m).
  { assert (Hfirst : snd (FillPlanningPb env t st m) = fill_header t st m).
    { unfold FillPlanningPb, read_clock; cbn [snd].
      unfold points_after_fallback.
      rewrite Hflag, fill_header_points, Hq; cbn [andb List.length Nat.eqb].
      rewrite Hpts; cbn [ADCTrajectory.trajectory_point
                           ADCTrajectory.with_trajectory_point map].
      assert (Hnil : ADCTrajectory.trajectory_point (fill_header t st m) = [])
        by (rewrite fill_header_points; exact Hq).
      destruct (fill_header t st m); cbn in *; subst; reflexivity. }
    rewrite Hfirst. apply fill_header_idem; reflexivity. }
  rewrite Hsame. exact Hpts.
Qed.


(** ** The cycle and the cross-cycle members *)

(** C1, as the code has it: [last_publishable_trajectory_] is replaced as
    soon as the planner strategy returns OK, before [TrajectoryPartition]
    and the collision check run, so whatever these two return.  A cycle
    that ends before the planner is called (the gate rejects the state, or
    [InitFrame] fails), or whose planner fails, leaves it as it was. *)
Theorem last_publishable_trajectory_follows_planner
        (fuel : nat) (st st' : State) (lv : LocalView Localization Chassis)
        (pb pb' : ADCTrajectory.t) :
  RunOnce env fuel st lv pb = Done (st', pb') ->
  last_publishable_trajectory_ st' =
  match planner_call env st lv pb with
  | Some (t, stitching, start, frame, planner) =>
      let '(planner_status, update, _) := planner_Plan env planner start frame in
      if Status.eqb planner_status Status.OK
      then Some (new_last_publishable_trajectory env stitching
                   (trajectory_after_stitching_point t start
                      (Frame_update update frame)))
      else last_publishable_trajectory_ st
  | None => last_publishable_trajectory_ st
  end.
Proof.
  intros H. apply RunOnce_Done in H. unfold planner_call.
  pose proof (begin_cycle_members st lv) as Hb.
  destruct (begin_cycle env st lv) as [[[t status0] vs] st1].
  destruct Hb as (_ & _ & Hpub1 & _).
  destruct H as [[Hvalid Hfail] | [Hvalid H]]; rewrite Hvalid; simpl.
  - unfold fail_invalid_state in Hfail. rewrite FillPlanningPb_eta in Hfail.
    inversion Hfail; subst; simpl. exact Hpub1.
  - destruct H as (stitching & start & init_status & st2 & pb2 & Hprep & H).
    rewrite Hprep.
    apply prepare_frame_Done in Hprep.
    destruct Hprep as (Hstart & _ & Hpub2 & _ & _ & _ & [f [Hf _]] & _).
    destruct H as [[Hok Hfail] | [Hok H]]; rewrite Hok; simpl.
    + apply fail_init_frame_Done in Hfail.
      destruct Hfail as (_ & _ & Hpub & _). congruence.
    + destruct H as (status & st3 & pb3 & HPlan & Hfin).
      rewrite Hf.
      apply finish_cycle_Done in Hfin. destruct Hfin as (_ & _ & Hpub & _).
      rewrite Hpub, (Plan_last_publishable _ _ _ _ _ HPlan Hstart Hf).
      destruct (planner_Plan env (planner_ st2) start f) as [[ps update] planner'].
      destruct (Status.eqb ps Status.OK); congruence.
Qed.

(** C3, as the code has it: a cycle that returns has filled the header of
    the output record with the start timestamp.  When the state passed
    the gate, the cycle has archived a frame holding the output record
    under the number read from the sequence counter, and has advanced the
    counter, so that the next number is larger as long as the counter
    stays below [2^32 - 1].  When the gate rejected the state, nothing is
    archived and the counter stands. *)
Theorem gated_cycle_is_archived
        (fuel : nat) (st st' : State) (lv : LocalView Localization Chassis)
        (pb pb' : ADCTrajectory.t) :
  RunOnce env fuel st lv pb = Done (st', pb') ->
  let '(t, _, vs, _) := begin_cycle env st lv in
  header_timestamp pb' = Some t /\
  if IsVehicleStateValid vs then
    seq_num_ st' = seq_num_incr env (seq_num_ st) /\
    (exists frame,
        SequenceNum frame = frame_num_of (seq_num_ st) /\
        trajectory frame = pb' /\
        frame_history st' =
        FrameHistory_Add (FLAGS_max_history_frame_num (flags env))
                         (frame_num_of (seq_num_ st)) frame (frame_history st)) /\
    ((0 <= seq_num_ st < 2 ^ 32 - 1)%Z -> (32 <= seq_num_bits env)%Z ->
     (frame_num_of (seq_num_ st) < frame_num_of (seq_num_ st'))%Z)
  else
    seq_num_ st' = seq_num_ st /\ frame_history st' = frame_history st.
Proof.
  intros H. apply RunOnce_Done in H.
  pose proof (begin_cycle_members st lv) as Hb.
  destruct (begin_cycle env st lv) as [[[t status0] vs] st1].
  destruct Hb as (_ & _ & _ & Hseq1 & Hhist1 & _).
  destruct H as [[Hvalid Hfail] | [Hvalid H]]; rewrite Hvalid.
  - unfold fail_invalid_state in Hfail.
    split.
    + inversion Hfail; subst. apply FillPlanningPb_header_timestamp.
    + rewrite FillPlanningPb_eta in Hfail. inversion Hfail; subst; simpl.
      split; assumption.
  - destruct H as (stitching & start & init_status & st2 & pb2 & Hprep & H).
    apply prepare_frame_Done in Hprep.
    destruct Hprep as (_ & _ & _ & Hseq2 & Hhist2 & _ & [f [Hf Hnum]] & _).
    assert (Hend : header_timestamp pb' = Some t /\
                   seq_num_ st' = seq_num_ st2 /\
                   exists f', SequenceNum f' = SequenceNum f /\
                     frame_history st' =
                     FrameHistory_Add (FLAGS_max_history_frame_num (flags env))
                       (SequenceNum f') (Frame_with_trajectory pb' f')
                       (frame_history st2)).
    { destruct H as [[Hok Hfail] | [Hok H]].
      - apply fail_init_frame_Done in Hfail.
        destruct Hfail as (Hpb & _ & _ & Hseq & [f' [Hf' Hhist]]).
        split; [subst pb'; apply FillPlanningPb_header_timestamp |].
        split; [exact Hseq |].
        exists f'. split; [congruence | exact Hhist].
      - destruct H as (status & st3 & pb3 & HPlan & Hfin).
        apply Plan_frame_conditions in HPlan.
        destruct HPlan as (_ & Hseq3 & Hhist3 & _ & _ & (g & g' & Hg & Hg' & Hnum')).
        apply finish_cycle_Done in Hfin.
        destruct Hfin as ([pbx [_ Hpb]] & _ & _ & Hseq & [f' [Hf' Hhist]]).
        split; [subst pb'; apply FillPlanningPb_header_timestamp |].
        split; [congruence |].
        exists f'. split; [congruence |]. rewrite Hhist, Hhist3. reflexivity. }
    destruct Hend as (Hts & Hseq & f' & Hnum' & Hhist).
    split; [exact Hts |].
    assert (Hseq' : seq_num_ st' = seq_num_incr env (seq_num_ st)) by congruence.
    split; [exact Hseq' |]. split.
    + exists (Frame_with_trajectory pb' f'). split; [| split].
      * simpl. congruence.
      * reflexivity.
      * rewrite Hhist. f_equal; congruence.
    + intros Hrange Hbits. rewrite Hseq'. unfold frame_num_of, seq_num_incr.
      assert (Hpow : (2 ^ 32 <= 2 ^ seq_num_bits env)%Z)
        by (apply Z.pow_le_mono_r; lia).
      rewrite (Z.mod_small (seq_num_ st + 1)) by lia.
      rewrite !Z.mod_small by lia. lia.
Qed.

(** C6, as the code has it: the gate rejects a state exactly when one of
    the seven fields it tests is a NaN; a rejected state ends the cycle
    in the failure branch, which fills the output record and returns
    without stitching, frame or planner. *)
Theorem gate_rejects_exactly_nan
        (fuel : nat) (st : State) (lv : LocalView Localization Chassis)
        (pb : ADCTrajectory.t) :
  let '(t, status, vs, st1) := begin_cycle env st lv in
  (IsVehicleStateValid vs = false <->
   exists field, In field (gate_fields vs) /\ PrimFloat.is_nan field = true) /\
  (IsVehicleStateValid vs = false ->
   RunOnce env fuel st lv pb = Done (fail_invalid_state env t status st1 pb) /\
   planner_call env st lv pb = None).
Proof.
  unfold RunOnce, planner_call.
  destruct (begin_cycle env st lv) as [[[t status0] vs] st1].
  split.
  - rewrite IsVehicleStateValid_existsb, negb_false_iff, existsb_exists.
    reflexivity.
  - intros ->. split; reflexivity.
Qed.

(** C9: in the output record of a cycle, the lidar, camera and radar
    timestamps of the header are set, to the defaults of an absent
    header, exactly when the prediction-obstacles message has no header;
    when it has one the cycle does not set them: they are as in the
    record handed in, or unset in the e-stop record, so unset whenever the
    record handed in had them unset. *)
Theorem sensor_timestamps_set_iff_prediction_header_absent
        (fuel : nat) (st st' : State) (lv : LocalView Localization Chassis)
        (pb pb' : ADCTrajectory.t) :
  RunOnce env fuel st lv pb = Done (st', pb') ->
  match PredictionObstacles.header (prediction_obstacles lv) with
  | None => sensor_timestamps pb' = (Some 0%Z, Some 0%Z, Some 0%Z)
  | Some _ =>
      (sensor_timestamps pb' = sensor_timestamps pb \/
       sensor_timestamps pb' = (None, None, None)) /\
      (sensor_timestamps pb = (None, None, None) ->
       sensor_timestamps pb' = (None, None, None))
  end.
Proof.
  intros H.
  assert (Hcases :
            exists stf pbf,
              pb' = snd (FillPlanningPb env (NowInSeconds env (clock_reads st)) stf pbf) /\
              local_view_ stf = lv /\
              (PredictionObstacles.header (prediction_obstacles lv) <> None ->
               sensor_timestamps pbf = sensor_timestamps pb \/
               sensor_timestamps pbf = (None, None, None))).
  { apply RunOnce_Done in H.
    pose proof (begin_cycle_members st lv) as Hb.
    destruct (begin_cycle env st lv) as [[[t status0] vs] st1].
    destruct Hb as (-> & Hlv1 & _).
    destruct H as [[Hvalid Hfail] | [Hvalid H]].
    - unfold fail_invalid_state in Hfail. inversion Hfail; subst.
      eexists _, _. split; [reflexivity |]. split; [reflexivity |].
      intros _. left. destruct pb as [[h|] ? ? ? ? ? ? ? ?]; reflexivity.
    - destruct H as (stitching & start & init_status & st2 & pb2 & Hprep & H).
      apply prepare_frame_Done in Hprep.
      destruct Hprep as (_ & Hlv2 & _ & _ & _ & _ & _ & Hhead2 & _).
      destruct H as [[Hok Hfail] | [Hok H]].
      + apply fail_init_frame_Done in Hfail. destruct Hfail as (Hpb & _).
        eexists _, _. split; [exact Hpb |]. split; [simpl; congruence |].
        intros Hsome.
        rewrite FillPlanningPb_sensor_timestamps.
        rewrite Hlv2, Hlv1.
        destruct (PredictionObstacles.header (prediction_obstacles lv));
          [| contradiction].
        unfold init_failure_record, sensor_timestamps.
        destruct (FLAGS_publish_estop (flags env)); simpl.
        * right; reflexivity.
        * left. rewrite Hhead2.
          destruct (ADCTrajectory.header pb); reflexivity.
      + destruct H as (status & st3 & pb3 & HPlan & Hfin).
        apply Plan_frame_conditions in HPlan.
        destruct HPlan as (Hlv3 & _ & _ & _ & Hhead3 & _).
        apply finish_cycle_Done in Hfin.
        destruct Hfin as ([pbx [Hs Hpb]] & _).
        eexists _, _. split; [exact Hpb |]. split; [simpl; congruence |].
        intros _. left. rewrite Hs. unfold sensor_timestamps. congruence. }
  destruct Hcases as (stf & pbf & -> & Hlv & Hs).
  rewrite FillPlanningPb_sensor_timestamps, Hlv.
  destruct (PredictionObstacles.header (prediction_obstacles lv)).
  - assert (Hs' := Hs ltac:(discriminate)).
    split; [exact Hs' |]. intros Hunset. destruct Hs'; congruence.
  - reflexivity.
Qed.


End OrchestratorFacts.

(** * The cycle on the test bench *)

Lemma refused_returns :
  RunOnce (Bench.env Status.OK) 10 (Bench.initial Bench.too_few)
          (Bench.view Bench.origin) ADCTrajectory.fresh =
  Done (members_after Bench.refused (Bench.initial Bench.too_few),
        record_after Bench.refused).
Proof. vm_compute. reflexivity. Qed.

Lemma published_returns :
  RunOnce (Bench.env Status.OK) 10 (Bench.initial Bench.forward)
          (Bench.view Bench.origin) ADCTrajectory.fresh =
  Done (members_after Bench.published (Bench.initial Bench.forward),
        record_after Bench.published).
Proof. vm_compute. reflexivity. Qed.

(** C1, witness: the cycle whose planner returns two points. *)
Lemma last_publishable_trajectory_follows_planner_witness :
  RunOnce (Bench.env Status.OK) 10 (Bench.initial Bench.too_few)
          (Bench.view Bench.origin) ADCTrajectory.fresh =
  Done (members_after Bench.refused (Bench.initial Bench.too_few),
        record_after Bench.refused) /\
  last_publishable_trajectory_
    (members_after Bench.refused (Bench.initial Bench.too_few)) =
  match planner_call (Bench.env Status.OK) (Bench.initial Bench.too_few)
                     (Bench.view Bench.origin) ADCTrajectory.fresh with
  | Some (t, stitching, start, frame, planner) =>
      let '(planner_status, update, _) :=
        planner_Plan (Bench.env Status.OK) planner start frame in
      if Status.eqb planner_status Status.OK
      then Some (new_last_publishable_trajectory (Bench.env Status.OK) stitching
                   (trajectory_after_stitching_point t start
                      (Frame_update update frame)))
      else last_publishable_trajectory_ (Bench.initial Bench.too_few)
  | None => last_publishable_trajectory_ (Bench.initial Bench.too_few)
  end.
Proof.
  split; [exact refused_returns |].
  exact (@last_publishable_trajectory_follows_planner _ _ _ _ _
           (Bench.env Status.OK) 10 (Bench.initial Bench.too_few)
           (members_after Bench.refused (Bench.initial Bench.too_few))
           (Bench.view Bench.origin) ADCTrajectory.fresh
           (record_after Bench.refused) refused_returns).
Defined.

(** C1, counterexample: the planner succeeds with two points, the
    partitioner refuses them ("Invalid trajectory length!"), the cycle
    fails, and the last published trajectory is no longer what it was at
    the start of the cycle. *)
Lemma failed_partition_replaces_last_publishable_trajectory :
  is_done Bench.refused = true /\
  Header.status
    (header_or_default (ADCTrajectory.header (record_after Bench.refused))) =
  Some Partitioner.too_short /\
  last_publishable_trajectory_
    (members_after Bench.refused (Bench.initial Bench.too_few)) <>
  last_publishable_trajectory_ (Bench.initial Bench.too_few).
Proof.
  vm_compute. split; [reflexivity |]. split; [reflexivity | discriminate].
Qed.

(** C3, witness: the cycle that publishes three forward points. *)
Lemma gated_cycle_is_archived_witness :
  RunOnce (Bench.env Status.OK) 10 (Bench.initial Bench.forward)
          (Bench.view Bench.origin) ADCTrajectory.fresh =
  Done (members_after Bench.published (Bench.initial Bench.forward),
        record_after Bench.published) /\
  let '(t, _, vs, _) :=
    begin_cycle (Bench.env Status.OK) (Bench.initial Bench.forward)
                (Bench.view Bench.origin) in
  header_timestamp (record_after Bench.published) = Some t /\
  if IsVehicleStateValid vs then
    seq_num_ (members_after Bench.published (Bench.initial Bench.forward)) =
    seq_num_incr (Bench.env Status.OK) (seq_num_ (Bench.initial Bench.forward)) /\
    (exists frame,
        SequenceNum frame = frame_num_of (seq_num_ (Bench.initial Bench.forward)) /\
        trajectory frame = record_after Bench.published /\
        frame_history (members_after Bench.published (Bench.initial Bench.forward)) =
        FrameHistory_Add
          (FLAGS_max_history_frame_num (flags (Bench.env Status.OK)))
          (frame_num_of (seq_num_ (Bench.initial Bench.forward))) frame
          (frame_history (Bench.initial Bench.forward))) /\
    ((0 <= seq_num_ (Bench.initial Bench.forward) < 2 ^ 32 - 1)%Z ->
     (32 <= seq_num_bits (Bench.env Status.OK))%Z ->
     (frame_num_of (seq_num_ (Bench.initial Bench.forward)) <
      frame_num_of
        (seq_num_ (members_after Bench.published (Bench.initial Bench.forward))))%Z)
  else
    seq_num_ (members_after Bench.published (Bench.initial Bench.forward)) =
    seq_num_ (Bench.initial Bench.forward) /\
    frame_history (members_after Bench.published (Bench.initial Bench.forward)) =
    frame_history (Bench.initial Bench.forward).
Proof.
  split; [exact published_returns |].
  exact (@gated_cycle_is_archived _ _ _ _ _
           (Bench.env Status.OK) 10 (Bench.initial Bench.forward)
           (members_after Bench.published (Bench.initial Bench.forward))
           (Bench.view Bench.origin) ADCTrajectory.fresh
           (record_after Bench.published) published_returns).
Defined.

(** C3, counterexample: the cycle whose vehicle state has a NaN position
    returns with its header filled, and the frame history is as empty as
    it was: no record of the cycle is archived and no sequence number is
    used. *)
Lemma rejected_cycle_is_not_archived :
  is_done Bench.rejected = true /\
  header_timestamp (record_after Bench.rejected) <> None /\
  frame_history (members_after Bench.rejected (Bench.initial Bench.forward)) = [] /\
  seq_num_ (members_after Bench.rejected (Bench.initial Bench.forward)) =
  seq_num_ (Bench.initial Bench.forward).
Proof.
  vm_compute. split; [reflexivity |]. split; [discriminate |].
  split; reflexivity.
Qed.

(** C6, witness: the state with a NaN position. *)
Lemma gate_rejects_exactly_nan_witness :
  IsVehicleStateValid Bench.nan_position = false /\
  Bench.rejected =
  Done (fail_invalid_state (Bench.env Status.OK)
          (NowInSeconds (Bench.env Status.OK) 0) Status.OK
          (with_provider_vehicle_state Bench.nan_position
             (with_clock_reads 1
                (with_local_view (Bench.view Bench.nan_position)
                                 (Bench.initial Bench.forward))))
          ADCTrajectory.fresh) /\
  planner_call (Bench.env Status.OK) (Bench.initial Bench.forward)
               (Bench.view Bench.nan_position) ADCTrajectory.fresh = None.
Proof.
  split; [reflexivity |].
  exact (proj2 (@gate_rejects_exactly_nan _ _ _ _ _
                  (Bench.env Status.OK) 10 (Bench.initial Bench.forward)
                  (Bench.view Bench.nan_position) ADCTrajectory.fresh)
               eq_refl).
Defined.

(** C6, counterexample: a state whose position is infinite has a
    non-finite field, and the gate lets it through: the cycle goes on to
    the planner and archives a frame. *)
Lemma infinite_state_passes_the_gate :
  PrimFloat.is_finite (VehicleState.x Bench.infinite_position) = false /\
  IsVehicleStateValid Bench.infinite_position = true /\
  is_done Bench.at_infinity = true /\
  planner_call (Bench.env Status.OK) (Bench.initial Bench.forward)
               (Bench.view Bench.infinite_position) ADCTrajectory.fresh <> None /\
  seq_num_ (members_after Bench.at_infinity (Bench.initial Bench.forward)) = 1%Z.
Proof.
  vm_compute. repeat split; try reflexivity. discriminate.
Qed.

(** C9, witness: the bench's prediction-obstacles message has no header. *)
Lemma sensor_timestamps_set_iff_prediction_header_absent_witness :
  RunOnce (Bench.env Status.OK) 10 (Bench.initial Bench.forward)
          (Bench.view Bench.origin) ADCTrajectory.fresh =
  Done (members_after Bench.published (Bench.initial Bench.forward),
        record_after Bench.published) /\
  sensor_timestamps (record_after Bench.published) =
  (Some 0%Z, Some 0%Z, Some 0%Z).
Proof.
  split; [exact published_returns |].
  exact (@sensor_timestamps_set_iff_prediction_header_absent _ _ _ _ _
           (Bench.env Status.OK) 10 (Bench.initial Bench.forward)
           (members_after Bench.published (Bench.initial Bench.forward))
           (Bench.view Bench.origin) ADCTrajectory.fresh
           (record_after Bench.published) published_returns).
Defined.

(** * The collision checker *)

Section CollisionFacts.
Variables Localization Chassis Obstacle Box2d PlannerState : Type.
Variable env : Collaborators Localization Chassis Obstacle Box2d PlannerState.

(** With no snapshot at all the trajectory is collision-free. *)
Lemma no_snapshot_is_collision_free (pb : ADCTrajectory.t) :
  IsCollisionFreeTrajectory env [] pb = Done true.
Proof.
  unfold IsCollisionFreeTrajectory. generalize 0%nat.
  induction (ADCTrajectory.trajectory_point pb) as [| p l IH]; intros i;
    simpl; [reflexivity | apply IH].
Qed.

(** The samples and snapshots that share an index. *)
Fixpoint overlap_at_some_index (rectangles : list (list Box2d))
         (points : list TrajectoryPoint.t) : bool :=
  match points, rectangles with
  | p :: points', boxes :: rectangles' =>
      existsb (fun obstacle_box =>
                 HasOverlap env (ego_box_at env p) obstacle_box) boxes
      || overlap_at_some_index rectangles' points'
  | _, _ => false
  end.

Lemma collision_loop_in_range (rectangles : list (list Box2d)) :
  forall (points : list TrajectoryPoint.t) (i : nat),
    rectangles <> [] ->
    (i + List.length points <= List.length rectangles)%nat ->
    collision_loop env rectangles i points =
    Done (negb (overlap_at_some_index (skipn i rectangles) points)).
Proof.
  induction points as [| p l IH]; intros i Hne Hlen.
  - simpl. destruct (skipn i rectangles); reflexivity.
  - cbn [collision_loop List.length] in *.
    assert (Hnz : Nat.eqb (List.length rectangles) 0 = false)
      by (destruct rectangles; [contradiction | reflexivity]).
    rewrite Hnz; cbn [negb]. unfold at_index.
    destruct (nth_error rectangles i) as [boxes |] eqn:Hnth.
    + assert (Hskip : skipn i rectangles = boxes :: skipn (S i) rectangles).
      { clear - Hnth. revert i Hnth.
        induction rectangles as [| r rs IHr]; intros [| i] Hnth;
          simpl in *; try discriminate.
        - inversion Hnth; reflexivity.
        - apply IHr in Hnth. exact Hnth. }
      rewrite Hskip. cbn [obind overlap_at_some_index].
      destruct (existsb _ boxes); cbn [orb negb]; [reflexivity |].
      apply IH; [assumption | lia].
    + apply nth_error_None in Hnth. lia.
Qed.

(** When every sample has a snapshot, the checker answers "collision"
    exactly when some sample overlaps a box of the snapshot of its own
    index. *)
Lemma collision_check_in_range (rectangles : list (list Box2d))
      (pb : ADCTrajectory.t) :
  rectangles <> [] ->
  (List.length (ADCTrajectory.trajectory_point pb) <= List.length rectangles)%nat ->
  IsCollisionFreeTrajectory env rectangles pb =
  Done (negb (overlap_at_some_index rectangles
                (ADCTrajectory.trajectory_point pb))).
Proof.
  intros Hne Hlen. unfold IsCollisionFreeTrajectory.
  rewrite collision_loop_in_range by (simpl; assumption). reflexivity.
Qed.

(** C2: when the predicted environment holds at least one snapshot but
    fewer snapshots than the trajectory has samples, and no sample
    overlaps a box of the snapshot of its own index, the checker goes
    on to read [predicted_bounding_rectangles_[i]] past the end of the
    vector: the guard of the code only asks whether the vector is
    empty, not whether a snapshot exists for that index. *)
Theorem collision_check_reads_past_last_snapshot
        (rectangles : list (list Box2d)) (pb : ADCTrajectory.t) :
  rectangles <> [] ->
  (List.length rectangles < List.length (ADCTrajectory.trajectory_point pb))%nat ->
  overlap_at_some_index rectangles (ADCTrajectory.trajectory_point pb) = false ->
  IsCollisionFreeTrajectory env rectangles pb = Undefined.
Proof.
  unfold IsCollisionFreeTrajectory.
  intros Hne Hlen Hfree.
  assert (Hgen : forall (points : list TrajectoryPoint.t) (i : nat),
             (List.length rectangles < i + List.length points)%nat ->
             (i <= List.length rectangles)%nat ->
             overlap_at_some_index (skipn i rectangles) points = false ->
             collision_loop env rectangles i points = Undefined).
  { induction points as [| p l IH]; intros i Hlt Hle Hov.
    - simpl in Hlt. lia.
    - cbn [collision_loop].
      assert (Hnz : Nat.eqb (List.length rectangles) 0 = false)
        by (destruct rectangles; [contradiction | reflexivity]).
      rewrite Hnz; cbn [negb]. unfold at_index.
      destruct (nth_error rectangles i) as [boxes |] eqn:Hnth; [| reflexivity].
      assert (Hskip : skipn i rectangles = boxes :: skipn (S i) rectangles).
      { clear - Hnth. revert i Hnth.
        induction rectangles as [| r rs IHr]; intros [| i] Hnth;
          simpl in *; try discriminate.
        - inversion Hnth; reflexivity.
        - apply IHr in Hnth. exact Hnth. }
      rewrite Hskip in Hov. cbn [overlap_at_some_index] in Hov.
      apply orb_false_iff in Hov. destruct Hov as [Hhere Hlater].
      cbn [obind]. rewrite Hhere.
      assert (Hi : (i < List.length rectangles)%nat)
        by (apply nth_error_Some; congruence).
      apply IH; [simpl in Hlt; lia | lia | exact Hlater]. }
  apply Hgen; [simpl; lia | lia | exact Hfree].
Qed.

End CollisionFacts.

(** C2, witness: two samples against one snapshot that holds no box. *)
Lemma collision_check_reads_past_last_snapshot_witness :
  IsCollisionFreeTrajectory (Bench.env Status.OK) [[]]
    (ADCTrajectory.with_trajectory_point
       (Bench.raw Bench.too_few) ADCTrajectory.fresh) = Undefined.
Proof.
  apply (@collision_check_reads_past_last_snapshot _ _ _ _ _
           (Bench.env Status.OK) [[]]
           (ADCTrajectory.with_trajectory_point
              (Bench.raw Bench.too_few) ADCTrajectory.fresh)).
  - discriminate.
  - simpl. lia.
  - reflexivity.
Defined.

(** * Facts about binary64 *)

(** The comparisons and the exact operations of the doubles, from the
    specification of the primitive floats ([SpecFloat], [FloatAxioms]). *)
Module Binary64.

Lemma compare_cont_Eq (p q : positive) :
  Pos.compare_cont Eq p q = Pos.compare p q.
Proof. reflexivity. Qed.

Ltac order_cases :=
  repeat match goal with
  | H : context [Pos.compare_cont Eq ?a ?b] |- _ =>
      change (Pos.compare_cont Eq a b) with (Pos.compare a b) in H
  | |- context [Pos.compare_cont Eq ?a ?b] =>
      change (Pos.compare_cont Eq a b) with (Pos.compare a b)
  end;
  repeat match goal with
  | H : context [Z.compare ?a ?b] |- _ => destruct (Z.compare_spec a b)
  | |- context [Z.compare ?a ?b] => destruct (Z.compare_spec a b)
  | H : context [Pos.compare ?a ?b] |- _ => destruct (Pos.compare_spec a b)
  | |- context [Pos.compare ?a ?b] => destruct (Pos.compare_spec a b)
  end.

Ltac by_shape x y z :=
  destruct x as [? | ? | | ? ? ?], y as [? | ? | | ? ? ?],
           z as [? | ? | | ? ? ?];
  try discriminate;
  repeat match goal with s : bool |- _ => destruct s end;
  try discriminate; try reflexivity.

Lemma SFltb_trans (x y z : spec_float) :
  SFltb x y = true -> SFltb y z = true -> SFltb x z = true.
Proof.
  unfold SFltb, SFcompare. by_shape x y z.
  all: intros H1 H2; order_cases; simpl in *; subst;
    try discriminate; try reflexivity; try lia.
Qed.

Lemma SFltb_irrefl (x : spec_float) : SFltb x x = false.
Proof.
  unfold SFltb, SFcompare.
  destruct x as [sx | sx | | sx mx ex]; try reflexivity.
  - destruct sx; reflexivity.
  - destruct sx; rewrite Z.compare_refl, compare_cont_Eq, Pos.compare_refl;
      reflexivity.
Qed.

Definition SF_is_nan (x : spec_float) : bool :=
  match x with S754_nan => true | _ => false end.

(** Among numbers, what is not below [y] is above whatever is below [y]. *)
Lemma SFltb_negative_trans (x y z : spec_float) :
  SF_is_nan z = false ->
  SFltb x y = true -> SFltb z y = false -> SFltb x z = true.
Proof.
  unfold SFltb, SFcompare, SF_is_nan. by_shape x y z.
  all: intros _ H1 H2; order_cases; simpl in *; subst;
    try discriminate; try reflexivity; try lia.
Qed.

Lemma SFltb_opp (x y : spec_float) : SFltb (SFopp x) (SFopp y) = SFltb y x.
Proof.
  unfold SFltb, SFcompare, SFopp.
  destruct x as [sx | sx | | sx mx ex], y as [sy | sy | | sy my ey];
    try reflexivity;
    repeat match goal with s : bool |- _ => destruct s end; try reflexivity;
    simpl; order_cases; subst; simpl; try reflexivity; try lia.
Qed.

(** A product by [2^52 * 2^-52] rounds to the factor it started from. *)
Lemma round_product_by_one (s : bool) (m : positive) (e : Z) :
  bounded 53 1024 m e = true ->
  binary_round_aux 53 1024 s (Zpos (m * 4503599627370496)) (e + -52) loc_Exact =
  S754_finite s m e.
Proof.
  unfold bounded, canonical_mantissa. intros H.
  apply andb_prop in H. destruct H as [Hc Hb].
  apply Z.eqb_eq in Hc.
  rewrite Pos.mul_comm.
  unfold binary_round_aux, shr_fexp.
  cbn [Pos.mul].
  unfold Zdigits2. cbn [digits2_pos].
  match goal with |- context [fexp 53 1024 (Zpos ?d + ?x)] =>
    replace (fexp 53 1024 (Zpos d + x)) with e
  end.
  2:{ transitivity (fexp 53 1024 (Zpos (digits2_pos m) + e));
      [symmetry; exact Hc | f_equal; lia]. }
  replace (e - (e + -52))%Z with 52%Z by lia.
  cbn [shr shr_record_of_loc].
  cbv [SpecFloat.iter_pos shr_1 orb].
  cbn [round_nearest_even loc_of_shr_record shr_m shr_r shr_s].
  replace (e + -52 + 52)%Z with e by lia.
  unfold Zdigits2. rewrite Hc, Z.sub_diag. cbn [shr shr_m].
  rewrite Hb. reflexivity.
Qed.

Local Open Scope float_scope.

Lemma ltb_trans (a b c : float) :
  (a <? b) = true -> (b <? c) = true -> (a <? c) = true.
Proof. rewrite !FloatAxioms.ltb_spec. apply SFltb_trans. Qed.

Lemma ltb_irrefl (a : float) : (a <? a) = false.
Proof. rewrite FloatAxioms.ltb_spec. apply SFltb_irrefl. Qed.

Lemma is_nan_spec (a : float) :
  PrimFloat.is_nan a = SF_is_nan (Prim2SF a).
Proof.
  unfold PrimFloat.is_nan. rewrite FloatAxioms.eqb_spec.
  unfold SFeqb, SFcompare.
  destruct (Prim2SF a) as [s | s | | s m e]; try reflexivity.
  - destruct s; reflexivity.
  - destruct s; rewrite Z.compare_refl, compare_cont_Eq, Pos.compare_refl;
      reflexivity.
Qed.

Lemma ltb_negative_trans (a b c : float) :
  PrimFloat.is_nan c = false ->
  (a <? b) = true -> (c <? b) = false -> (a <? c) = true.
Proof. rewrite is_nan_spec, !FloatAxioms.ltb_spec. apply SFltb_negative_trans. Qed.

Lemma ltb_nan_l (a b : float) :
  PrimFloat.is_nan a = true -> (a <? b) = false.
Proof.
  rewrite is_nan_spec, FloatAxioms.ltb_spec.
  destruct (Prim2SF a); try discriminate. reflexivity.
Qed.

Lemma ltb_opp (a b : float) : (- a <? - b) = (b <? a).
Proof. rewrite !FloatAxioms.ltb_spec, !FloatAxioms.opp_spec. apply SFltb_opp. Qed.

Lemma opp_involutive (a : float) : - - a = a.
Proof.
  apply Prim2SF_inj. rewrite !FloatAxioms.opp_spec.
  destruct (Prim2SF a) as [s | s | | s m e]; simpl;
    rewrite ?negb_involutive; reflexivity.
Qed.

(** [x * 1 = x], the conversion of [gear_drive = 1] included. *)
Lemma mul_1_r (a : float) : a * 1 = a.
Proof.
  apply Prim2SF_inj. rewrite FloatAxioms.mul_spec.
  pose proof (Prim2SF_valid a) as Hv.
  change (Prim2SF 1) with (S754_finite false 4503599627370496 (-52)).
  destruct (Prim2SF a) as [s | s | | s m e]; simpl in *;
    rewrite ?xorb_false_r; try reflexivity.
  apply round_product_by_one. exact Hv.
Qed.

(** [x * (-1) = -x]. *)
Lemma mul_m1_r (a : float) : a * (-1) = - a.
Proof.
  apply Prim2SF_inj. rewrite FloatAxioms.mul_spec, FloatAxioms.opp_spec.
  pose proof (Prim2SF_valid a) as Hv.
  change (Prim2SF (-1)) with (S754_finite true 4503599627370496 (-52)).
  destruct (Prim2SF a) as [s | s | | s m e]; simpl in *;
    rewrite ?xorb_true_r; try reflexivity.
  apply round_product_by_one. exact Hv.
Qed.

(** [x - x] is [+0] for every number that is not an infinity. *)
Lemma sub_diag (a : float) :
  PrimFloat.is_nan a = false -> PrimFloat.is_infinity a = false -> a - a = 0.
Proof.
  intros Hnan Hinf. apply Prim2SF_inj. rewrite FloatAxioms.sub_spec.
  rewrite is_nan_spec in Hnan.
  unfold PrimFloat.is_infinity in Hinf.
  rewrite FloatAxioms.eqb_spec, FloatAxioms.abs_spec in Hinf.
  change (Prim2SF 0) with (S754_zero false).
  destruct (Prim2SF a) as [s | s | | s m e]; simpl in *; try discriminate.
  - destruct s; reflexivity.
  - unfold SF64sub, SFsub. rewrite Z.sub_diag. reflexivity.
Qed.

End Binary64.

(** * Facts about binary64: rounding *)

(** The subtraction of the doubles is monotone in its first argument.
    The doubles are read as integer multiples of [2 ^ -1074], on which
    the rounding of [SpecFloat] is a monotone function. *)
Module Rounding.
Unset Implicit Arguments.
Local Open Scope Z_scope.












(** The absolute value of a finite double, counted in units of the least
    subnormal [2 ^ -1074]. *)
Definition magnitude (m : positive) (e : Z) : Z := Zpos m * 2 ^ (e + 1074).
(** The first magnitude beyond the finite doubles, that stands for the
    infinities. *)
Definition limit : Z := 2 ^ 2098.
(** The value of a double in units of [2 ^ -1074], the infinities at
    [limit]. *)
Definition out (x : spec_float) : Z :=
  match x with
  | S754_zero _ => 0
  | S754_finite s m e => cond_Zopp s (magnitude m e)
  | S754_infinity s => cond_Zopp s limit
  | S754_nan => 0
  end.































Local Open Scope float_scope.



Set Implicit Arguments.
End Rounding.

(** * The gear partitioner: the initial gear *)

Module InitialGear.
Import Partitioner.
Local Open Scope float_scope.

(** A sample the initial scan counts: its velocity is beyond the
    threshold on one side. *)
Definition decisive (p : TrajectoryPoint.t) : bool :=
  moves_forward p || moves_backward p.

Lemma forward_excludes_backward (p : TrajectoryPoint.t) :
  moves_forward p = true -> moves_backward p = false.
Proof.
  unfold moves_forward, moves_backward. intros Hf.
  destruct (TrajectoryPoint.v p <? - kepsilon) eqn:Hb; [| reflexivity].
  pose proof (Binary64.ltb_trans Hf Hb) as H.
  vm_compute in H. discriminate.
Qed.

(** The scan steps over the samples it does not count. *)
Lemma initial_gear_scan_filter (pts : list TrajectoryPoint.t) :
  forall (i : nat) (direction_flag init_direction : Z),
    initial_gear_scan pts i direction_flag init_direction =
    initial_gear_scan (filter decisive pts) i direction_flag init_direction.
Proof.
  induction pts as [| p l IH]; intros i f d; [reflexivity |].
  cbn [filter]. unfold decisive at 1.
  destruct (moves_forward p) eqn:Hf; cbn [orb].
  - cbn [initial_gear_scan]. rewrite Hf.
    destruct (Nat.eqb i initial_gear_check_horizon); [reflexivity | apply IH].
  - destruct (moves_backward p) eqn:Hb.
    + cbn [initial_gear_scan]. rewrite Hf, Hb.
      destruct (Nat.eqb i initial_gear_check_horizon); [reflexivity | apply IH].
    + cbn [initial_gear_scan]. rewrite Hf, Hb.
      destruct (Nat.eqb i initial_gear_check_horizon) eqn:Hi; [| apply IH].
      destruct (filter decisive l); cbn [initial_gear_scan]; rewrite Hi;
        reflexivity.
Qed.

Lemma filter_length_le {A : Type} (f : A -> bool) (l : list A) :
  (List.length (filter f l) <= List.length l)%nat.
Proof.
  induction l as [| a l IH]; simpl; [lia |].
  destruct (f a); simpl; lia.
Qed.

Lemma initial_gear_scan_horizon (l : list TrajectoryPoint.t) (f d : Z) :
  initial_gear_scan l 3 f d = Done (f, d).
Proof. destruct l; reflexivity. Qed.

(** With three samples to count, the gear is the direction of the first
    of them: three of a kind agree with their first, and the tie-breaker
    is the first. *)
Lemma initial_gear_of_first_decisive (pts rest : list TrajectoryPoint.t)
      (p1 p2 p3 : TrajectoryPoint.t) :
  filter decisive pts = p1 :: p2 :: p3 :: rest ->
  initial_gear pts =
  Done (inr (if moves_forward p1 then GEAR_DRIVE else GEAR_REVERSE)).
Proof.
  intros H. unfold initial_gear.
  assert (Hlen : Nat.ltb (List.length pts) initial_gear_check_horizon = false).
  { apply Nat.ltb_ge. pose proof (filter_length_le decisive pts) as Hle.
    rewrite H in Hle. simpl in Hle. unfold initial_gear_check_horizon. lia. }
  rewrite Hlen, initial_gear_scan_filter, H.
  assert (H1 : decisive p1 = true)
    by (apply (proj1 (filter_In decisive p1 pts)); rewrite H; simpl; auto).
  assert (H2 : decisive p2 = true)
    by (apply (proj1 (filter_In decisive p2 pts)); rewrite H; simpl; auto).
  assert (H3 : decisive p3 = true)
    by (apply (proj1 (filter_In decisive p3 pts)); rewrite H; simpl; auto).
  unfold decisive in H1, H2, H3. cbn [initial_gear_scan Nat.eqb initial_gear_check_horizon].
  destruct (moves_forward p1), (moves_backward p1); try discriminate;
    destruct (moves_forward p2), (moves_backward p2); try discriminate;
    destruct (moves_forward p3), (moves_backward p3); try discriminate;
    rewrite initial_gear_scan_horizon; reflexivity.
Qed.

(** The scan returns only once it has counted three samples. *)
Lemma initial_gear_scan_Done (pts : list TrajectoryPoint.t) :
  forall (i : nat) (f d : Z) (r : Z * Z),
    (i <= 3)%nat ->
    initial_gear_scan pts i f d = Done r ->
    (3 <= i + List.length (filter decisive pts))%nat.
Proof.
  induction pts as [| p l IH]; intros i f d r Hi H.
  - cbn [initial_gear_scan] in H.
    destruct (Nat.eqb i initial_gear_check_horizon) eqn:E; [| discriminate].
    apply Nat.eqb_eq in E. unfold initial_gear_check_horizon in E. lia.
  - cbn [initial_gear_scan] in H. cbn [filter]. unfold decisive at 1.
    destruct (Nat.eqb i initial_gear_check_horizon) eqn:E.
    + apply Nat.eqb_eq in E. unfold initial_gear_check_horizon in E. lia.
    + apply Nat.eqb_neq in E. unfold initial_gear_check_horizon in E.
      destruct (moves_forward p); cbn [orb].
      * apply IH in H; [| lia]. simpl. lia.
      * destruct (moves_backward p).
        -- apply IH in H; [| lia]. simpl. lia.
        -- apply IH in H; [| lia]. lia.
Qed.

(** The error of an ambiguous start is returned for no trajectory: the
    scan returns only after it has seen a sample with a direction. *)
Lemma initial_gear_never_ambiguous (pts : list TrajectoryPoint.t) :
  initial_gear pts <> Done (inl ambiguous_initial_gear).
Proof.
  destruct (filter decisive pts) as [| p1 [| p2 [| p3 rest]]] eqn:Hf.
  4: rewrite (initial_gear_of_first_decisive pts Hf);
     destruct (moves_forward p1); discriminate.
  all: unfold initial_gear;
    destruct (Nat.ltb (List.length pts) initial_gear_check_horizon);
    [discriminate |];
    destruct (initial_gear_scan pts 0 0%Z 0%Z) as [[f d] | | |] eqn:Hscan;
    try discriminate;
    apply initial_gear_scan_Done in Hscan; [| lia];
    rewrite Hf in Hscan; simpl in Hscan; lia.
Qed.

End InitialGear.

(** * The gear partitioner: the partition loop *)

Module PartitionLoop.
Import Partitioner InitialGear.
Local Open Scope float_scope.

(** Whether the loop opens a new trajectory at a point, [g] being the
    last gear. *)
Definition shifts (g : GearPosition) (p : TrajectoryPoint.t) : bool :=
  match g with
  | GEAR_DRIVE => moves_backward p
  | GEAR_REVERSE => moves_forward p
  | _ => false
  end.

Definition opposite (g : GearPosition) : GearPosition :=
  match g with
  | GEAR_DRIVE => GEAR_REVERSE
  | _ => GEAR_DRIVE
  end.

Lemma shift_if_reversed_spec (p : TrajectoryPoint.t) (st : loop_state) :
  shift_if_reversed p st =
  if shifts (gear_back st) p
  then shift_gear (opposite (gear_back st)) st else st.
Proof.
  unfold shift_if_reversed, shifts.
  destruct (moves_forward p) eqn:Hf.
  - rewrite (@forward_excludes_backward p Hf).
    destruct (gear_back st) eqn:Hg; cbn; rewrite ?Hg; reflexivity.
  - destruct (moves_backward p) eqn:Hb;
      destruct (gear_back st) eqn:Hg; cbn; rewrite ?Hg; reflexivity.
Qed.

(** The trajectories of the partition never start with an empty one once a
    point has been added. *)
Definition well_formed (st : loop_state) : Prop :=
  current_trajectory st <> [] /\
  match closed st with [] => True | c :: _ => c <> [] end /\
  List.length (closed st) = List.length (closed_gears st).

Section WithLibm.
Variable tanh : double -> double.

Lemma partition_step_well_formed (prev : option TrajectoryPoint.t)
      (p : TrajectoryPoint.t) (st : loop_state) :
  current_trajectory st <> [] \/ shifts (gear_back st) p = false ->
  match closed st with [] => True | c :: _ => c <> [] end ->
  List.length (closed st) = List.length (closed_gears st) ->
  well_formed (partition_step tanh prev p st).
Proof.
  intros Hcur Hhead Hlen. unfold partition_step, well_formed.
  rewrite shift_if_reversed_spec.
  destruct (shifts (gear_back st) p) eqn:Hs; cbn.
  - destruct Hcur as [Hcur | Hcur]; [| discriminate].
    split; [discriminate |]. split.
    + destruct (closed st); cbn; assumption.
    + rewrite !length_app. cbn. lia.
  - split; [destruct (current_trajectory st); discriminate |].
    split; assumption.
Qed.

Lemma partition_loop_well_formed (pts : list TrajectoryPoint.t) :
  forall (prev : option TrajectoryPoint.t) (st : loop_state),
    well_formed st -> well_formed (partition_loop tanh prev pts st).
Proof.
  induction pts as [| p l IH]; intros prev st Hwf; [exact Hwf |].
  cbn [partition_loop]. apply IH.
  destruct Hwf as (Hcur & Hhead & Hlen).
  apply partition_step_well_formed; auto.
Qed.

(** The first point opens no new trajectory: the initial gear is the
    direction of the first sample that has one. *)
Lemma first_point_does_not_shift (p0 : TrajectoryPoint.t)
      (rest : list TrajectoryPoint.t) (g0 : GearPosition) :
  initial_gear (p0 :: rest) = Done (inr g0) ->
  shifts g0 p0 = false /\ (g0 = GEAR_DRIVE \/ g0 = GEAR_REVERSE).
Proof.
  intros Hg.
  assert (Hthree : (3 <= List.length (filter decisive (p0 :: rest)))%nat).
  { unfold initial_gear in Hg.
    destruct (Nat.ltb _ _); [discriminate |].
    destruct (initial_gear_scan (p0 :: rest) 0 0%Z 0%Z) as [[f d] | | |] eqn:Hscan;
      try discriminate.
    apply initial_gear_scan_Done in Hscan; lia. }
  destruct (filter decisive (p0 :: rest)) as [| p1 [| p2 [| p3 more]]] eqn:Hf;
    simpl in Hthree; try lia.
  rewrite (initial_gear_of_first_decisive _ Hf) in Hg.
  inversion Hg as [Hg0]; clear Hg.
  split; [| destruct (moves_forward p1); auto].
  cbn [filter] in Hf. unfold decisive at 1 in Hf.
  destruct (moves_forward p0) eqn:Hfw; cbn [orb] in Hf.
  - inversion Hf; subst p1. rewrite Hfw. cbn.
    apply forward_excludes_backward; exact Hfw.
  - destruct (moves_backward p0) eqn:Hbw.
    + inversion Hf; subst p1. rewrite Hfw. cbn. exact Hfw.
    + destruct (moves_forward p1); cbn; assumption.
Qed.

(** What [partition] returns when it returns trajectories. *)
Lemma partition_Done (pts : list TrajectoryPoint.t) (st : loop_state) :
  partition tanh pts = Done (inr st) ->
  exists g0,
    initial_gear pts = Done (inr g0) /\
    st = partition_loop tanh None pts (mk_loop_state [] [] [] g0 0) /\
    well_formed st.
Proof.
  unfold partition. intros H. obind_inv H.
  destruct r as [err | g0]; [discriminate |].
  inversion H; subst; clear H.
  exists g0. split; [exact E |]. split; [reflexivity |].
  destruct pts as [| p0 rest].
  - unfold initial_gear in E. cbn in E. discriminate.
  - cbn [partition_loop]. apply partition_loop_well_formed.
    apply first_point_does_not_shift in E. destruct E as [Hs _].
    apply partition_step_well_formed; cbn; auto.
Qed.

End WithLibm.
End PartitionLoop.

(** * The gear partitioner: the closest point *)

Module Closest.
Import Partitioner InitialGear PartitionLoop.
Local Open Scope float_scope.

(** The points of the partition in the order the search visits them,
    each with the index of its trajectory and its index in it. *)
Fixpoint index_points (i j : nat) (pts : list TrajectoryPoint.t)
  : list (nat * nat * TrajectoryPoint.t) :=
  match pts with
  | [] => []
  | p :: rest => (i, j, p) :: index_points i (S j) rest
  end.

Fixpoint scan_order_from (i : nat) (trajectories : list (list TrajectoryPoint.t))
  : list (nat * nat * TrajectoryPoint.t) :=
  match trajectories with
  | [] => []
  | t :: rest => index_points i 0 t ++ scan_order_from (S i) rest
  end.

Definition scan_order (trajectories : list (list TrajectoryPoint.t))
  : list (nat * nat * TrajectoryPoint.t) :=
  scan_order_from 0 trajectories.

Section Search.
Variable vehicle_state : VehicleState.t.

Definition distance_of (x : nat * nat * TrajectoryPoint.t) : double :=
  squared_distance vehicle_state (snd x).

(** One test of the search. *)
Definition closer (best : double * nat * nat)
           (x : nat * nat * TrajectoryPoint.t) : double * nat * nat :=
  if distance_of x <? fst (fst best)
  then (distance_of x, fst (fst x), snd (fst x)) else best.

Lemma closest_in_trajectory_fold (pts : list TrajectoryPoint.t) :
  forall (i j : nat) (best : double * nat * nat),
    closest_in_trajectory vehicle_state i j pts best =
    fold_left closer (index_points i j pts) best.
Proof.
  induction pts as [| p l IH]; intros i j best; [reflexivity |].
  cbn [closest_in_trajectory index_points fold_left]. rewrite IH. reflexivity.
Qed.

Lemma closest_in_partition_fold (trajectories : list (list TrajectoryPoint.t)) :
  forall (i : nat) (best : double * nat * nat),
    closest_in_partition vehicle_state i trajectories best =
    fold_left closer (scan_order_from i trajectories) best.
Proof.
  induction trajectories as [| t l IH]; intros i best; [reflexivity |].
  cbn [closest_in_partition scan_order_from].
  rewrite fold_left_app, IH, closest_in_trajectory_fold. reflexivity.
Qed.

(** The search keeps the first point, in the order of the scan, that no
    point beats: either no point is below the starting distance, or the
    result is a point below it, which every earlier point with a
    distance is strictly farther than, and which no point at all is
    strictly closer than. *)
Lemma fold_closer_first_minimum (l : list (nat * nat * TrajectoryPoint.t)) :
  forall best : double * nat * nat,
    (fold_left closer l best = best /\
     forall x, In x l -> (distance_of x <? fst (fst best)) = false)
    \/
    (exists l1 x l2,
        l = l1 ++ x :: l2 /\
        fold_left closer l best = (distance_of x, fst (fst x), snd (fst x)) /\
        (distance_of x <? fst (fst best)) = true /\
        (forall y, In y l1 -> PrimFloat.is_nan (distance_of y) = false ->
                   (distance_of x <? distance_of y) = true) /\
        (forall y, In y l -> (distance_of y <? distance_of x) = false)).
Proof.
  induction l as [| a l IH]; intros best.
  - left. split; [reflexivity | intros x []].
  - cbn [fold_left].
    assert (Hc : closer best a =
                 if distance_of a <? fst (fst best)
                 then (distance_of a, fst (fst a), snd (fst a)) else best)
      by reflexivity.
    destruct (distance_of a <? fst (fst best)) eqn:Ha; rewrite Hc; clear Hc.
    + (* [a] becomes the best so far *)
      destruct (IH (distance_of a, fst (fst a), snd (fst a)))
        as [[Hr Hall] | (l1 & x & l2 & Hl & Hr & Hx & Hbefore & Hmin)].
      * right. exists [], a, l. cbn [fst snd] in *.
        split; [reflexivity |]. split; [exact Hr |]. split; [exact Ha |].
        split; [intros y [] |].
        intros y [<- | Hy]; [apply Binary64.ltb_irrefl | apply Hall; exact Hy].
      * right. exists (a :: l1), x, l2. cbn [fst snd] in *.
        split; [rewrite Hl; reflexivity |]. split; [exact Hr |].
        split; [exact (Binary64.ltb_trans Hx Ha) |]. split.
        -- intros y [<- | Hy] Hnan; [exact Hx | apply Hbefore; assumption].
        -- intros y [Hya | Hy]; [subst y | apply Hmin; exact Hy].
           destruct (distance_of a <? distance_of x) eqn:Hyx; [| reflexivity].
           pose proof (Binary64.ltb_trans Hx Hyx) as Hxx.
           rewrite Binary64.ltb_irrefl in Hxx. discriminate.
    + (* [a] is not below the best so far *)
      destruct (IH best)
        as [[Hr Hall] | (l1 & x & l2 & Hl & Hr & Hx & Hbefore & Hmin)].
      * left. split; [exact Hr |].
        intros y [<- | Hy]; [exact Ha | apply Hall; exact Hy].
      * right. exists (a :: l1), x, l2.
        split; [rewrite Hl; reflexivity |]. split; [exact Hr |].
        split; [exact Hx |]. split.
        -- intros y [<- | Hy] Hnan; [| apply Hbefore; assumption].
           exact (Binary64.ltb_negative_trans Hnan Hx Ha).
        -- intros y [Hya | Hy]; [subst y | apply Hmin; exact Hy].
           destruct (PrimFloat.is_nan (distance_of a)) eqn:Hnan;
             [apply Binary64.ltb_nan_l; exact Hnan |].
           pose proof (Binary64.ltb_negative_trans Hnan Hx Ha) as Hxy.
           destruct (distance_of a <? distance_of x) eqn:Hyx; [| reflexivity].
           pose proof (Binary64.ltb_trans Hxy Hyx) as Hxx.
           rewrite Binary64.ltb_irrefl in Hxx. discriminate.
Qed.

End Search.

Lemma In_index_points (pts : list TrajectoryPoint.t) :
  forall (i j i' j' : nat) (p : TrajectoryPoint.t),
    In (i', j', p) (index_points i j pts) ->
    i' = i /\ (j <= j')%nat /\ nth_error pts (j' - j) = Some p.
Proof.
  induction pts as [| q l IH]; intros i j i' j' p Hin; [destruct Hin |].
  cbn [index_points] in Hin. destruct Hin as [Heq | Hin].
  - inversion Heq; subst. rewrite Nat.sub_diag. auto.
  - apply IH in Hin. destruct Hin as (-> & Hle & Hnth).
    split; [reflexivity |]. split; [lia |].
    replace (j' - j)%nat with (S (j' - S j)) by lia. exact Hnth.
Qed.

Lemma In_scan_order_from (trajectories : list (list TrajectoryPoint.t)) :
  forall (i i' j' : nat) (p : TrajectoryPoint.t),
    In (i', j', p) (scan_order_from i trajectories) ->
    (i <= i')%nat /\
    exists t, nth_error trajectories (i' - i) = Some t /\
              nth_error t j' = Some p.
Proof.
  induction trajectories as [| t l IH]; intros i i' j' p Hin; [destruct Hin |].
  cbn [scan_order_from] in Hin. apply in_app_or in Hin.
  destruct Hin as [Hin | Hin].
  - apply In_index_points in Hin. destruct Hin as (-> & _ & Hnth).
    split; [lia |]. exists t. rewrite Nat.sub_diag, Nat.sub_0_r in *. auto.
  - apply IH in Hin. destruct Hin as (Hle & t' & Ht' & Hp).
    split; [lia |]. exists t'.
    replace (i' - i)%nat with (S (i' - S i)) by lia. auto.
Qed.

Lemma In_scan_order (trajectories : list (list TrajectoryPoint.t))
      (i j : nat) (p : TrajectoryPoint.t) :
  In (i, j, p) (scan_order trajectories) ->
  exists t, nth_error trajectories i = Some t /\ nth_error t j = Some p.
Proof.
  intros Hin. apply In_scan_order_from in Hin.
  rewrite Nat.sub_0_r in Hin. exact (proj2 Hin).
Qed.

End Closest.

(** * The gear partitioner: what it publishes *)

Module Published.
Import Partitioner InitialGear PartitionLoop Closest.
Local Open Scope float_scope.

Section WithLibm.
Variable tanh : double -> double.

Lemma well_formed_head (st : loop_state) :
  well_formed st ->
  exists t p, nth_error (trajectory_partition st) 0 = Some t /\
              nth_error t 0 = Some p.
Proof.
  intros (Hcur & Hhead & _). unfold trajectory_partition.
  destruct (closed st) as [| c cl]; cbn.
  - destruct (current_trajectory st) as [| p l]; [contradiction |].
    exists (p :: l), p. auto.
  - destruct c as [| p l]; [contradiction |].
    exists (p :: l), p. auto.
Qed.

(** The indices the search returns point into the partition. *)
Lemma closest_in_range (vehicle_state : VehicleState.t) (st : loop_state) :
  well_formed st ->
  exists t p,
    nth_error (trajectory_partition st)
              (snd (fst (closest vehicle_state (trajectory_partition st)))) = Some t /\
    nth_error t (snd (closest vehicle_state (trajectory_partition st))) = Some p.
Proof.
  intros Hwf. unfold closest. rewrite closest_in_partition_fold.
  destruct (fold_closer_first_minimum vehicle_state
              (scan_order_from 0 (trajectory_partition st))
              (DBL_MAX, 0%nat, 0%nat))
    as [[Hr _] | (l1 & [[i j] p] & l2 & Hl & Hr & _)]; rewrite Hr; cbn [fst snd].
  - apply well_formed_head; exact Hwf.
  - assert (Hin : In (i, j, p) (scan_order (trajectory_partition st))).
    { unfold scan_order. rewrite Hl. apply in_or_app. right. left. reflexivity. }
    apply In_scan_order in Hin. destruct Hin as (t & Ht & Hp).
    exists t, p. auto.
Qed.

(** When the partition loop has run, [TrajectoryPartition] returns OK and
    publishes the trajectory of the closest point, its times shifted by
    the time of that point, with the gear of that trajectory. *)
Lemma TrajectoryPartition_publishes (vehicle_state : VehicleState.t)
      (published : PublishableTrajectory.t) (pb : ADCTrajectory.t)
      (st : loop_state) :
  partition tanh (PublishableTrajectory.trajectory_points published) =
  Done (inr st) ->
  exists chosen nearest g,
    nth_error (trajectory_partition st)
              (snd (fst (closest vehicle_state (trajectory_partition st)))) =
    Some chosen /\
    nth_error chosen (snd (closest vehicle_state (trajectory_partition st))) =
    Some nearest /\
    nth_error (gear_positions st)
              (snd (fst (closest vehicle_state (trajectory_partition st)))) =
    Some g /\
    TrajectoryPartition tanh vehicle_state published pb =
    Done (Status.OK,
          ADCTrajectory.with_gear (Some g)
            (ADCTrajectory.with_trajectory_point
               (map (shift_time (TrajectoryPoint.relative_time nearest)) chosen)
               pb)).
Proof.
  intros Hpart.
  destruct (partition_Done tanh _ Hpart) as (g0 & _ & _ & Hwf).
  destruct (closest_in_range vehicle_state Hwf) as (chosen & nearest & Hc & Hn).
  assert (Hg : exists g,
             nth_error (gear_positions st)
               (snd (fst (closest vehicle_state (trajectory_partition st)))) =
             Some g).
  { destruct (nth_error (gear_positions st) _) as [g |] eqn:E; [eauto |].
    apply nth_error_None in E.
    assert (Hlt : (snd (fst (closest vehicle_state (trajectory_partition st)))
                   < List.length (trajectory_partition st))%nat)
      by (apply nth_error_Some; congruence).
    destruct Hwf as (_ & _ & Hlen).
    unfold gear_positions, trajectory_partition in *.
    rewrite length_app in *. cbn in *. lia. }
  destruct Hg as [g Hg].
  exists chosen, nearest, g. repeat split; try assumption.
  unfold TrajectoryPartition. rewrite Hpart. cbn [obind].
  destruct (closest vehicle_state (trajectory_partition st)) as [[d ci] cj].
  cbn [fst snd] in *. unfold at_index.
  rewrite Hc; cbn [obind]. rewrite Hn; cbn [obind]. rewrite Hg. reflexivity.
Qed.

(** C5, as the code has it: the samples whose velocity is within the
    threshold are skipped wherever they are, the first three included.
    When the trajectory holds three samples with a direction, the initial
    gear is the direction of the first of them and the partitioner
    returns OK: it does not fail, with the error of the ambiguous start
    or otherwise. *)
Theorem ambiguous_samples_are_skipped
        (vehicle_state : VehicleState.t) (published : PublishableTrajectory.t)
        (pb : ADCTrajectory.t) (p1 p2 p3 : TrajectoryPoint.t)
        (rest : list TrajectoryPoint.t) :
  filter decisive (PublishableTrajectory.trajectory_points published) =
  p1 :: p2 :: p3 :: rest ->
  initial_gear (PublishableTrajectory.trajectory_points published) =
  Done (inr (if moves_forward p1 then GEAR_DRIVE else GEAR_REVERSE)) /\
  exists pb',
    TrajectoryPartition tanh vehicle_state published pb = Done (Status.OK, pb').
Proof.
  intros Hf.
  pose proof (initial_gear_of_first_decisive _ Hf) as Hg.
  split; [exact Hg |].
  assert (Hpart : exists st,
             partition tanh (PublishableTrajectory.trajectory_points published) =
             Done (inr st)).
  { unfold partition. rewrite Hg. cbn [obind]. eexists; reflexivity. }
  destruct Hpart as [st Hpart].
  destruct (TrajectoryPartition_publishes vehicle_state published pb Hpart)
    as (chosen & nearest & g & _ & _ & _ & Hres).
  eexists; exact Hres.
Qed.

End WithLibm.
End Published.

(** C5, witness: three samples at rest, then three forward. *)
Lemma ambiguous_samples_are_skipped_witness :
  Partitioner.initial_gear Bench.slow_start = Done (inr GEAR_DRIVE) /\
  exists pb',
    Partitioner.TrajectoryPartition
      (libm_tanh (Bench.env Status.OK)) Bench.origin
      (PublishableTrajectory.mk 0%float Bench.slow_start) ADCTrajectory.fresh =
    Done (Status.OK, pb').
Proof.
  exact (@Published.ambiguous_samples_are_skipped
           (libm_tanh (Bench.env Status.OK)) Bench.origin
           (PublishableTrajectory.mk 0%float Bench.slow_start) ADCTrajectory.fresh
           (Bench.point 1 1 3)%float (Bench.point 2 1 4)%float
           (Bench.point 3 1 5)%float [] eq_refl).
Defined.

(** C5, counterexample: the first three samples are all within the
    threshold, and the partitioner does not fail: it returns OK and
    publishes the trajectory with gear Drive. *)
Lemma ambiguous_first_samples_still_get_a_gear :
  forallb (fun p => negb (InitialGear.decisive p)) (firstn 3 Bench.slow_start) = true /\
  match Partitioner.TrajectoryPartition
          (libm_tanh (Bench.env Status.OK)) Bench.origin
          (PublishableTrajectory.mk 0%float Bench.slow_start) ADCTrajectory.fresh with
  | Done (status, pb') =>
      status = Status.OK /\
      status <> Partitioner.ambiguous_initial_gear /\
      ADCTrajectory.gear pb' = Some GEAR_DRIVE
  | _ => False
  end.
Proof.
  vm_compute. split; [reflexivity |].
  split; [reflexivity |]. split; [discriminate | reflexivity].
Qed.

(** * The gear partitioner: arc length *)

Module ArcLength.
Import Partitioner InitialGear PartitionLoop.
Local Open Scope float_scope.

(** The arc lengths of the points of a trajectory. *)
Definition arc_lengths (t : list TrajectoryPoint.t) : list double :=
  map (fun p => PathPoint.s (TrajectoryPoint.path_point p)) t.

Section WithLibm.
Variable tanh : double -> double.

(** A point that opens a new trajectory, other than the first point of
    the input, is given the distance from the point before it: the loop
    sets [distance_s] to zero and then adds the step, for every [i > 0]. *)
Lemma new_trajectory_starts_at_the_step (q p : TrajectoryPoint.t)
      (st : loop_state) :
  shifts (gear_back st) p = true ->
  closed (partition_step tanh (Some q) p st) = closed st ++ [current_trajectory st] /\
  arc_lengths (current_trajectory (partition_step tanh (Some q) p st)) =
  [accumulate_distance (Some q) p 0].
Proof.
  intros Hs. unfold partition_step. rewrite shift_if_reversed_spec, Hs.
  split; reflexivity.
Qed.

(** Within a trajectory the arc length of a point is the arc length of
    the point before it plus the step between the two. *)
Lemma arc_length_accumulates (prev : option TrajectoryPoint.t)
      (p : TrajectoryPoint.t) (st : loop_state) :
  shifts (gear_back st) p = false ->
  closed (partition_step tanh prev p st) = closed st /\
  arc_lengths (current_trajectory (partition_step tanh prev p st)) =
  arc_lengths (current_trajectory st) ++
  [accumulate_distance prev p (distance_s st)].
Proof.
  intros Hs. unfold partition_step. rewrite shift_if_reversed_spec, Hs.
  split; [reflexivity |]. unfold arc_lengths. cbn. rewrite map_app. reflexivity.
Qed.

(** C4: the velocities [1,1,1,-1,-1,-1] of the spec, on points one
    metre apart.  The partition has the two gears the claim says, and
    the arc lengths of its second trajectory start at 1, the distance
    from point 2 to point 3, not at 0. *)
Theorem arc_length_at_gear_shift_is_the_step :
  match partition tanh Bench.there_and_back with
  | Done (inr st) =>
      gear_positions st = [GEAR_DRIVE; GEAR_REVERSE] /\
      map arc_lengths (trajectory_partition st) = [[0; 1; 2]; [1; 2; 3]]
  | _ => False
  end.
Proof.
  vm_compute. split; reflexivity.
Qed.

End WithLibm.
End ArcLength.

(** * The gear partitioner run on its own output *)

Module Rerun.
Import Partitioner InitialGear PartitionLoop Closest Published.
Local Open Scope float_scope.

Definition velocities (t : list TrajectoryPoint.t) : list double :=
  map TrajectoryPoint.v t.

Section WithLibm.
Variable tanh : double -> double.

(** The loop only ever appends to the closed trajectories. *)
Lemma closed_grows (pts : list TrajectoryPoint.t) :
  forall (prev : option TrajectoryPoint.t) (st : loop_state),
    exists more, closed (partition_loop tanh prev pts st) = closed st ++ more.
Proof.
  induction pts as [| p l IH]; intros prev st.
  - exists []. cbn. rewrite app_nil_r. reflexivity.
  - cbn [partition_loop].
    destruct (IH (Some p) (partition_step tanh prev p st)) as [more Hmore].
    rewrite Hmore. unfold partition_step. rewrite shift_if_reversed_spec.
    destruct (shifts (gear_back st) p); cbn.
    + exists ([current_trajectory st] ++ more). rewrite app_assoc. reflexivity.
    + exists more. reflexivity.
Qed.

(** A loop that closes no trajectory has met no point that shifts the
    gear it started with, and has added every point with its velocity
    multiplied by that gear's sign. *)
Lemma single_trajectory (pts : list TrajectoryPoint.t) :
  forall (prev : option TrajectoryPoint.t) (st : loop_state),
    closed (partition_loop tanh prev pts st) = closed st ->
    Forall (fun p => shifts (gear_back st) p = false) pts /\
    gear_back (partition_loop tanh prev pts st) = gear_back st /\
    closed_gears (partition_loop tanh prev pts st) = closed_gears st /\
    velocities (current_trajectory (partition_loop tanh prev pts st)) =
    velocities (current_trajectory st) ++
    map (fun p => TrajectoryPoint.v p * gear_drive (gear_back st)) pts.
Proof.
  induction pts as [| p l IH]; intros prev st Hclosed.
  - cbn. rewrite app_nil_r. auto.
  - cbn [partition_loop] in *.
    assert (Hs : shifts (gear_back st) p = false).
    { destruct (shifts (gear_back st) p) eqn:Hs; [| reflexivity].
      destruct (closed_grows l (Some p) (partition_step tanh prev p st))
        as [more Hmore].
      rewrite Hmore in Hclosed. unfold partition_step in Hclosed.
      rewrite shift_if_reversed_spec, Hs in Hclosed. cbn in Hclosed.
      apply (f_equal (@List.length _)) in Hclosed.
      rewrite !length_app in Hclosed. cbn in Hclosed. lia. }
    assert (Hstep : partition_step tanh prev p st =
                    mk_loop_state (closed st)
                      (current_trajectory st ++
                       [partitioned_point tanh (gear_back st)
                          (accumulate_distance prev p (distance_s st)) p])
                      (closed_gears st) (gear_back st)
                      (accumulate_distance prev p (distance_s st))).
    { unfold partition_step. rewrite shift_if_reversed_spec, Hs. reflexivity. }
    rewrite Hstep in *.
    destruct (IH _ _ Hclosed) as (Hall & Hg & Hcg & Hv). cbn in *.
    split; [constructor; assumption |].
    split; [exact Hg |]. split; [exact Hcg |].
    rewrite Hv. unfold velocities. rewrite map_app, <- app_assoc. reflexivity.
Qed.

(** A loop over points none of which shifts the gear closes no
    trajectory. *)
Lemma no_shift_no_new_trajectory (pts : list TrajectoryPoint.t) :
  forall (prev : option TrajectoryPoint.t) (st : loop_state),
    Forall (fun p => shifts (gear_back st) p = false) pts ->
    closed (partition_loop tanh prev pts st) = closed st /\
    gear_back (partition_loop tanh prev pts st) = gear_back st /\
    List.length (current_trajectory (partition_loop tanh prev pts st)) =
    (List.length (current_trajectory st) + List.length pts)%nat.
Proof.
  induction pts as [| p l IH]; intros prev st Hall.
  - cbn. auto.
  - inversion Hall as [| ? ? Hs Hl]; subst. cbn [partition_loop].
    assert (Hstep : partition_step tanh prev p st =
                    mk_loop_state (closed st)
                      (current_trajectory st ++
                       [partitioned_point tanh (gear_back st)
                          (accumulate_distance prev p (distance_s st)) p])
                      (closed_gears st) (gear_back st)
                      (accumulate_distance prev p (distance_s st))).
    { unfold partition_step. rewrite shift_if_reversed_spec, Hs. reflexivity. }
    rewrite Hstep.
    match goal with |- context [partition_loop tanh (Some p) l ?s1] =>
      destruct (IH (Some p) s1 Hl) as (Hc & Hg & Hlen)
    end.
    cbn in *.
    split; [exact Hc |]. split; [exact Hg |].
    rewrite Hlen, length_app. cbn. lia.
Qed.

End WithLibm.

(** The velocity tests on a velocity the partitioner has written. *)
Lemma forward_after_sign (g : GearPosition) (p p' : TrajectoryPoint.t) :
  g = GEAR_DRIVE \/ g = GEAR_REVERSE ->
  shifts g p = false ->
  TrajectoryPoint.v p' = TrajectoryPoint.v p * gear_drive g ->
  moves_backward p' = false /\ moves_forward p' = decisive p.
Proof.
  unfold decisive, moves_forward, moves_backward, shifts.
  intros [-> | ->] Hs ->; cbn [gear_drive gear_eqb].
  - unfold moves_backward in Hs. rewrite Binary64.mul_1_r, Hs, orb_false_r. auto.
  - unfold moves_forward in Hs. rewrite Binary64.mul_m1_r.
    rewrite Binary64.ltb_opp. rewrite Hs. split; [reflexivity |].
    rewrite <- (Binary64.opp_involutive kepsilon) at 1.
    rewrite Binary64.ltb_opp. reflexivity.
Qed.

(** The tests of a second run on velocities written by a first run that
    closed no trajectory: no point moves backward, and the points with a
    direction are where they were. *)
Lemma tests_after_sign (g : GearPosition) (pts : list TrajectoryPoint.t) :
  g = GEAR_DRIVE \/ g = GEAR_REVERSE ->
  forall pts' : list TrajectoryPoint.t,
    Forall (fun p => shifts g p = false) pts ->
    velocities pts' =
    map (fun p => TrajectoryPoint.v p * gear_drive g) pts ->
    Forall (fun p' => moves_backward p' = false) pts' /\
    List.length (filter decisive pts') = List.length (filter decisive pts).
Proof.
  intros Hg. induction pts as [| p l IH]; intros pts' Hall Hv.
  - destruct pts'; [| discriminate]. cbn. auto.
  - destruct pts' as [| p' l']; [discriminate |].
    cbn in Hv. inversion Hv as [[Hp Hl]].
    inversion Hall as [| ? ? Hs Hrest]; subst.
    destruct (IH l' Hrest Hl) as (Hback & Hlen).
    destruct (forward_after_sign p p' Hg Hs Hp) as (Hb & Hf).
    split; [constructor; assumption |].
    cbn [filter]. unfold decisive at 1. rewrite Hb, Hf, orb_false_r.
    destruct (decisive p); cbn; lia.
Qed.

Section Theorems.
Variable tanh : double -> double.

(** With a single trajectory in the partition, it is the one published. *)
Lemma single_trajectory_is_published (vehicle_state : VehicleState.t)
      (published : PublishableTrajectory.t) (pb : ADCTrajectory.t)
      (st : loop_state) :
  partition tanh (PublishableTrajectory.trajectory_points published) =
  Done (inr st) ->
  closed st = [] ->
  exists time_shift,
    TrajectoryPartition tanh vehicle_state published pb =
    Done (Status.OK,
          ADCTrajectory.with_gear (Some (gear_back st))
            (ADCTrajectory.with_trajectory_point
               (map (shift_time time_shift) (current_trajectory st)) pb)).
Proof.
  intros Hpart Hclosed.
  destruct (partition_Done tanh _ Hpart) as (g0 & _ & _ & (_ & _ & Hlen)).
  destruct (TrajectoryPartition_publishes tanh vehicle_state published pb Hpart)
    as (chosen & nearest & g & Hc & _ & Hg & Hres).
  rewrite Hclosed in Hlen. cbn in Hlen.
  revert Hc Hg.
  generalize (snd (fst (closest vehicle_state (trajectory_partition st)))).
  unfold trajectory_partition, gear_positions. rewrite Hclosed.
  destruct (closed_gears st); [| discriminate].
  intros [| [| n]] Hc Hg; cbn in Hc, Hg; try discriminate.
  inversion Hc; inversion Hg; subst.
  exists (TrajectoryPoint.relative_time nearest). exact Hres.
Qed.

End Theorems.
End Rerun.

(** C8, counterexample: a single trajectory in reverse is published with
    gear Reverse; the partitioner run again on the published points
    labels it Drive. *)
Lemma rerun_turns_reverse_into_drive :
  match Partitioner.TrajectoryPartition
          (libm_tanh (Bench.env Status.OK)) Bench.origin
          (PublishableTrajectory.mk 0%float Bench.backing) ADCTrajectory.fresh with
  | Done (status, pb') =>
      status = Status.OK /\
      ADCTrajectory.gear pb' = Some GEAR_REVERSE /\
      match Partitioner.TrajectoryPartition
              (libm_tanh (Bench.env Status.OK)) Bench.origin
              (PublishableTrajectory.mk 0%float (ADCTrajectory.trajectory_point pb'))
              ADCTrajectory.fresh with
      | Done (status2, pb'') =>
          status2 = Status.OK /\
          ADCTrajectory.gear pb'' = Some GEAR_DRIVE /\
          ADCTrajectory.gear pb'' <> ADCTrajectory.gear pb'
      | _ => False
      end
  | _ => False
  end.
Proof.
  vm_compute. repeat split. discriminate.
Qed.

(** * The gear partitioner: the nearest point and the times *)

Module Nearest.
Import Partitioner InitialGear PartitionLoop Closest Published.
Local Open Scope float_scope.












Section WithLibm.
Variable tanh : double -> double.



End WithLibm.
End Nearest.



(** * The gear partitioner: what every run keeps *)

Module Segments.
Import Partitioner InitialGear PartitionLoop Closest Published.
Local Open Scope float_scope.

(** What the partition loop copies from a point without change. *)
Definition pose_and_time (p : TrajectoryPoint.t)
  : double * double * double * double :=
  (PathPoint.x (TrajectoryPoint.path_point p),
   PathPoint.y (TrajectoryPoint.path_point p),
   PathPoint.theta (TrajectoryPoint.path_point p),
   TrajectoryPoint.relative_time p).

Definition drive_or_reverse (g : GearPosition) : bool :=
  gear_eqb g GEAR_DRIVE || gear_eqb g GEAR_REVERSE.

(** Each gear of the list is the other gear than the one before it. *)
Fixpoint alternates_from (g : GearPosition) (l : list GearPosition) : bool :=
  match l with
  | [] => true
  | h :: rest => gear_eqb h (opposite g) && alternates_from h rest
  end.

Definition alternates (l : list GearPosition) : bool :=
  match l with
  | [] => true
  | g :: rest => drive_or_reverse g && alternates_from g rest
  end.

(** Fixtures: three samples at rest, and the partition loop run on the
    bench's [there_and_back] from the gear Drive. *)
Definition at_rest : list TrajectoryPoint.t :=
  [Bench.point 0 0 0; Bench.point 0 0 1; Bench.point 0 0 2].

Definition there_and_back_partitioned : loop_state :=
  partition_loop (libm_tanh (Bench.env Status.OK)) None Bench.there_and_back
    (mk_loop_state [] [] [] GEAR_DRIVE 0).

(** ** The initial scan *)

(** The scan runs off the end of a trajectory that holds fewer samples
    with a direction than it still has to count. *)
Lemma initial_gear_scan_runs_out (pts : list TrajectoryPoint.t) :
  forall (i : nat) (f d : Z),
    (i + List.length (filter decisive pts) < 3)%nat ->
    initial_gear_scan pts i f d = Undefined.
Proof.
  induction pts as [| p l IH]; intros i f d Hlt.
  - cbn [initial_gear_scan].
    destruct (Nat.eqb_spec i initial_gear_check_horizon) as [E | E];
      [unfold initial_gear_check_horizon in E; cbn in Hlt; lia | reflexivity].
  - cbn [initial_gear_scan]. cbn [filter] in Hlt. unfold decisive at 1 in Hlt.
    destruct (Nat.eqb_spec i initial_gear_check_horizon) as [E | E];
      [unfold initial_gear_check_horizon in E; lia |].
    destruct (moves_forward p); cbn [orb] in Hlt.
    + apply IH. cbn in Hlt. lia.
    + destruct (moves_backward p).
      * apply IH. cbn in Hlt. lia.
      * apply IH. exact Hlt.
Qed.

Lemma initial_gear_outcome (pts : list TrajectoryPoint.t) :
  initial_gear pts =
  if Nat.ltb (List.length pts) 3 then Done (inl too_short)
  else match filter decisive pts with
       | p1 :: _ :: _ :: _ =>
           Done (inr (if moves_forward p1 then GEAR_DRIVE else GEAR_REVERSE))
       | _ => Undefined
       end.
Proof.
  destruct (Nat.ltb (List.length pts) 3) eqn:Hlen.
  - unfold initial_gear, initial_gear_check_horizon. rewrite Hlen. reflexivity.
  - destruct (filter decisive pts) as [| p1 [| p2 [| p3 rest]]] eqn:Hf.
    4: exact (initial_gear_of_first_decisive pts Hf).
    all: unfold initial_gear, initial_gear_check_horizon; rewrite Hlen;
      rewrite initial_gear_scan_runs_out by (rewrite Hf; cbn; lia);
      reflexivity.
Qed.

(** ** The tests of the loop *)

Lemma shifts_after_shift (g : GearPosition) (p : TrajectoryPoint.t) :
  shifts g p = true -> shifts (opposite g) p = false.
Proof.
  destruct g; cbn [shifts opposite]; try discriminate.
  - intros Hb. destruct (moves_forward p) eqn:Hf; [| reflexivity].
    rewrite (@forward_excludes_backward p Hf) in Hb. discriminate.
  - intros Hf. apply forward_excludes_backward. exact Hf.
Qed.

Lemma opposite_drive_or_reverse (g : GearPosition) :
  drive_or_reverse (opposite g) = true.
Proof. destruct g; reflexivity. Qed.

Lemma drive_or_reverse_cases (g : GearPosition) :
  drive_or_reverse g = true -> g = GEAR_DRIVE \/ g = GEAR_REVERSE.
Proof. destruct g; cbn; try discriminate; auto. Qed.

Lemma gear_eqb_refl (g : GearPosition) : gear_eqb g g = true.
Proof. destruct g; reflexivity. Qed.

Lemma alternates_from_snoc (l : list GearPosition) :
  forall g h : GearPosition,
    alternates_from g (l ++ [h]) = true ->
    alternates_from g ((l ++ [h]) ++ [opposite h]) = true.
Proof.
  induction l as [| a l IH]; intros g h H; cbn in *.
  - apply andb_true_iff in H. destruct H as [H _].
    rewrite H, gear_eqb_refl. reflexivity.
  - apply andb_true_iff in H. destruct H as [Ha H].
    rewrite Ha. cbn. apply IH. exact H.
Qed.

Lemma alternates_snoc (l : list GearPosition) (h : GearPosition) :
  alternates (l ++ [h]) = true ->
  alternates ((l ++ [h]) ++ [opposite h]) = true.
Proof.
  destruct l as [| g l]; cbn; intros H.
  - rewrite andb_true_r in H. rewrite H, gear_eqb_refl. reflexivity.
  - apply andb_true_iff in H. destruct H as [Hg H]. rewrite Hg. cbn.
    apply alternates_from_snoc. exact H.
Qed.

Lemma alternates_from_all (l : list GearPosition) :
  forall g : GearPosition,
    alternates_from g l = true -> Forall (fun h => drive_or_reverse h = true) l.
Proof.
  induction l as [| a l IH]; intros g H; [constructor |].
  cbn in H. apply andb_true_iff in H. destruct H as [Ha H].
  constructor; [| exact (IH a H)].
  destruct a, g; cbn in Ha; try discriminate; reflexivity.
Qed.

Lemma alternates_all (l : list GearPosition) :
  alternates l = true -> Forall (fun h => drive_or_reverse h = true) l.
Proof.
  destruct l as [| g l]; [constructor |]. cbn. intros H.
  apply andb_true_iff in H. destruct H as [Hg H].
  constructor; [exact Hg | exact (alternates_from_all l g H)].
Qed.

Section WithLibm.
Variable tanh : double -> double.

(** One turn of the loop: the gear it writes the point with, and where
    the point goes. *)
Lemma partition_step_cases (prev : option TrajectoryPoint.t)
      (p : TrajectoryPoint.t) (st : loop_state) :
  let g := if shifts (gear_back st) p then opposite (gear_back st)
           else gear_back st in
  exists d,
    let p' := partitioned_point tanh g d p in
    partition_step tanh prev p st =
    (if shifts (gear_back st) p
     then mk_loop_state (closed st ++ [current_trajectory st]) [p']
                        (closed_gears st ++ [gear_back st]) g d
     else mk_loop_state (closed st) (current_trajectory st ++ [p'])
                        (closed_gears st) g d).
Proof.
  unfold partition_step. rewrite shift_if_reversed_spec.
  destruct (shifts (gear_back st) p); cbn; eexists; reflexivity.
Qed.

Lemma concat_snoc {A : Type} (ls : list (list A)) (l : list A) :
  List.concat (ls ++ [l]) = List.concat ls ++ l.
Proof. rewrite concat_app. cbn. rewrite app_nil_r. reflexivity. Qed.

(** One turn adds one point at the end of the partition. *)
Lemma partition_step_concat (prev : option TrajectoryPoint.t)
      (p : TrajectoryPoint.t) (st : loop_state) :
  exists d,
    List.concat (trajectory_partition (partition_step tanh prev p st)) =
    List.concat (trajectory_partition st) ++
    [partitioned_point tanh
       (if shifts (gear_back st) p then opposite (gear_back st) else gear_back st)
       d p].
Proof.
  destruct (partition_step_cases prev p st) as [d Hstep]. exists d.
  cbv zeta in Hstep. rewrite Hstep. unfold trajectory_partition.
  destruct (shifts (gear_back st) p); cbn [closed current_trajectory];
    rewrite !concat_snoc; [reflexivity | rewrite app_assoc; reflexivity].
Qed.

Lemma partition_step_gear (prev : option TrajectoryPoint.t)
      (p : TrajectoryPoint.t) (st : loop_state) :
  gear_back (partition_step tanh prev p st) =
  if shifts (gear_back st) p then opposite (gear_back st) else gear_back st.
Proof.
  destruct (partition_step_cases prev p st) as [d Hstep].
  cbv zeta in Hstep. rewrite Hstep.
  destruct (shifts (gear_back st) p); reflexivity.
Qed.

(** How a point of the partition relates to the input point it was made
    from: pose and time are copied, velocity and acceleration keep their
    size and change sign together, and the steering angle is not set. *)
Definition made_from (p' p : TrajectoryPoint.t) : Prop :=
  pose_and_time p' = pose_and_time p /\
  TrajectoryPoint.steer p' = 0 /\
  ((TrajectoryPoint.v p' = TrajectoryPoint.v p /\
    TrajectoryPoint.a p' = TrajectoryPoint.a p)
   \/
   (TrajectoryPoint.v p' = - TrajectoryPoint.v p /\
    TrajectoryPoint.a p' = - TrajectoryPoint.a p)).

Lemma partitioned_point_made_from (g : GearPosition) (d : double)
      (p : TrajectoryPoint.t) :
  made_from (partitioned_point tanh g d p) p.
Proof.
  unfold made_from, partitioned_point, pose_and_time. cbn.
  split; [reflexivity |]. split; [reflexivity |].
  unfold gear_drive. destruct (gear_eqb g GEAR_REVERSE).
  - right. rewrite !Binary64.mul_m1_r. auto.
  - left. rewrite !Binary64.mul_1_r. auto.
Qed.

Lemma partition_loop_made_from (pts : list TrajectoryPoint.t) :
  forall (prev : option TrajectoryPoint.t) (st : loop_state),
  exists added,
    List.concat (trajectory_partition (partition_loop tanh prev pts st)) =
    List.concat (trajectory_partition st) ++ added /\
    Forall2 made_from added pts.
Proof.
  induction pts as [| p l IH]; intros prev st.
  - exists []. cbn [partition_loop]. rewrite app_nil_r. split; [reflexivity | constructor].
  - cbn [partition_loop].
    destruct (IH (Some p) (partition_step tanh prev p st)) as (added & Hc & Hall).
    destruct (partition_step_concat prev p st) as [d Hstep].
    rewrite Hstep in Hc. eexists (_ :: added). split.
    + rewrite Hc, <- app_assoc. reflexivity.
    + constructor; [apply partitioned_point_made_from | exact Hall].
Qed.

Lemma partition_keeps_every_point_length
      (pts : list TrajectoryPoint.t) (st : loop_state) :
  partition tanh pts = Done (inr st) ->
  List.length (List.concat (trajectory_partition st)) = List.length pts.
Proof.
  intros Hpart. destruct (partition_Done tanh _ Hpart) as (g0 & _ & -> & _).
  destruct (partition_loop_made_from pts None (mk_loop_state [] [] [] g0 0))
    as (added & Hc & Hall).
  rewrite Hc. exact (Forall2_length Hall).
Qed.

(** X2: the partition holds every input point once and in order: the
    trajectories put end to end are the input, point by point, with pose
    and relative time copied, velocity and acceleration multiplied
    together by 1 or by -1, and no steering angle. *)
Theorem partition_keeps_every_point
        (pts : list TrajectoryPoint.t) (st : loop_state) :
  partition tanh pts = Done (inr st) ->
  Forall2 made_from (List.concat (trajectory_partition st)) pts.
Proof.
  intros Hpart. destruct (partition_Done tanh _ Hpart) as (g0 & _ & -> & _).
  destruct (partition_loop_made_from pts None (mk_loop_state [] [] [] g0 0))
    as (added & Hc & Hall).
  rewrite Hc. exact Hall.
Qed.

(** The gears and the trajectories of a state the loop has added a point
    to. *)
Definition aligned (st : loop_state) : Prop :=
  alternates (gear_positions st) = true /\
  Forall (fun t => t <> []) (trajectory_partition st) /\
  List.length (gear_positions st) = List.length (trajectory_partition st).

Lemma partition_step_aligned (prev : option TrajectoryPoint.t)
      (p : TrajectoryPoint.t) (st : loop_state) :
  alternates (gear_positions st) = true ->
  Forall (fun t => t <> []) (closed st) ->
  List.length (closed_gears st) = List.length (closed st) ->
  current_trajectory st <> [] \/ shifts (gear_back st) p = false ->
  aligned (partition_step tanh prev p st).
Proof.
  intros Halt Hne Hlen Hcur.
  destruct (partition_step_cases prev p st) as [d Hstep].
  cbv zeta in Hstep. rewrite Hstep. clear Hstep.
  unfold aligned, gear_positions, trajectory_partition in *.
  destruct (shifts (gear_back st) p) eqn:Hs;
    cbn [closed current_trajectory closed_gears gear_back].
  - destruct Hcur as [Hcur | Hcur]; [| discriminate].
    split; [apply alternates_snoc; exact Halt |]. split.
    + apply Forall_app. split; [| repeat constructor; discriminate].
      apply Forall_app. split; [exact Hne | repeat constructor; exact Hcur].
    + rewrite !length_app. cbn. lia.
  - split; [exact Halt |]. split.
    + apply Forall_app. split; [exact Hne |]. repeat constructor.
      destruct (current_trajectory st); discriminate.
    + rewrite !length_app. cbn. lia.
Qed.

Lemma aligned_parts (st : loop_state) :
  aligned st ->
  alternates (gear_positions st) = true /\
  Forall (fun t => t <> []) (closed st) /\
  List.length (closed_gears st) = List.length (closed st) /\
  current_trajectory st <> [].
Proof.
  unfold aligned, gear_positions, trajectory_partition.
  intros (Halt & Hne & Hlen).
  apply Forall_app in Hne. destruct Hne as [Hc Hcur].
  rewrite !length_app in Hlen. cbn in Hlen.
  split; [exact Halt |]. split; [exact Hc |]. split; [lia |].
  inversion Hcur; assumption.
Qed.

Lemma partition_loop_aligned (pts : list TrajectoryPoint.t) :
  forall (prev : option TrajectoryPoint.t) (st : loop_state),
    aligned st -> aligned (partition_loop tanh prev pts st).
Proof.
  induction pts as [| p l IH]; intros prev st Hal; [exact Hal |].
  cbn [partition_loop]. apply IH.
  destruct (aligned_parts Hal) as (Halt & Hc & Hlen & Hcur).
  apply partition_step_aligned; auto.
Qed.

(** Every gear of a partition is Drive or Reverse. *)
Lemma partition_gears (pts : list TrajectoryPoint.t) (st : loop_state) :
  partition tanh pts = Done (inr st) ->
  Forall (fun g => drive_or_reverse g = true) (gear_positions st).
Proof.
  intros Hpart. destruct (partition_Done tanh _ Hpart) as (g0 & Hg & -> & _).
  destruct pts as [| p0 rest].
  - unfold initial_gear in Hg. cbn in Hg. discriminate.
  - cbn [partition_loop]. apply alternates_all.
    apply (fun H => proj1 (@partition_loop_aligned rest (Some p0) _ H)).
    destruct (first_point_does_not_shift _ _ Hg) as [Hs Hg0].
    apply partition_step_aligned; cbn; auto.
    unfold gear_positions. cbn.
    destruct Hg0 as [-> | ->]; reflexivity.
Qed.

(** X3: the partition has one gear for each trajectory, no trajectory is
    empty, the first gear is Drive or Reverse and each further gear is
    the other gear than the one before it. *)
Theorem gears_alternate (pts : list TrajectoryPoint.t) (st : loop_state) :
  partition tanh pts = Done (inr st) ->
  alternates (gear_positions st) = true /\
  Forall (fun t => t <> []) (trajectory_partition st) /\
  List.length (gear_positions st) = List.length (trajectory_partition st).
Proof.
  intros Hpart. destruct (partition_Done tanh _ Hpart) as (g0 & Hg & -> & _).
  destruct pts as [| p0 rest].
  - unfold initial_gear in Hg. cbn in Hg. discriminate.
  - (* the first point opens no trajectory; the loop keeps the rest *)
    cbn [partition_loop]. apply partition_loop_aligned.
    destruct (first_point_does_not_shift _ _ Hg) as [Hs Hg0].
    apply partition_step_aligned; cbn; auto.
    unfold gear_positions. cbn.
    destruct Hg0 as [-> | ->]; reflexivity.
Qed.

(** The loop writes no point that still moves backward. *)
Lemma partition_loop_forward (pts : list TrajectoryPoint.t) :
  forall (prev : option TrajectoryPoint.t) (st : loop_state),
    drive_or_reverse (gear_back st) = true ->
    Forall (fun p => moves_backward p = false)
           (List.concat (trajectory_partition st)) ->
    Forall (fun p => moves_backward p = false)
           (List.concat (trajectory_partition (partition_loop tanh prev pts st))).
Proof.
  induction pts as [| p l IH]; intros prev st Hg Hall; [exact Hall |].
  cbn [partition_loop]. apply IH.
  - rewrite partition_step_gear.
    destruct (shifts (gear_back st) p);
      [apply opposite_drive_or_reverse | exact Hg].
  - destruct (partition_step_concat prev p st) as [d Hstep]. rewrite Hstep.
    apply Forall_app. split; [exact Hall |]. repeat constructor.
    set (g := if shifts (gear_back st) p then opposite (gear_back st)
              else gear_back st).
    assert (Hg' : g = GEAR_DRIVE \/ g = GEAR_REVERSE).
    { apply drive_or_reverse_cases. unfold g.
      destruct (shifts (gear_back st) p);
        [apply opposite_drive_or_reverse | exact Hg]. }
    assert (Hs : shifts g p = false).
    { unfold g. destruct (shifts (gear_back st) p) eqn:E;
        [apply shifts_after_shift; exact E | exact E]. }
    exact (proj1 (Rerun.forward_after_sign
                    p (partitioned_point tanh g d p) Hg' Hs eq_refl)).
Qed.

(** What [TrajectoryPartition] has done when it returns. *)
Lemma TrajectoryPartition_Done (vehicle_state : VehicleState.t)
      (published : PublishableTrajectory.t) (pb pb' : ADCTrajectory.t)
      (status : Status.t) :
  TrajectoryPartition tanh vehicle_state published pb = Done (status, pb') ->
  ((List.length (PublishableTrajectory.trajectory_points published) < 3)%nat /\
   status = too_short /\ pb' = pb)
  \/
  (exists st chosen nearest g,
      partition tanh (PublishableTrajectory.trajectory_points published) =
      Done (inr st) /\
      In chosen (trajectory_partition st) /\
      In nearest chosen /\
      In g (gear_positions st) /\
      status = Status.OK /\
      pb' = ADCTrajectory.with_gear (Some g)
              (ADCTrajectory.with_trajectory_point
                 (map (shift_time (TrajectoryPoint.relative_time nearest)) chosen)
                 pb)).
Proof.
  intros H.
  destruct (partition tanh (PublishableTrajectory.trajectory_points published))
    as [[err | st] | | |] eqn:Hpart.
  - left. unfold TrajectoryPartition in H. rewrite Hpart in H. cbn in H.
    inversion H; subst; clear H.
    unfold partition in Hpart. rewrite initial_gear_outcome in Hpart.
    destruct (Nat.ltb_spec
                (List.length (PublishableTrajectory.trajectory_points published)) 3)
      as [Hlt | Hge].
    + cbn in Hpart. inversion Hpart. auto.
    + destruct (filter decisive _) as [| p1 [| p2 [| p3 rest]]];
        discriminate.
  - right.
    destruct (TrajectoryPartition_publishes tanh vehicle_state published pb Hpart)
      as (chosen & nearest & g & Hc & Hn & Hg & Hres).
    rewrite Hres in H. inversion H; subst; clear H.
    exists st, chosen, nearest, g.
    repeat split; eauto using nth_error_In.
  - unfold TrajectoryPartition in H. rewrite Hpart in H. discriminate.
  - unfold TrajectoryPartition in H. rewrite Hpart in H. discriminate.
  - unfold TrajectoryPartition in H. rewrite Hpart in H. discriminate.
Qed.

Lemma concat_length_In {A : Type} (ls : list (list A)) (l : list A) :
  In l ls -> (List.length l <= List.length (List.concat ls))%nat.
Proof.
  induction ls as [| a ls IH]; intros Hin; [destruct Hin |].
  cbn. rewrite length_app. destruct Hin as [-> | Hin]; [lia |].
  apply IH in Hin. lia.
Qed.

Lemma In_concat_Forall {A : Type} (P : A -> Prop) (ls : list (list A))
      (l : list A) :
  Forall P (List.concat ls) -> In l ls -> Forall P l.
Proof.
  induction ls as [| a ls IH]; intros Hall Hin; [destruct Hin |].
  cbn in Hall. apply Forall_app in Hall. destruct Hall as [Ha Hls].
  destruct Hin as [-> | Hin]; [exact Ha | exact (IH Hls Hin)].
Qed.

(** X4: every point [TrajectoryPartition] publishes with status OK has a
    velocity that is not below [-kepsilon]: in a Reverse trajectory the
    velocities are written with their sign changed. *)
Theorem published_points_do_not_move_backward
        (vehicle_state : VehicleState.t) (published : PublishableTrajectory.t)
        (pb pb' : ADCTrajectory.t) :
  TrajectoryPartition tanh vehicle_state published pb = Done (Status.OK, pb') ->
  Forall (fun p => (TrajectoryPoint.v p <? - kepsilon) = false)
         (ADCTrajectory.trajectory_point pb').
Proof.
  intros H. apply TrajectoryPartition_Done in H.
  destruct H as [(_ & Hs & _) | (st & chosen & nearest & g & Hpart & Hc & _ & _ & _ & ->)];
    [discriminate |].
  destruct (partition_Done tanh _ Hpart) as (g0 & Hg0 & Hst & _).
  assert (Hd : drive_or_reverse g0 = true).
  { destruct (PublishableTrajectory.trajectory_points published) as [| p0 rest].
    - unfold initial_gear in Hg0. cbn in Hg0. discriminate.
    - destruct (first_point_does_not_shift _ _ Hg0) as [_ [-> | ->]]; reflexivity. }
  pose proof (partition_loop_forward
                (PublishableTrajectory.trajectory_points published) None
                (mk_loop_state [] [] [] g0 0) Hd (Forall_nil _)) as Hall.
  rewrite <- Hst in Hall.
  pose proof (In_concat_Forall _ _ Hall Hc) as Hchosen.
  cbn [ADCTrajectory.trajectory_point ADCTrajectory.with_gear
       ADCTrajectory.with_trajectory_point].
  apply Forall_map. revert Hchosen. apply Forall_impl.
  intros p Hp. exact Hp.
Qed.

(** X5: [TrajectoryPartition] returns either the error of a trajectory
    shorter than three points, with the output record as it was, or OK
    with a non-empty trajectory, not longer than the input, and the gear
    Drive or Reverse.  It returns no other status: the error of the
    ambiguous start is never returned. *)
Theorem partitioner_returns_ok_or_too_short
        (vehicle_state : VehicleState.t) (published : PublishableTrajectory.t)
        (pb pb' : ADCTrajectory.t) (status : Status.t) :
  TrajectoryPartition tanh vehicle_state published pb = Done (status, pb') ->
  ((List.length (PublishableTrajectory.trajectory_points published) < 3)%nat /\
   status = too_short /\ pb' = pb)
  \/
  ((3 <= List.length (PublishableTrajectory.trajectory_points published))%nat /\
   status = Status.OK /\
   ADCTrajectory.trajectory_point pb' <> [] /\
   (List.length (ADCTrajectory.trajectory_point pb') <=
    List.length (PublishableTrajectory.trajectory_points published))%nat /\
   (ADCTrajectory.gear pb' = Some GEAR_DRIVE \/
    ADCTrajectory.gear pb' = Some GEAR_REVERSE)).
Proof.
  intros H. apply TrajectoryPartition_Done in H.
  destruct H as [Hshort | (st & chosen & nearest & g & Hpart & Hc & Hn & Hg & -> & ->)];
    [left; exact Hshort | right].
  cbn [ADCTrajectory.trajectory_point ADCTrajectory.gear ADCTrajectory.with_gear
       ADCTrajectory.with_trajectory_point].
  split.
  { unfold partition in Hpart. rewrite initial_gear_outcome in Hpart.
    destruct (Nat.ltb_spec
                (List.length (PublishableTrajectory.trajectory_points published)) 3);
      [discriminate | assumption]. }
  split; [reflexivity |]. split.
  { destruct chosen; [destruct Hn | discriminate]. }
  split.
  { rewrite length_map.
    pose proof (@partition_keeps_every_point_length _ _ Hpart) as Hlen.
    rewrite <- Hlen. apply concat_length_In. exact Hc. }
  pose proof (@partition_gears _ _ Hpart) as Halt.
  rewrite Forall_forall in Halt.
  destruct (drive_or_reverse_cases g (Halt g Hg)) as [-> | ->]; auto.
Qed.

(** X1: a trajectory of three points or more that holds fewer than three
    samples with a velocity beyond the threshold makes the initial scan
    read [stitched_trajectory_to_end[j]] past the end of the vector. *)
Theorem initial_scan_reads_past_the_end
        (vehicle_state : VehicleState.t) (published : PublishableTrajectory.t)
        (pb : ADCTrajectory.t) :
  (3 <= List.length (PublishableTrajectory.trajectory_points published))%nat ->
  (List.length (filter decisive
                  (PublishableTrajectory.trajectory_points published)) < 3)%nat ->
  TrajectoryPartition tanh vehicle_state published pb = Undefined.
Proof.
  intros Hlen Hdec. unfold TrajectoryPartition, partition.
  rewrite initial_gear_outcome.
  destruct (Nat.ltb_spec
              (List.length (PublishableTrajectory.trajectory_points published)) 3);
    [lia |].
  destruct (filter decisive (PublishableTrajectory.trajectory_points published))
    as [| p1 [| p2 [| p3 rest]]]; cbn in Hdec; try lia; reflexivity.
Qed.

End WithLibm.
End Segments.

(** X1, witness: three samples at rest. *)
Lemma initial_scan_reads_past_the_end_witness :
  Partitioner.TrajectoryPartition (libm_tanh (Bench.env Status.OK)) Bench.origin
    (PublishableTrajectory.mk 0%float Segments.at_rest) ADCTrajectory.fresh =
  Undefined.
Proof.
  apply (@Segments.initial_scan_reads_past_the_end
           (libm_tanh (Bench.env Status.OK)) Bench.origin
           (PublishableTrajectory.mk 0%float Segments.at_rest)
           ADCTrajectory.fresh).
  - cbn. lia.
  - cbn. lia.
Defined.

(** X2, witness: the bench's trajectory that goes forward, then back. *)
Lemma partition_keeps_every_point_witness :
  Forall2 Segments.made_from
    (List.concat
       (Partitioner.trajectory_partition Segments.there_and_back_partitioned))
    Bench.there_and_back.
Proof.
  exact (@Segments.partition_keeps_every_point
           (libm_tanh (Bench.env Status.OK)) Bench.there_and_back
           Segments.there_and_back_partitioned eq_refl).
Defined.

(** X3, witness: the same trajectory; its gears are Drive, then Reverse. *)
Lemma gears_alternate_witness :
  Segments.alternates
    (Partitioner.gear_positions Segments.there_and_back_partitioned) = true /\
  Forall (fun t => t <> [])
    (Partitioner.trajectory_partition Segments.there_and_back_partitioned) /\
  List.length (Partitioner.gear_positions Segments.there_and_back_partitioned) =
  List.length (Partitioner.trajectory_partition Segments.there_and_back_partitioned).
Proof.
  exact (@Segments.gears_alternate
           (libm_tanh (Bench.env Status.OK)) Bench.there_and_back
           Segments.there_and_back_partitioned eq_refl).
Defined.

(** The partitioner run on the bench's trajectory in reverse, and on the
    one that goes forward, then back. *)
Lemma backing_is_partitioned :
  Partitioner.TrajectoryPartition (libm_tanh (Bench.env Status.OK)) Bench.origin
    (PublishableTrajectory.mk 0%float Bench.backing) ADCTrajectory.fresh =
  Done (Status.OK,
        record_after
          (Partitioner.TrajectoryPartition
             (libm_tanh (Bench.env Status.OK)) Bench.origin
             (PublishableTrajectory.mk 0%float Bench.backing)
             ADCTrajectory.fresh)).
Proof. vm_compute. reflexivity. Qed.

Lemma there_and_back_is_partitioned :
  Partitioner.TrajectoryPartition (libm_tanh (Bench.env Status.OK)) Bench.origin
    (PublishableTrajectory.mk 0%float Bench.there_and_back) ADCTrajectory.fresh =
  Done (Status.OK,
        record_after
          (Partitioner.TrajectoryPartition
             (libm_tanh (Bench.env Status.OK)) Bench.origin
             (PublishableTrajectory.mk 0%float Bench.there_and_back)
             ADCTrajectory.fresh)).
Proof. vm_compute. reflexivity. Qed.

(** X4, witness: three samples in reverse. *)
Lemma published_points_do_not_move_backward_witness :
  Forall (fun p => (TrajectoryPoint.v p <? - Partitioner.kepsilon)%float = false)
    (ADCTrajectory.trajectory_point
       (record_after
          (Partitioner.TrajectoryPartition
             (libm_tanh (Bench.env Status.OK)) Bench.origin
             (PublishableTrajectory.mk 0%float Bench.backing)
             ADCTrajectory.fresh))).
Proof.
  exact (@Segments.published_points_do_not_move_backward
           (libm_tanh (Bench.env Status.OK)) Bench.origin
           (PublishableTrajectory.mk 0%float Bench.backing) ADCTrajectory.fresh
           _ backing_is_partitioned).
Defined.

(** X5, witness: the trajectory that goes forward, then back. *)
Lemma partitioner_returns_ok_or_too_short_witness :
  let pb' :=
    record_after
      (Partitioner.TrajectoryPartition
         (libm_tanh (Bench.env Status.OK)) Bench.origin
         (PublishableTrajectory.mk 0%float Bench.there_and_back)
         ADCTrajectory.fresh) in
  ((List.length Bench.there_and_back < 3)%nat /\
   Status.OK = Partitioner.too_short /\ pb' = ADCTrajectory.fresh)
  \/
  ((3 <= List.length Bench.there_and_back)%nat /\
   Status.OK = Status.OK /\
   ADCTrajectory.trajectory_point pb' <> [] /\
   (List.length (ADCTrajectory.trajectory_point pb') <=
    List.length Bench.there_and_back)%nat /\
   (ADCTrajectory.gear pb' = Some GEAR_DRIVE \/
    ADCTrajectory.gear pb' = Some GEAR_REVERSE)).
Proof.
  exact (@Segments.partitioner_returns_ok_or_too_short
           (libm_tanh (Bench.env Status.OK)) Bench.origin
           (PublishableTrajectory.mk 0%float Bench.there_and_back)
           ADCTrajectory.fresh _ _ there_and_back_is_partitioned).
Defined.

(** * The predicted environment *)

(** The time of snapshot [k]: the resolution added [k] times to zero, each
    sum rounded. *)
Fixpoint sample_time (resolution : double) (k : nat) : double :=
  match k with
  | O => 0%float
  | S k' => (sample_time resolution k' + resolution)%float
  end.

(** Other fixtures: collaborators with other flags, flags with a
    resolution of zero, and a box around the origin. *)
Module Fixtures.
Local Open Scope float_scope.

Definition with_flags {Localization Chassis Obstacle Box2d PlannerState : Type}
           (f : Flags)
           (e : Collaborators Localization Chassis Obstacle Box2d PlannerState)
  : Collaborators Localization Chassis Obstacle Box2d PlannerState :=
  mk_Collaborators (NowInSeconds e) (VehicleStateProvider_Update e)
    (EstimateFuturePosition e) (ComputeStitchingTrajectory e)
    (InitForOpenSpace e) (planner_Plan e) (SetFallbackTrajectory e)
    (Status_ToString e) (GetPointAtTime e) (GetBoundingBox e) (Box2d_new e)
    (Box2d_Shift e) (HasOverlap e) (libm_tanh e) (libm_cos e) (libm_sin e)
    (vehicle_param e) f (seq_num_bits e).

Definition zero_resolution : Flags :=
  mk_Flags false true false false true true 0x1p-3 2 0 1.

Definition around_origin : Bench.Box := Bench.mk_Box 0 0 1 1.

End Fixtures.

Section EnvironmentFacts.
Variables Localization Chassis Obstacle Box2d PlannerState : Type.
Variable env : Collaborators Localization Chassis Obstacle Box2d PlannerState.
Local Open Scope float_scope.

(** The boxes of the obstacles at one time, in the order of the
    obstacles. *)
Definition snapshot_at (obstacle_list : list Obstacle) (t : double)
  : list Box2d :=
  map (fun obstacle =>
         GetBoundingBox env obstacle (GetPointAtTime env obstacle t))
      obstacle_list.

Lemma predicted_environment_loop_runs (obstacle_list : list Obstacle) (n : nat) :
  forall (fuel k : nat) (rectangles : list (list Box2d)),
    forallb (fun j => sample_time (FLAGS_trajectory_time_resolution (flags env)) j
                      <? FLAGS_trajectory_time_length (flags env))
            (seq k n) = true ->
    (sample_time (FLAGS_trajectory_time_resolution (flags env)) (k + n)
     <? FLAGS_trajectory_time_length (flags env)) = false ->
    (n < fuel)%nat ->
    predicted_environment_loop
      env fuel (sample_time (FLAGS_trajectory_time_resolution (flags env)) k)
      obstacle_list rectangles =
    Done (rectangles ++
          map (fun j => snapshot_at obstacle_list
                          (sample_time
                             (FLAGS_trajectory_time_resolution (flags env)) j))
              (seq k n)).
Proof.
  induction n as [| n IH]; intros fuel k rectangles Hin Hout Hfuel.
  - destruct fuel as [| fuel]; [lia |]. cbn [predicted_environment_loop].
    rewrite Nat.add_0_r in Hout. rewrite Hout. cbn. rewrite app_nil_r.
    reflexivity.
  - destruct fuel as [| fuel]; [lia |]. cbn [predicted_environment_loop].
    cbn [seq forallb] in Hin. apply andb_true_iff in Hin.
    destruct Hin as [Hk Hin]. rewrite Hk.
    change (sample_time (FLAGS_trajectory_time_resolution (flags env)) k +
            FLAGS_trajectory_time_resolution (flags env))
      with (sample_time (FLAGS_trajectory_time_resolution (flags env)) (S k)).
    rewrite IH; [| exact Hin | rewrite <- Nat.add_succ_comm in Hout; exact Hout | lia].
    cbn [seq map]. rewrite <- app_assoc. reflexivity.
Qed.

(** X6: [BuildPredictedEnvironment] takes snapshot [k] at the time got by
    adding the resolution [k] times to zero, and stops at the first such
    time that is not below the time length: with [n] the index of that
    time, the predicted environment holds [n] snapshots, each with the
    box of every obstacle in the order of the obstacles. *)
Theorem predicted_environment_has_one_snapshot_per_step
        (fuel n : nat) (obstacle_list : list Obstacle) :
  forallb (fun j => sample_time (FLAGS_trajectory_time_resolution (flags env)) j
                    <? FLAGS_trajectory_time_length (flags env))
          (seq 0 n) = true ->
  (sample_time (FLAGS_trajectory_time_resolution (flags env)) n
   <? FLAGS_trajectory_time_length (flags env)) = false ->
  (n < fuel)%nat ->
  BuildPredictedEnvironment env fuel obstacle_list =
  Done (map (fun j => snapshot_at obstacle_list
                        (sample_time
                           (FLAGS_trajectory_time_resolution (flags env)) j))
            (seq 0 n)).
Proof.
  intros Hin Hout Hfuel. unfold BuildPredictedEnvironment.
  exact (@predicted_environment_loop_runs obstacle_list n fuel 0%nat [] Hin Hout Hfuel).
Qed.

Lemma predicted_environment_loop_stalls (obstacle_list : list Obstacle) :
  FLAGS_trajectory_time_resolution (flags env) = 0 ->
  (0 <? FLAGS_trajectory_time_length (flags env)) = true ->
  forall (fuel : nat) (rectangles : list (list Box2d)),
    predicted_environment_loop env fuel 0 obstacle_list rectangles = OutOfFuel.
Proof.
  intros Hres Hlen. induction fuel as [| fuel IH]; intros rectangles;
    [reflexivity |].
  cbn [predicted_environment_loop]. rewrite Hlen, Hres.
  change (0 + 0) with 0. apply IH.
Qed.

(** X7: with a time resolution of zero and a time length above zero, the
    loop of [BuildPredictedEnvironment] never ends: the relative time
    stays at zero, and the loop is still running whatever the fuel. *)
Theorem zero_resolution_never_ends
        (fuel : nat) (obstacle_list : list Obstacle) :
  FLAGS_trajectory_time_resolution (flags env) = 0 ->
  (0 <? FLAGS_trajectory_time_length (flags env)) = true ->
  BuildPredictedEnvironment env fuel obstacle_list = OutOfFuel.
Proof.
  intros Hres Hlen. unfold BuildPredictedEnvironment.
  apply predicted_environment_loop_stalls; assumption.
Qed.

Lemma skipn_cons_nth {A : Type} (l : list A) :
  forall (i : nat) (a : A) (rest : list A),
    skipn i l = a :: rest ->
    nth_error l i = Some a /\ skipn (S i) l = rest.
Proof.
  induction l as [| b l IH]; intros [| i] a rest H; cbn in *; try discriminate.
  - inversion H. auto.
  - apply IH. exact H.
Qed.

Lemma collision_loop_finds_overlap (rectangles : list (list Box2d)) :
  forall (points : list TrajectoryPoint.t) (i : nat),
    overlap_at_some_index env (skipn i rectangles) points = true ->
    collision_loop env rectangles i points = Done false.
Proof.
  induction points as [| p l IH]; intros i Hov.
  { destruct (skipn i rectangles); discriminate. }
  destruct (skipn i rectangles) as [| boxes rest] eqn:Hskip; [discriminate |].
  cbn [overlap_at_some_index] in Hov.
  destruct (@skipn_cons_nth _ rectangles i _ _ Hskip) as [Hnth Hrest].
  cbn [collision_loop].
  assert (Hnz : Nat.eqb (List.length rectangles) 0 = false).
  { destruct rectangles; [destruct i; discriminate | reflexivity]. }
  rewrite Hnz. cbn [negb]. unfold at_index. rewrite Hnth. cbn [obind].
  destruct (existsb _ boxes); [reflexivity |].
  cbn [orb] in Hov. apply IH. rewrite Hrest. exact Hov.
Qed.

(** X8: when some sample overlaps a box of the snapshot of its own
    index, [IsCollisionFreeTrajectory] returns false, also when the
    trajectory has more samples than there are snapshots: the loop
    returns at the first overlap and reads no further snapshot. *)
Theorem first_overlap_ends_the_check
        (rectangles : list (list Box2d)) (pb : ADCTrajectory.t) :
  overlap_at_some_index env rectangles (ADCTrajectory.trajectory_point pb) = true ->
  IsCollisionFreeTrajectory env rectangles pb = Done false.
Proof.
  intros Hov. unfold IsCollisionFreeTrajectory.
  apply collision_loop_finds_overlap. exact Hov.
Qed.

End EnvironmentFacts.

(** X6, witness: the bench's flags, a time length of 2 and a resolution
    of one half: four snapshots. *)
Lemma predicted_environment_has_one_snapshot_per_step_witness :
  BuildPredictedEnvironment (Bench.env Status.OK) 10 [Fixtures.around_origin] =
  Done (map (fun j => snapshot_at (Bench.env Status.OK) [Fixtures.around_origin]
                        (sample_time 0x1p-1%float j))
            (seq 0 4)).
Proof.
  apply (@predicted_environment_has_one_snapshot_per_step _ _ _ _ _
           (Bench.env Status.OK) 10 4 [Fixtures.around_origin]).
  - reflexivity.
  - reflexivity.
  - lia.
Defined.

(** X7, witness: the bench's collaborators with a resolution of zero. *)
Lemma zero_resolution_never_ends_witness :
  BuildPredictedEnvironment
    (Fixtures.with_flags Fixtures.zero_resolution (Bench.env Status.OK))
    1000 [Fixtures.around_origin] = OutOfFuel.
Proof.
  apply (@zero_resolution_never_ends _ _ _ _ _
           (Fixtures.with_flags Fixtures.zero_resolution (Bench.env Status.OK))
           1000 [Fixtures.around_origin]).
  - reflexivity.
  - reflexivity.
Defined.

(** X8, witness: three samples against a single snapshot whose box is
    around the first sample. *)
Lemma first_overlap_ends_the_check_witness :
  IsCollisionFreeTrajectory (Bench.env Status.OK) [[Fixtures.around_origin]]
    (ADCTrajectory.with_trajectory_point
       (Bench.raw Bench.forward) ADCTrajectory.fresh) = Done false.
Proof.
  apply (@first_overlap_ends_the_check _ _ _ _ _
           (Bench.env Status.OK) [[Fixtures.around_origin]]
           (ADCTrajectory.with_trajectory_point
              (Bench.raw Bench.forward) ADCTrajectory.fresh)).
  reflexivity.
Defined.

(** * The cycle: what the output record holds *)

(** The status saved in the header of an output record. *)
Definition header_status (m : ADCTrajectory.t) : option Status.t :=
  Header.status (header_or_default (ADCTrajectory.header m)).

(** The fields of an output record that [Plan] does not write. *)
Definition outside_plan (m : ADCTrajectory.t)
  : option Header.t * option EStop.t * LatencyStats.t * option bool *
    option string * option Header.t :=
  (ADCTrajectory.header m, ADCTrajectory.estop m, ADCTrajectory.latency_stats m,
   ADCTrajectory.is_replan m, ADCTrajectory.not_ready_reason m,
   ADCTrajectory.routing_header m).

(** Case analysis on the tests and calls of a stage that returned. *)
Ltac stage_cases H :=
  match type of H with
  | obind _ _ = Done _ => obind_inv H
  | (let '(_, _) := ?x in _) = Done _ => destruct x eqn:?
  | (if ?b then _ else _) = Done _ => destruct b eqn:?
  | match ?x with _ => _ end = Done _ => destruct x eqn:?
  | Done _ = Done _ => inversion H; subst; clear H
  | Undefined = Done _ => discriminate H
  | Aborted = Done _ => discriminate H
  | OutOfFuel = Done _ => discriminate H
  end.

Section CycleFacts.
Variables Localization Chassis Obstacle Box2d PlannerState : Type.
Local Notation "'Env'" :=
  (Collaborators Localization Chassis Obstacle Box2d PlannerState).
Local Notation "'State'" :=
  (Planning Localization Chassis Obstacle Box2d PlannerState).
Variable env : Env.
Local Open Scope float_scope.

(** ** [FillPlanningPb] *)

Lemma FillPlanningPb_keeps (timestamp : double) (st : State)
      (pb : ADCTrajectory.t) :
  let pb' := snd (FillPlanningPb env timestamp st pb) in
  header_status pb' = header_status pb /\
  ADCTrajectory.gear pb' = ADCTrajectory.gear pb /\
  ADCTrajectory.estop pb' = ADCTrajectory.estop pb /\
  ADCTrajectory.latency_stats pb' = ADCTrajectory.latency_stats pb /\
  ADCTrajectory.is_replan pb' = ADCTrajectory.is_replan pb /\
  ADCTrajectory.not_ready_reason pb' = ADCTrajectory.not_ready_reason pb /\
  ADCTrajectory.debug pb' = ADCTrajectory.debug pb.
Proof.
  unfold FillPlanningPb, fill_header, read_clock, header_status.
  destruct (PredictionObstacles.header _);
    destruct pb as [[h |] ? ? ? ? ? ? ? ?]; cbn; repeat split.
Qed.

(** X9: on a record that holds points, or with the fallback flag off,
    [FillPlanningPb] asks for no fallback trajectory: it keeps the points
    and subtracts from the relative time of each the difference between
    the timestamp and one reading of the clock.  It sets the header
    timestamp and the routing header, and leaves the status of the
    header, the gear, the e-stop, the latency statistics, the replan
    flag and the debug data as they are. *)
Theorem header_fill_keeps_points_and_corrects_times
        (timestamp : double) (st : State) (pb : ADCTrajectory.t) :
  ADCTrajectory.trajectory_point pb <> [] \/
  FLAGS_use_planning_fallback (flags env) = false ->
  let pb' := snd (FillPlanningPb env timestamp st pb) in
  let dt := timestamp - NowInSeconds env (clock_reads st) in
  ADCTrajectory.trajectory_point pb' =
  map (fun p => TrajectoryPoint.set_relative_time
                  p (TrajectoryPoint.relative_time p - dt))
      (ADCTrajectory.trajectory_point pb) /\
  clock_reads (fst (FillPlanningPb env timestamp st pb)) = S (clock_reads st) /\
  header_timestamp pb' = Some timestamp /\
  ADCTrajectory.routing_header pb' =
  Some (header_or_default (RoutingResponse.header (routing (local_view_ st)))) /\
  header_status pb' = header_status pb /\
  ADCTrajectory.gear pb' = ADCTrajectory.gear pb /\
  ADCTrajectory.estop pb' = ADCTrajectory.estop pb /\
  ADCTrajectory.latency_stats pb' = ADCTrajectory.latency_stats pb /\
  ADCTrajectory.is_replan pb' = ADCTrajectory.is_replan pb /\
  ADCTrajectory.debug pb' = ADCTrajectory.debug pb.
Proof.
  intros Hpts. cbv zeta.
  destruct (FillPlanningPb_keeps timestamp st pb)
    as (Hs & Hg & He & Hl & Hr & _ & Hd).
  split.
  { rewrite FillPlanningPb_points. unfold points_after_fallback.
    rewrite fill_header_points.
    destruct Hpts as [Hne | Hflag].
    - destruct (ADCTrajectory.trajectory_point pb); [contradiction |].
      rewrite andb_false_r. reflexivity.
    - rewrite Hflag. reflexivity. }
  split; [reflexivity |].
  split; [apply FillPlanningPb_header_timestamp |].
  split.
  { unfold FillPlanningPb, fill_header, read_clock.
    destruct (PredictionObstacles.header _); reflexivity. }
  repeat split; assumption.
Qed.

(** ** The stages of a cycle *)

Lemma begin_cycle_more (st : State) (lv : LocalView Localization Chassis) :
  let '(t, status, vs, st1) := begin_cycle env st lv in
  status = fst (VehicleStateProvider_Update env (localization_estimate lv)
                                            (chassis lv)) /\
  vs = estimated_vehicle_state
         env t (snd (VehicleStateProvider_Update env (localization_estimate lv)
                                                 (chassis lv))) /\
  provider_vehicle_state st1 =
  snd (VehicleStateProvider_Update env (localization_estimate lv) (chassis lv)) /\
  frame_ st1 = frame_ st /\
  last_routing_ st1 = last_routing_ st /\
  planner_ st1 = planner_ st /\
  predicted_bounding_rectangles_ st1 = predicted_bounding_rectangles_ st.
Proof.
  unfold begin_cycle, read_clock.
  destruct (VehicleStateProvider_Update env _ _) as [status provided]; cbn.
  repeat split.
Qed.

Lemma prepare_frame_more (t : double) (vs : VehicleState.t) (st st2 : State)
      (lv : LocalView Localization Chassis) (pb pb2 : ADCTrajectory.t)
      (stitching : list TrajectoryPoint.t) (start : TrajectoryPoint.t)
      (init_status : Status.t) :
  prepare_frame env t vs st lv pb = Done (stitching, start, init_status, st2, pb2) ->
  stitching = ComputeStitchingTrajectory env vs t
                (FLAGS_open_space_planning_period (flags env))
                (last_publishable_trajectory_ st) /\
  pb2 = ADCTrajectory.with_latency_stats
          (LatencyStats.mk
             (Some (NowInSeconds env (clock_reads st) - t))
             (LatencyStats.total_time_ms (ADCTrajectory.latency_stats pb)))
          pb /\
  last_routing_ st2 =
  (if IsDifferentRouting (last_routing_ st) (routing lv)
   then routing lv else last_routing_ st) /\
  provider_vehicle_state st2 = provider_vehicle_state st.
Proof.
  unfold prepare_frame, InitFrame, read_clock; intros H.
  obind_inv H.
  destruct (InitForOpenSpace env _) as [status update] eqn:Hinit.
  inversion H; subst; clear H; cbn.
  destruct (IsDifferentRouting _ _); cbn; repeat split.
Qed.

Lemma record_planner_debug_keeps (start : TrajectoryPoint.t)
      (debug_info : OpenSpaceDebug.t) (pb pb' : ADCTrajectory.t) :
  record_planner_debug env start debug_info pb = Done pb' ->
  outside_plan pb' = outside_plan pb /\
  ADCTrajectory.trajectory_point pb' = ADCTrajectory.trajectory_point pb /\
  ADCTrajectory.gear pb' = ADCTrajectory.gear pb.
Proof.
  unfold record_planner_debug; intros H.
  repeat stage_cases H; cbn;
    destruct (FLAGS_enable_record_debug (flags env)); cbn; auto.
Qed.

(** [Plan] writes the points, the gear and the debug data of the output
    record, and nothing else of it; of the members it leaves the stored
    routing, the provider's state and the clock alone. *)
Lemma Plan_keeps (fuel : nat) (t : double)
      (stitching : list TrajectoryPoint.t) (st st' : State)
      (pb pb' : ADCTrajectory.t) (status : Status.t) :
  Plan env fuel t stitching st pb = Done (status, st', pb') ->
  outside_plan pb' = outside_plan pb /\
  last_routing_ st' = last_routing_ st /\
  provider_vehicle_state st' = provider_vehicle_state st.
Proof.
  unfold Plan; intros H.
  repeat stage_cases H; cbn;
    repeat match goal with
    | E : Partitioner.TrajectoryPartition _ _ _ _ = Done _ |- _ =>
        apply Segments.TrajectoryPartition_Done in E;
        destruct E as [(_ & _ & ->) | (? & ? & ? & ? & _ & _ & _ & _ & _ & ->)]
    | E : record_planner_debug _ _ _ _ = Done _ |- _ =>
        apply record_planner_debug_keeps in E; destruct E as (E & _ & _)
    end;
    repeat split;
    try solve [ reflexivity
              | destruct (FLAGS_enable_record_debug (flags env)); reflexivity
              | match goal with
                | E : outside_plan _ = outside_plan _ |- _ =>
                    rewrite <- ?E; cbn;
                    destruct (FLAGS_enable_record_debug (flags env)) in *;
                    cbn in *; first [exact E | reflexivity]
                end ].
Qed.

(** ** The three ends of a cycle *)

(** X10: when the gate rejects the state, the cycle saves in the header
    the status the provider's update returned, whatever it is, and fills
    the record; it sets no e-stop and no not-ready reason, and it leaves
    the frame pointer and the stored routing as they were.  The clock
    has been read twice. *)
Theorem rejected_cycle_reports_the_provider_status
        (fuel : nat) (st : State) (lv : LocalView Localization Chassis)
        (pb : ADCTrajectory.t) :
  let update :=
    VehicleStateProvider_Update env (localization_estimate lv) (chassis lv) in
  IsVehicleStateValid
    (estimated_vehicle_state env (NowInSeconds env (clock_reads st))
                             (snd update)) = false ->
  exists st' pb',
    RunOnce env fuel st lv pb = Done (st', pb') /\
    header_status pb' = Some (fst update) /\
    ADCTrajectory.estop pb' = ADCTrajectory.estop pb /\
    ADCTrajectory.not_ready_reason pb' = ADCTrajectory.not_ready_reason pb /\
    frame_ st' = frame_ st /\
    last_routing_ st' = last_routing_ st /\
    local_view_ st' = lv /\
    clock_reads st' = S (S (clock_reads st)).
Proof.
  cbv zeta. unfold RunOnce.
  pose proof (begin_cycle_members env st lv) as Hb.
  pose proof (begin_cycle_more st lv) as Hm.
  destruct (begin_cycle env st lv) as [[[t status] vs] st1].
  destruct Hb as (Ht & Hlv & _ & _ & _ & Hclock).
  destruct Hm as (Hstatus & Hvs & _ & Hframe & Hrouting & _).
  rewrite <- Ht, <- Hvs, <- Hstatus.
  intros Hv. rewrite Hv. cbn [negb].
  unfold fail_invalid_state. rewrite FillPlanningPb_eta.
  eexists _, _. split; [reflexivity |].
  destruct (FillPlanningPb_keeps t st1
              (ADCTrajectory.mutable_header (Header.save_status status) pb))
    as (Hs & _ & He & _ & _ & Hn & _).
  split; [rewrite Hs; reflexivity |].
  split; [rewrite He; reflexivity |].
  split; [rewrite Hn; reflexivity |].
  cbn. rewrite Hclock. auto.
Qed.

(** X11: when [InitFrame] fails, the cycle saves its status in the
    header.  With [FLAGS_publish_estop] the output record is replaced by
    a new record that holds the e-stop with the error message as its
    reason: whatever the record handed in held, the latency of the frame
    initialization just measured included, is gone.  Without the flag
    the record keeps its fields and takes the status text as not-ready
    reason. *)
Theorem frame_failure_publishes_estop_or_not_ready
        (fuel : nat) (st : State) (lv : LocalView Localization Chassis)
        (pb : ADCTrajectory.t) :
  forall t status0 vs st1 stitching start init_status st2 pb2,
    begin_cycle env st lv = (t, status0, vs, st1) ->
    IsVehicleStateValid vs = true ->
    prepare_frame env t vs st1 lv pb =
    Done (stitching, start, init_status, st2, pb2) ->
    Status.ok init_status = false ->
    exists st' pb',
      RunOnce env fuel st lv pb = Done (st', pb') /\
      header_status pb' = Some init_status /\
      if FLAGS_publish_estop (flags env)
      then ADCTrajectory.estop pb' =
           Some (EStop.mk true (Status.error_message init_status)) /\
           ADCTrajectory.latency_stats pb' = LatencyStats.default /\
           ADCTrajectory.gear pb' = None /\
           ADCTrajectory.not_ready_reason pb' = None /\
           ADCTrajectory.debug pb' = Debug.default
      else ADCTrajectory.not_ready_reason pb' =
           Some (Status_ToString env init_status) /\
           ADCTrajectory.estop pb' = ADCTrajectory.estop pb /\
           ADCTrajectory.gear pb' = ADCTrajectory.gear pb /\
           ADCTrajectory.latency_stats pb' =
           LatencyStats.mk
             (Some (NowInSeconds env (S (clock_reads st)) - t))
             (LatencyStats.total_time_ms (ADCTrajectory.latency_stats pb)).
Proof.
  unfold RunOnce.
  pose proof (begin_cycle_members env st lv) as Hb.
  intros t status0 vs st1.
  intros stitching start init_status st2 pb2 Hbegin Hvalid Hprep Hok.
  rewrite Hbegin in Hb |- *.
  destruct Hb as (_ & _ & _ & _ & _ & Hclock).
  rewrite Hvalid, Hprep. cbn [negb obind]. rewrite Hok. cbn [negb].
  destruct (prepare_frame_more _ _ _ _ _ Hprep) as (_ & Hpb2 & _).
  apply prepare_frame_Done in Hprep.
  destruct Hprep as (_ & _ & _ & _ & _ & _ & [f [Hf _]] & _).
  unfold fail_init_frame.
  rewrite (FillPlanningPb_eta env t st2).
  rewrite (FillPlanningPb_eta env t (with_clock_reads _ st2)).
  unfold archive, deref_frame. cbn [frame_ with_clock_reads]. rewrite Hf.
  cbn [obind].
  eexists _, _. split; [reflexivity |].
  set (first := snd (FillPlanningPb env t st2
                       (init_failure_record env init_status pb2))).
  destruct (FillPlanningPb_keeps t (with_clock_reads (S (clock_reads st2)) st2)
              first) as (Hs & Hg & He & Hl & _ & Hn & Hd).
  destruct (FillPlanningPb_keeps t st2 (init_failure_record env init_status pb2))
    as (Hs1 & Hg1 & He1 & Hl1 & _ & Hn1 & Hd1).
  fold first in Hs1, Hg1, He1, Hl1, Hn1, Hd1.
  rewrite Hs, Hg, He, Hl, Hn, Hd, Hs1, Hg1, He1, Hl1, Hn1, Hd1.
  unfold init_failure_record.
  destruct (FLAGS_publish_estop (flags env)).
  - repeat split.
  - subst pb2. rewrite Hclock. repeat split.
Qed.

(** X12: when [Plan] has run, the cycle sets the replan flag exactly
    when the stitching trajectory has one point.  A status of [Plan]
    that is OK is not written: the status of the header and the e-stop
    are as in the record handed in.  A status that is not OK is saved in
    the header, and the e-stop is set, with the error message as its
    reason, exactly when [FLAGS_publish_estop] is. *)
Theorem planned_cycle_reports_the_plan_status
        (fuel : nat) (st : State) (lv : LocalView Localization Chassis)
        (pb : ADCTrajectory.t) :
  forall t status0 vs st1 stitching start init_status st2 pb2 status st3 pb3,
    begin_cycle env st lv = (t, status0, vs, st1) ->
    IsVehicleStateValid vs = true ->
    prepare_frame env t vs st1 lv pb =
    Done (stitching, start, init_status, st2, pb2) ->
    Status.ok init_status = true ->
    Plan env fuel t stitching st2 pb2 = Done (status, st3, pb3) ->
    exists st' pb',
      RunOnce env fuel st lv pb = Done (st', pb') /\
      ADCTrajectory.is_replan pb' =
      Some (Nat.eqb (List.length stitching) 1) /\
      if Status.ok status
      then header_status pb' = header_status pb /\
           ADCTrajectory.estop pb' = ADCTrajectory.estop pb
      else header_status pb' = Some status /\
           ADCTrajectory.estop pb' =
           if FLAGS_publish_estop (flags env)
           then Some (EStop.mk true (Status.error_message status))
           else ADCTrajectory.estop pb.
Proof.
  unfold RunOnce.
  intros t status0 vs st1.
  intros stitching start init_status st2 pb2 status st3 pb3
         Hbegin Hvalid Hprep Hok HPlan.
  rewrite Hbegin.
  rewrite Hvalid, Hprep. cbn [negb obind]. rewrite Hok. cbn [negb].
  rewrite HPlan. cbn [obind].
  destruct (prepare_frame_more _ _ _ _ _ Hprep) as (_ & Hpb2 & _).
  destruct (Plan_keeps _ _ _ _ _ HPlan) as (Hkeep & _).
  apply Plan_frame_conditions in HPlan.
  destruct HPlan as (_ & _ & _ & _ & _ & (f & f' & _ & Hf' & _)).
  unfold finish_cycle, read_clock.
  match goal with
  | |- context [FillPlanningPb env t ?s ?m] =>
      rewrite (FillPlanningPb_eta env t s m);
      destruct (FillPlanningPb_keeps t s m) as (Hs & _ & He & _ & Hr & _)
  end.
  unfold archive, deref_frame. cbn [frame_ with_clock_reads]. rewrite Hf'.
  cbn [obind]. eexists _, _. split; [reflexivity |].
  rewrite Hs, He, Hr. clear Hs He Hr.
  unfold outside_plan in Hkeep. inversion Hkeep as [[Hh Hes Hls Hir Hnr Hrh]].
  subst pb2. cbn in Hh, Hes.
  split; [reflexivity |].
  unfold header_status.
  destruct (Status.ok status); cbn.
  - rewrite Hh, Hes. auto.
  - destruct (FLAGS_publish_estop (flags env)); cbn; rewrite ?Hes; auto.
Qed.

(** X13: the two latencies of a cycle in which [Plan] has run.  The
    total time is the difference of two clock readings multiplied by
    1000; the frame-initialization time, stored in the field named
    [init_frame_time_ms], is the difference of two clock readings as it
    is, in seconds. *)
Theorem planned_cycle_latencies
        (fuel : nat) (st : State) (lv : LocalView Localization Chassis)
        (pb : ADCTrajectory.t) :
  forall t status0 vs st1 stitching start init_status st2 pb2 status st3 pb3,
    begin_cycle env st lv = (t, status0, vs, st1) ->
    IsVehicleStateValid vs = true ->
    prepare_frame env t vs st1 lv pb =
    Done (stitching, start, init_status, st2, pb2) ->
    Status.ok init_status = true ->
    Plan env fuel t stitching st2 pb2 = Done (status, st3, pb3) ->
    exists st' pb',
      RunOnce env fuel st lv pb = Done (st', pb') /\
      t = NowInSeconds env (clock_reads st) /\
      ADCTrajectory.latency_stats pb' =
      LatencyStats.mk
        (Some (NowInSeconds env (S (clock_reads st)) - t))
        (Some ((NowInSeconds env (S (S (clock_reads st))) - t) * 1000)).
Proof.
  unfold RunOnce.
  pose proof (begin_cycle_members env st lv) as Hb.
  intros t status0 vs st1.
  intros stitching start init_status st2 pb2 status st3 pb3
         Hbegin Hvalid Hprep Hok HPlan.
  rewrite Hbegin in Hb |- *.
  destruct Hb as (Ht & _ & _ & _ & _ & Hclock).
  rewrite Hvalid, Hprep. cbn [negb obind]. rewrite Hok. cbn [negb].
  rewrite HPlan. cbn [obind].
  destruct (prepare_frame_more _ _ _ _ _ Hprep) as (_ & Hpb2 & _).
  apply prepare_frame_Done in Hprep.
  destruct Hprep as (_ & _ & _ & _ & _ & Hclock2 & _).
  destruct (Plan_keeps _ _ _ _ _ HPlan) as (Hkeep & _).
  apply Plan_frame_conditions in HPlan.
  destruct HPlan as (_ & _ & _ & Hclock3 & _ & (f & f' & _ & Hf' & _)).
  unfold finish_cycle, read_clock.
  match goal with
  | |- context [FillPlanningPb env t ?s ?m] =>
      rewrite (FillPlanningPb_eta env t s m);
      destruct (FillPlanningPb_keeps t s m) as (_ & _ & _ & Hl & _)
  end.
  unfold archive, deref_frame. cbn [frame_ with_clock_reads]. rewrite Hf'.
  cbn [obind]. eexists _, _. split; [reflexivity |]. split; [exact Ht |].
  rewrite Hl. clear Hl.
  unfold outside_plan in Hkeep. inversion Hkeep as [[Hh Hes Hls Hir Hnr Hrh]].
  subst pb2. cbn in Hls.
  destruct (Status.ok status); cbn;
    [| destruct (FLAGS_publish_estop (flags env)); cbn];
    rewrite Hls; cbn; rewrite Hclock3, Hclock2, Hclock; reflexivity.
Qed.

End CycleFacts.

(** X9, witness: the bench's forward trajectory in the record. *)
Lemma header_fill_keeps_points_and_corrects_times_witness :
  let pb := ADCTrajectory.with_trajectory_point
              (Bench.raw Bench.forward) ADCTrajectory.fresh in
  let filled :=
    FillPlanningPb (Bench.env Status.OK) 100%float
                   (Bench.initial Bench.forward) pb in
  ADCTrajectory.trajectory_point (snd filled) =
  map (fun p => TrajectoryPoint.set_relative_time
                  p (TrajectoryPoint.relative_time p - (100 - 100))%float)
      (Bench.raw Bench.forward) /\
  clock_reads (fst filled) = 1%nat /\
  header_timestamp (snd filled) = Some 100%float /\
  ADCTrajectory.routing_header (snd filled) = Some Header.default /\
  header_status (snd filled) = None /\
  ADCTrajectory.gear (snd filled) = None /\
  ADCTrajectory.estop (snd filled) = None /\
  ADCTrajectory.latency_stats (snd filled) = LatencyStats.default /\
  ADCTrajectory.is_replan (snd filled) = None /\
  ADCTrajectory.debug (snd filled) = Debug.default.
Proof.
  apply (@header_fill_keeps_points_and_corrects_times _ _ _ _ _
           (Bench.env Status.OK) 100%float (Bench.initial Bench.forward)
           (ADCTrajectory.with_trajectory_point
              (Bench.raw Bench.forward) ADCTrajectory.fresh)).
  left. discriminate.
Defined.

(** X10, witness: the bench's state with a NaN position. *)
Lemma rejected_cycle_reports_the_provider_status_witness :
  exists st' pb',
    RunOnce (Bench.env Status.OK) 10 (Bench.initial Bench.forward)
            (Bench.view Bench.nan_position) ADCTrajectory.fresh =
    Done (st', pb') /\
    header_status pb' = Some Status.OK /\
    ADCTrajectory.estop pb' = None /\
    ADCTrajectory.not_ready_reason pb' = None /\
    frame_ st' = None /\
    last_routing_ st' = RoutingResponse.cleared /\
    local_view_ st' = Bench.view Bench.nan_position /\
    clock_reads st' = 2%nat.
Proof.
  apply (@rejected_cycle_reports_the_provider_status _ _ _ _ _
           (Bench.env Status.OK) 10 (Bench.initial Bench.forward)
           (Bench.view Bench.nan_position) ADCTrajectory.fresh).
  reflexivity.
Defined.

(** X11, witness: the bench's frame initialization fails; the bench
    publishes e-stops. *)
Lemma frame_failure_publishes_estop_or_not_ready_witness :
  exists st' pb',
    RunOnce (Bench.env Bench.init_failure) 10 (Bench.initial Bench.forward)
            (Bench.view Bench.origin) ADCTrajectory.fresh = Done (st', pb') /\
    header_status pb' = Some Bench.init_failure /\
    ADCTrajectory.estop pb' = Some (EStop.mk true "no frame") /\
    ADCTrajectory.latency_stats pb' = LatencyStats.default /\
    ADCTrajectory.gear pb' = None /\
    ADCTrajectory.not_ready_reason pb' = None /\
    ADCTrajectory.debug pb' = Debug.default.
Proof.
  eapply (@frame_failure_publishes_estop_or_not_ready _ _ _ _ _
            (Bench.env Bench.init_failure) 10 (Bench.initial Bench.forward)
            (Bench.view Bench.origin) ADCTrajectory.fresh).
  - vm_compute; reflexivity.
  - vm_compute; reflexivity.
  - vm_compute; reflexivity.
  - vm_compute; reflexivity.
Defined.

(** X12, witness: the bench's planner returns two points and the
    partitioner refuses them: the status is saved and the e-stop set. *)
Lemma planned_cycle_reports_the_plan_status_witness :
  exists st' pb',
    RunOnce (Bench.env Status.OK) 10 (Bench.initial Bench.too_few)
            (Bench.view Bench.origin) ADCTrajectory.fresh = Done (st', pb') /\
    ADCTrajectory.is_replan pb' = Some true /\
    header_status pb' = Some Partitioner.too_short /\
    ADCTrajectory.estop pb' =
    Some (EStop.mk true "Invalid trajectory length!").
Proof.
  eapply (@planned_cycle_reports_the_plan_status _ _ _ _ _
            (Bench.env Status.OK) 10 (Bench.initial Bench.too_few)
            (Bench.view Bench.origin) ADCTrajectory.fresh
            _ _ _ _ [Bench.point 0 0 0]%float _ _ _ _ Partitioner.too_short).
  - vm_compute; reflexivity.
  - vm_compute; reflexivity.
  - vm_compute; reflexivity.
  - vm_compute; reflexivity.
  - vm_compute; reflexivity.
Defined.

(** X13, witness: a cycle of the bench that publishes. *)
Lemma planned_cycle_latencies_witness :
  let E := Bench.env Status.OK in
  let st := Bench.initial Bench.forward in
  exists st' pb',
    RunOnce E 10 st (Bench.view Bench.origin) ADCTrajectory.fresh =
    Done (st', pb') /\
    NowInSeconds E (clock_reads st) = NowInSeconds E (clock_reads st) /\
    ADCTrajectory.latency_stats pb' =
    LatencyStats.mk
      (Some (NowInSeconds E (S (clock_reads st))
             - NowInSeconds E (clock_reads st))%float)
      (Some ((NowInSeconds E (S (S (clock_reads st)))
              - NowInSeconds E (clock_reads st)) * 1000)%float).
Proof.
  eapply (@planned_cycle_latencies _ _ _ _ _
            (Bench.env Status.OK) 10 (Bench.initial Bench.forward)
            (Bench.view Bench.origin) ADCTrajectory.fresh
            (NowInSeconds (Bench.env Status.OK)
                          (clock_reads (Bench.initial Bench.forward)))).
  - vm_compute; reflexivity.
  - vm_compute; reflexivity.
  - vm_compute; reflexivity.
  - vm_compute; reflexivity.
  - vm_compute; reflexivity.
Defined.

(** * The comparison of routings *)

Module Routing.
Local Open Scope float_scope.

Lemma SFeqb_sym (x y : spec_float) : SFeqb x y = SFeqb y x.
Proof.
  unfold SFeqb, SFcompare.
  destruct x as [s | s | | s m e], y as [s' | s' | | s' m' e'];
    try reflexivity;
    try (destruct s; reflexivity); try (destruct s'; reflexivity).
  - destruct s, s'; reflexivity.
  - rewrite (Z.compare_antisym e e').
    change (Pos.compare_cont Eq m' m) with (Pos.compare m' m).
    change (Pos.compare_cont Eq m m') with (Pos.compare m m').
    rewrite (Pos.compare_antisym m m').
    destruct s, s'; try reflexivity;
      destruct (e ?= e')%Z; cbn; try reflexivity;
      destruct (m ?= m')%positive; reflexivity.
Qed.

Lemma SFeqb_refl_r (x y : spec_float) :
  SFeqb x y = true -> SFeqb y y = true.
Proof.
  unfold SFeqb, SFcompare.
  destruct y as [s' | s' | | s' m' e'].
  - reflexivity.
  - destruct s'; reflexivity.
  - destruct x as [s | s | | s m e]; try discriminate;
      destruct s; discriminate.
  - intros _. rewrite Z.compare_refl.
    change (Pos.compare_cont Eq m' m') with (Pos.compare m' m').
    rewrite Pos.compare_refl. destruct s'; reflexivity.
Qed.

Lemma eqb_sym (a b : double) : (a =? b) = (b =? a).
Proof. rewrite !FloatAxioms.eqb_spec. apply SFeqb_sym. Qed.

Lemma eqb_refl_r (a b : double) : (a =? b) = true -> (b =? b) = true.
Proof. rewrite !FloatAxioms.eqb_spec. apply SFeqb_refl_r. Qed.

(** The comparison of a routing with itself. *)
Lemma IsDifferentRouting_self (r : RoutingResponse.t) :
  IsDifferentRouting r r =
  match RoutingResponse.header r with
  | Some h => PrimFloat.is_nan (Header.get_timestamp_sec h)
  | None => true
  end.
Proof.
  unfold IsDifferentRouting, double_neq, PrimFloat.is_nan.
  destruct (RoutingResponse.header r) as [h |]; [| reflexivity].
  rewrite Z.eqb_refl. cbn [negb].
  destruct (Header.get_timestamp_sec h =? Header.get_timestamp_sec h);
    reflexivity.
Qed.

(** A routing that does not differ from another does not differ from
    itself. *)
Lemma IsDifferentRouting_same (a b : RoutingResponse.t) :
  IsDifferentRouting a b = false -> IsDifferentRouting b b = false.
Proof.
  rewrite IsDifferentRouting_self. unfold IsDifferentRouting, double_neq.
  destruct (RoutingResponse.header a) as [ha |]; [| discriminate].
  destruct (RoutingResponse.header b) as [hb |]; [| discriminate].
  destruct (negb _); [discriminate |].
  destruct (Header.get_timestamp_sec ha =? Header.get_timestamp_sec hb) eqn:E;
    [| discriminate].
  intros _. unfold PrimFloat.is_nan. rewrite (eqb_refl_r E). reflexivity.
Qed.

(** X14: [IsDifferentRouting] does not depend on the order of its
    arguments, and a routing differs from itself exactly when it has no
    header or the timestamp of its header is a NaN. *)
Theorem routing_comparison_is_symmetric_not_reflexive :
  (forall a b : RoutingResponse.t,
      IsDifferentRouting a b = IsDifferentRouting b a) /\
  (forall r : RoutingResponse.t,
      IsDifferentRouting r r = true <->
      match RoutingResponse.header r with
      | Some h => PrimFloat.is_nan (Header.get_timestamp_sec h) = true
      | None => True
      end).
Proof.
  split.
  - intros a b. unfold IsDifferentRouting, double_neq.
    destruct (RoutingResponse.header a) as [ha |],
             (RoutingResponse.header b) as [hb |]; try reflexivity.
    rewrite (Z.eqb_sym (Header.get_sequence_num ha)).
    rewrite (eqb_sym (Header.get_timestamp_sec ha)). reflexivity.
  - intros r. rewrite IsDifferentRouting_self.
    destruct (RoutingResponse.header r); tauto.
Qed.

End Routing.

Section RoutingFacts.
Variables Localization Chassis Obstacle Box2d PlannerState : Type.
Local Notation "'State'" :=
  (Planning Localization Chassis Obstacle Box2d PlannerState).
Variable env : Collaborators Localization Chassis Obstacle Box2d PlannerState.

Lemma finish_cycle_routing (t : double) (status : Status.t)
      (stitching : list TrajectoryPoint.t) (st st' : State)
      (pb pb' : ADCTrajectory.t) :
  finish_cycle env t status stitching st pb = Done (st', pb') ->
  last_routing_ st' = last_routing_ st.
Proof.
  unfold finish_cycle, read_clock; intros H.
  rewrite FillPlanningPb_eta in H.
  obind_inv H. inversion H; subst; clear H.
  apply archive_Done in E. destruct E as [f [_ ->]]. reflexivity.
Qed.

Lemma fail_init_frame_routing (t : double) (status : Status.t)
      (st st' : State) (pb pb' : ADCTrajectory.t) :
  fail_init_frame env t status st pb = Done (st', pb') ->
  last_routing_ st' = last_routing_ st.
Proof.
  unfold fail_init_frame; intros H.
  rewrite (FillPlanningPb_eta env t st) in H.
  rewrite (FillPlanningPb_eta env t (with_clock_reads _ st)) in H.
  obind_inv H. inversion H; subst; clear H.
  apply archive_Done in E. destruct E as [f [_ ->]]. reflexivity.
Qed.

(** X15: a cycle that passes the gate stores the routing of the local
    view when [IsDifferentRouting] tells it from the stored one, and a
    cycle the gate rejects leaves the stored routing alone.  After a
    cycle that passed the gate the stored routing differs from the
    received one only when the received one differs from itself. *)
Theorem stored_routing_follows_the_view
        (fuel : nat) (st st' : State) (lv : LocalView Localization Chassis)
        (pb pb' : ADCTrajectory.t) :
  RunOnce env fuel st lv pb = Done (st', pb') ->
  let vs :=
    estimated_vehicle_state
      env (NowInSeconds env (clock_reads st))
      (snd (VehicleStateProvider_Update env (localization_estimate lv)
                                        (chassis lv))) in
  last_routing_ st' =
  (if IsVehicleStateValid vs && IsDifferentRouting (last_routing_ st) (routing lv)
   then routing lv else last_routing_ st) /\
  (IsVehicleStateValid vs = true ->
   IsDifferentRouting (last_routing_ st') (routing lv) =
   IsDifferentRouting (routing lv) (routing lv)).
Proof.
  intros H. cbv zeta. apply RunOnce_Done in H.
  pose proof (begin_cycle_members env st lv) as Hb.
  pose proof (begin_cycle_more env st lv) as Hm.
  destruct (begin_cycle env st lv) as [[[t status0] vs] st1].
  destruct Hb as (Ht & _).
  destruct Hm as (_ & Hvs & _ & _ & Hr1 & _).
  rewrite <- Ht, <- Hvs.
  assert (Hstored :
            last_routing_ st' =
            (if IsVehicleStateValid vs
                && IsDifferentRouting (last_routing_ st) (routing lv)
             then routing lv else last_routing_ st)).
  { destruct H as [[Hvalid Hfail] | [Hvalid H]]; rewrite Hvalid; cbn [andb].
    - unfold fail_invalid_state in Hfail. rewrite FillPlanningPb_eta in Hfail.
      inversion Hfail; subst. exact Hr1.
    - destruct H as (stitching & start & init_status & st2 & pb2 & Hprep & H).
      destruct (prepare_frame_more env _ _ _ _ _ Hprep) as (_ & _ & Hr2 & _).
      rewrite Hr1 in Hr2. rewrite <- Hr2.
      destruct H as [[_ Hfail] | [_ (status & st3 & pb3 & HPlan & Hfin)]].
      + exact (fail_init_frame_routing _ _ _ _ Hfail).
      + rewrite (finish_cycle_routing _ _ _ _ _ Hfin).
        exact (proj1 (proj2 (Plan_keeps env _ _ _ _ _ HPlan))). }
  split; [exact Hstored |].
  intros Hvalid. rewrite Hstored, Hvalid. cbn [andb].
  destruct (IsDifferentRouting (last_routing_ st) (routing lv)) eqn:Hd;
    [reflexivity |].
  rewrite Hd. symmetry. exact (Routing.IsDifferentRouting_same _ _ Hd).
Qed.

End RoutingFacts.

(** X15, witness: the bench's cycle that publishes; the routing of the
    bench has no header. *)
Lemma stored_routing_follows_the_view_witness :
  let E := Bench.env Status.OK in
  let st := Bench.initial Bench.forward in
  let lv := Bench.view Bench.origin in
  let st' := members_after Bench.published (Bench.initial Bench.forward) in
  let vs :=
    estimated_vehicle_state
      E (NowInSeconds E (clock_reads st))
      (snd (VehicleStateProvider_Update E (localization_estimate lv)
                                        (chassis lv))) in
  last_routing_ st' =
  (if IsVehicleStateValid vs && IsDifferentRouting (last_routing_ st) (routing lv)
   then routing lv else last_routing_ st) /\
  (IsVehicleStateValid vs = true ->
   IsDifferentRouting (last_routing_ st') (routing lv) =
   IsDifferentRouting (routing lv) (routing lv)).
Proof.
  exact (@stored_routing_follows_the_view _ _ _ _ _
           (Bench.env Status.OK) 10 (Bench.initial Bench.forward)
           (members_after Bench.published (Bench.initial Bench.forward))
           (Bench.view Bench.origin) ADCTrajectory.fresh
           (record_after Bench.published) published_returns).
Defined.

(** * The debug chart *)


Module ChartFacts.
Import ChartExport.
Local Open Scope string_scope.

(** An obstacle that has a y coordinate for every x coordinate. *)
Definition well_paired (o : OpenSpaceDebug.obstacle) : bool :=
  Nat.leb (List.length (OpenSpaceDebug.vertices_x_coords o))
          (List.length (OpenSpaceDebug.vertices_y_coords o)).

(** The polygon of the obstacle of index [k], counted from 1. *)
Definition polygon_of (k : nat) (o : OpenSpaceDebug.obstacle) : Chart.curve :=
  Chart.mk_curve ("boundary_" ++ to_string k)
    (combine (OpenSpaceDebug.vertices_x_coords o)
             (OpenSpaceDebug.vertices_y_coords o))
    obstacle_properties.

Definition polygons_of (first : nat) (obstacles : list OpenSpaceDebug.obstacle)
  : list Chart.curve :=
  map (fun ko => polygon_of (fst ko) (snd ko))
      (combine (seq first (List.length obstacles)) obstacles).

(** A fixture: a square, and debug data that hold it within a boundary
    of four numbers. *)
Definition square : OpenSpaceDebug.obstacle :=
  OpenSpaceDebug.mk_obstacle [0; 1; 1; 0]%float [0; 0; 1; 1]%float.

Definition two_squares : OpenSpaceDebug.t :=
  OpenSpaceDebug.mk [0; 1; 0; 1]%float [square; square] [] [].

Definition two_squares_chart : Chart.t :=
  Chart.mk "Open Space Trajectory Visualization"
    (Chart.mk_axis (-20)%float 20%float "x (meter)")
    (Chart.mk_axis (-10)%float 10%float "y (meter)")
    (polygons_of 1 [square; square])
    [line_of "smoothed" []; line_of "warm_start" []].

Lemma obstacle_points_pairs (xs : list double) :
  forall ys : list double,
    obstacle_points xs ys =
    if Nat.leb (List.length xs) (List.length ys)
    then Done (combine xs ys) else Undefined.
Proof.
  induction xs as [| x xs IH]; intros ys; [reflexivity |].
  destruct ys as [| y ys]; [reflexivity |].
  cbn [obstacle_points List.length Nat.leb combine]. rewrite IH.
  destruct (Nat.leb (List.length xs) (List.length ys)); reflexivity.
Qed.

Lemma obstacle_polygons_spec (obstacles : list OpenSpaceDebug.obstacle) :
  forall k : nat,
    obstacle_polygons k obstacles =
    if forallb well_paired obstacles
    then Done (polygons_of k obstacles) else Undefined.
Proof.
  induction obstacles as [| o rest IH]; intros k; [reflexivity |].
  cbn [obstacle_polygons forallb]. rewrite obstacle_points_pairs.
  fold (well_paired o). destruct (well_paired o); [| reflexivity].
  cbn [obind andb]. rewrite IH, Nat.add_1_r.
  destruct (forallb well_paired rest); reflexivity.
Qed.

(** X16: [AddOpenSpaceTrajectory] aborts on the [CHECK] when the
    boundary does not hold four numbers, before it looks at anything
    else.  Otherwise it reads past the end of [vertices_y_coords] when
    an obstacle has fewer y than x coordinates; and when every obstacle
    has a y for each x, the chart holds one polygon for each obstacle,
    in order, labelled [boundary_1], [boundary_2], ..., whose points pair
    the x and y coordinates of equal index, and the two lines [smoothed]
    and [warm_start]. *)
Theorem chart_of_the_open_space (d : OpenSpaceDebug.t) :
  AddOpenSpaceTrajectory d =
  if negb (Nat.eqb (List.length (OpenSpaceDebug.xy_boundary d)) 4)
  then Aborted
  else if forallb well_paired (OpenSpaceDebug.obstacles d)
  then Done (Chart.mk "Open Space Trajectory Visualization"
               (Chart.mk_axis (-20)%float 20%float "x (meter)")
               (Chart.mk_axis (-10)%float 10%float "y (meter)")
               (polygons_of 1 (OpenSpaceDebug.obstacles d))
               [line_of "smoothed" (OpenSpaceDebug.smoothed_trajectory d);
                line_of "warm_start" (OpenSpaceDebug.warm_start_trajectory d)])
  else Undefined.
Proof.
  unfold AddOpenSpaceTrajectory, OpenSpaceDebug.xy_boundary_size.
  destruct (negb _); [reflexivity |].
  rewrite obstacle_polygons_spec.
  destruct (forallb well_paired (OpenSpaceDebug.obstacles d)); reflexivity.
Qed.

(** ** The labels *)

Lemma to_uint_not_Nil (n : nat) : Nat.to_uint n <> Decimal.Nil.
Proof.
  intros H. pose proof (DecimalNat.Unsigned.of_to n) as Hn.
  rewrite H in Hn. cbn in Hn. subst n. discriminate H.
Qed.

Lemma to_string_inj (a b : nat) : to_string a = to_string b -> a = b.
Proof.
  unfold to_string. intros H.
  apply DecimalNat.Unsigned.to_uint_inj.
  pose proof (DecimalString.NilZero.usu _ (to_uint_not_Nil a)) as Ha.
  pose proof (DecimalString.NilZero.usu _ (to_uint_not_Nil b)) as Hb.
  rewrite H in Ha. congruence.
Qed.

Lemma NoDup_map_injective {A B : Type} (f : A -> B) (l : list A) :
  (forall a b, f a = f b -> a = b) -> NoDup l -> NoDup (map f l).
Proof.
  intros Hinj Hnd. induction Hnd as [| a l Hnotin Hnd IH]; cbn; constructor.
  - intros Hin. apply in_map_iff in Hin. destruct Hin as (x & Hx & Hin).
    apply Hinj in Hx. subst x. contradiction.
  - exact IH.
Qed.

Lemma polygons_of_labels (obstacles : list OpenSpaceDebug.obstacle) :
  forall k : nat,
    map Chart.label (polygons_of k obstacles) =
    map (fun i => "boundary_" ++ to_string i) (seq k (List.length obstacles)).
Proof.
  unfold polygons_of.
  induction obstacles as [| o rest IH]; intros k; [reflexivity |].
  cbn [List.length seq combine map fst snd polygon_of Chart.label].
  rewrite IH. reflexivity.
Qed.

(** X17: the polygons of a chart have labels that are all different. *)
Theorem polygon_labels_are_distinct (d : OpenSpaceDebug.t) (chart : Chart.t) :
  AddOpenSpaceTrajectory d = Done chart ->
  NoDup (map Chart.label (Chart.polygon chart)) /\
  List.length (Chart.polygon chart) = List.length (OpenSpaceDebug.obstacles d).
Proof.
  unfold AddOpenSpaceTrajectory. intros H.
  destruct (negb _); [discriminate |].
  rewrite obstacle_polygons_spec in H.
  destruct (forallb well_paired (OpenSpaceDebug.obstacles d)); [| discriminate].
  inversion H; subst; clear H. cbn [Chart.polygon]. split.
  - rewrite polygons_of_labels.
    apply NoDup_map_injective; [| apply seq_NoDup].
    intros a b Hab. apply to_string_inj.
    cbn in Hab. inversion Hab. reflexivity.
  - unfold polygons_of. rewrite length_map, length_combine, length_seq.
    apply Nat.min_id.
Qed.

End ChartFacts.

(** X17, witness: two squares. *)
Lemma polygon_labels_are_distinct_witness :
  NoDup (map Chart.label (Chart.polygon ChartFacts.two_squares_chart)) /\
  List.length (Chart.polygon ChartFacts.two_squares_chart) =
  List.length (OpenSpaceDebug.obstacles ChartFacts.two_squares).
Proof.
  exact (@ChartFacts.polygon_labels_are_distinct
           ChartFacts.two_squares ChartFacts.two_squares_chart eq_refl).
Defined.

(** * The stages of [Plan] *)

Module PlanFixtures.
Local Open Scope float_scope.

(** The bench's flags with the debug record and the chart export on, and
    with the debug record alone. *)
Definition charting : Flags :=
  mk_Flags false true true true true true 0x1p-3 2 0x1p-1 1.

Definition recording : Flags :=
  mk_Flags false true true false true true 0x1p-3 2 0x1p-1 1.

(** The bench's forward trajectory with an obstacle around the origin. *)
Definition blocked : Bench.Scripted :=
  Bench.mk_Scripted (Bench.raw Bench.forward) Status.OK [Fixtures.around_origin].

(** Members that hold the frame of a cycle, as [InitFrame] leaves it. *)
Definition framed (script : Bench.Scripted)
  : Planning VehicleState.t unit Bench.Box Bench.Box Bench.Scripted :=
  with_frame
    (Some (mk_Frame 0%Z (Bench.view Bench.origin) (Bench.point 0 0 0) 100
                    Bench.origin ADCTrajectory.fresh [] OpenSpaceDebug.default))
    (Bench.initial script).

(** Collaborators whose stitcher returns no point. *)
Definition without_stitching
  : Collaborators VehicleState.t unit Bench.Box Bench.Box Bench.Scripted :=
  let e := Bench.env Status.OK in
  mk_Collaborators (NowInSeconds e) (VehicleStateProvider_Update e)
    (EstimateFuturePosition e) (fun _ _ _ _ => [])
    (InitForOpenSpace e) (planner_Plan e) (SetFallbackTrajectory e)
    (Status_ToString e) (GetPointAtTime e) (GetBoundingBox e) (Box2d_new e)
    (Box2d_Shift e) (HasOverlap e) (libm_tanh e) (libm_cos e) (libm_sin e)
    (vehicle_param e) (flags e) (seq_num_bits e).

End PlanFixtures.

Section PlanFacts.
Variables Localization Chassis Obstacle Box2d PlannerState : Type.
Local Notation "'State'" :=
  (Planning Localization Chassis Obstacle Box2d PlannerState).
Variable env : Collaborators Localization Chassis Obstacle Box2d PlannerState.

(** X18: with the debug record and the chart export on, a planner that
    succeeds on a frame whose open-space boundary does not hold four
    numbers makes [Plan] abort on the [CHECK] of the chart export: the
    planner's result is not published. *)
Theorem failed_chart_check_aborts_the_plan
        (fuel : nat) (t : double) (stitching : list TrajectoryPoint.t)
        (st : State) (pb : ADCTrajectory.t) (start : TrajectoryPoint.t)
        (frame : Frame Localization Chassis Obstacle)
        (planner_status : Status.t) (update : FrameUpdate Obstacle)
        (planner' : PlannerState) :
  back stitching = Done start ->
  frame_ st = Some frame ->
  planner_Plan env (planner_ st) start frame = (planner_status, update, planner') ->
  Status.eqb planner_status Status.OK = true ->
  FLAGS_enable_record_debug (flags env) = true ->
  FLAGS_export_chart (flags env) = true ->
  Nat.eqb (List.length (OpenSpaceDebug.xy_boundary (new_open_space_debug update)))
          4 = false ->
  Plan env fuel t stitching st pb = Aborted.
Proof.
  intros Hstart Hframe Hplan Hok Hrec Hchart Hsize.
  unfold Plan. rewrite Hstart. cbn [obind].
  unfold deref_frame. rewrite Hframe. cbn [obind]. rewrite Hplan, Hok.
  cbn [negb]. unfold record_planner_debug. rewrite Hrec, Hchart. cbn [andb].
  unfold ChartExport.ExportOpenSpaceChart. rewrite Hrec.
  unfold ChartExport.AddOpenSpaceTrajectory, OpenSpaceDebug.xy_boundary_size.
  cbn [open_space_debug Frame_update]. rewrite Hsize. reflexivity.
Qed.

(** X19: the output record [Plan] returns with.  Either the points and
    the gear of the record are as they were, the status is not OK and
    the predicted environment is the one of an earlier cycle (the
    planner has failed, or the partitioner has refused the trajectory);
    or the record is the one the partitioner has written from the new
    last publishable trajectory, and the status tells what the collision
    check has found on it: a trajectory that fails the collision check
    stays in the output record. *)
Theorem collision_failure_keeps_the_trajectory
        (fuel : nat) (t : double) (stitching : list TrajectoryPoint.t)
        (st st' : State) (pb pb' : ADCTrajectory.t) (status : Status.t) :
  Plan env fuel t stitching st pb = Done (status, st', pb') ->
  (Status.eqb status Status.OK = false /\
   ADCTrajectory.trajectory_point pb' = ADCTrajectory.trajectory_point pb /\
   ADCTrajectory.gear pb' = ADCTrajectory.gear pb /\
   predicted_bounding_rectangles_ st' = predicted_bounding_rectangles_ st)
  \/
  (exists published pbd,
      last_publishable_trajectory_ st' = Some published /\
      Partitioner.TrajectoryPartition
        (libm_tanh env) (provider_vehicle_state st) published pbd =
      Done (Status.OK, pb') /\
      IsCollisionFreeTrajectory env (predicted_bounding_rectangles_ st') pb' =
      Done (Status.eqb status Status.OK) /\
      (status = Status.OK \/ status = collision_check_failed)).
Proof.
  unfold Plan; intros H.
  obind_inv H. obind_inv H.
  destruct (planner_Plan env (planner_ st) r r0) as [[ps update] planner'].
  destruct (Status.eqb ps Status.OK) eqn:Hps; cbn [negb] in H.
  2: { inversion H; subst; clear H. left. rewrite Hps.
       destruct (FLAGS_enable_record_debug (flags env)); cbn; auto. }
  obind_inv H. obind_inv H. destruct r2 as [partition_status pbp].
  apply record_planner_debug_keeps in E1. destruct E1 as (_ & Hpts & Hgear).
  assert (Hin : ADCTrajectory.trajectory_point r1 = ADCTrajectory.trajectory_point pb /\
                ADCTrajectory.gear r1 = ADCTrajectory.gear pb).
  { rewrite Hpts, Hgear.
    destruct (FLAGS_enable_record_debug (flags env)); cbn; auto. }
  destruct Hin as [Hpts1 Hgear1].
  pose proof E2 as Hpart.
  apply Segments.TrajectoryPartition_Done in Hpart.
  destruct Hpart as [(_ & -> & ->) | (_ & _ & _ & _ & _ & _ & _ & _ & -> & _)].
  - cbn in H. inversion H; subst; clear H. left. cbn. auto.
  - cbn [Status.eqb negb] in H. cbn in H.
    obind_inv H. obind_inv H. right.
    eexists _, _.
    destruct r3; cbn [negb] in H; inversion H; subst; clear H; cbn;
      (split; [reflexivity |]); (split; [exact E2 |]); (split; [exact E3 |]);
      auto.
Qed.

(** X20: when the state passes the gate and the stitcher returns no
    point, the cycle reads [stitching_trajectory.back()] of an empty
    vector. *)
Theorem empty_stitching_trajectory_is_undefined
        (fuel : nat) (st : State) (lv : LocalView Localization Chassis)
        (pb : ADCTrajectory.t) :
  let t := NowInSeconds env (clock_reads st) in
  let vs :=
    estimated_vehicle_state
      env t (snd (VehicleStateProvider_Update env (localization_estimate lv)
                                              (chassis lv))) in
  IsVehicleStateValid vs = true ->
  ComputeStitchingTrajectory env vs t
    (FLAGS_open_space_planning_period (flags env))
    (last_publishable_trajectory_ st) = [] ->
  RunOnce env fuel st lv pb = Undefined.
Proof.
  cbv zeta. unfold RunOnce.
  pose proof (begin_cycle_members env st lv) as Hb.
  pose proof (begin_cycle_more env st lv) as Hm.
  destruct (begin_cycle env st lv) as [[[t status0] vs] st1].
  destruct Hb as (Ht & _ & Hpub & _).
  destruct Hm as (_ & Hvs & _).
  rewrite <- Ht, <- Hvs. intros Hvalid Hempty.
  rewrite Hvalid. cbn [negb]. unfold prepare_frame.
  replace (last_publishable_trajectory_
             (if IsDifferentRouting (last_routing_ st1) (routing lv)
              then with_last_routing (routing lv) st1 else st1))
    with (last_publishable_trajectory_ st)
    by (destruct (IsDifferentRouting _ _); cbn; congruence).
  rewrite Hempty. reflexivity.
Qed.

End PlanFacts.

(** X18, witness: the bench with the debug record and the chart export
    on; the frame's open-space debug data hold no boundary. *)
Lemma failed_chart_check_aborts_the_plan_witness :
  Plan (Fixtures.with_flags PlanFixtures.charting (Bench.env Status.OK))
       10 100%float [Bench.point 0 0 0]%float
       (PlanFixtures.framed Bench.forward) ADCTrajectory.fresh = Aborted.
Proof.
  eapply (@failed_chart_check_aborts_the_plan _ _ _ _ _
            (Fixtures.with_flags PlanFixtures.charting (Bench.env Status.OK))
            10 100%float [Bench.point 0 0 0]%float
            (PlanFixtures.framed Bench.forward) ADCTrajectory.fresh).
  - vm_compute; reflexivity.
  - vm_compute; reflexivity.
  - vm_compute; reflexivity.
  - vm_compute; reflexivity.
  - vm_compute; reflexivity.
  - vm_compute; reflexivity.
  - vm_compute; reflexivity.
Defined.

(** What a call of [Plan] returned. *)
Definition plan_status {S : Type}
           (r : outcome (Status.t * S * ADCTrajectory.t)) : Status.t :=
  match r with Done (status, _, _) => status | _ => Status.OK end.

Definition plan_members {S : Type}
           (r : outcome (Status.t * S * ADCTrajectory.t)) (otherwise : S) : S :=
  match r with Done (_, st, _) => st | _ => otherwise end.

Definition plan_record {S : Type}
           (r : outcome (Status.t * S * ADCTrajectory.t)) : ADCTrajectory.t :=
  match r with Done (_, _, m) => m | _ => ADCTrajectory.fresh end.

(** [Plan] on the bench's forward trajectory with an obstacle around the
    origin. *)
Definition blocked_plan :=
  Plan (Bench.env Status.OK) 10 100%float [Bench.point 0 0 0]%float
       (PlanFixtures.framed PlanFixtures.blocked) ADCTrajectory.fresh.

Lemma blocked_plan_returns :
  Plan (Bench.env Status.OK) 10 100%float [Bench.point 0 0 0]%float
       (PlanFixtures.framed PlanFixtures.blocked) ADCTrajectory.fresh =
  Done (plan_status blocked_plan,
        plan_members blocked_plan (PlanFixtures.framed PlanFixtures.blocked),
        plan_record blocked_plan).
Proof. vm_compute. reflexivity. Qed.

(** X19, witness: the collision check fails on the bench's forward
    trajectory, and the three points and the gear Drive are in the
    output record. *)
Lemma collision_failure_keeps_the_trajectory_witness :
  (plan_status blocked_plan = collision_check_failed /\
   List.length (ADCTrajectory.trajectory_point (plan_record blocked_plan)) = 3%nat /\
   ADCTrajectory.gear (plan_record blocked_plan) = Some GEAR_DRIVE)
  /\
  ((Status.eqb (plan_status blocked_plan) Status.OK = false /\
    ADCTrajectory.trajectory_point (plan_record blocked_plan) =
    ADCTrajectory.trajectory_point ADCTrajectory.fresh /\
    ADCTrajectory.gear (plan_record blocked_plan) =
    ADCTrajectory.gear ADCTrajectory.fresh /\
    predicted_bounding_rectangles_
      (plan_members blocked_plan (PlanFixtures.framed PlanFixtures.blocked)) =
    predicted_bounding_rectangles_ (PlanFixtures.framed PlanFixtures.blocked))
   \/
   (exists published pbd,
       last_publishable_trajectory_
         (plan_members blocked_plan (PlanFixtures.framed PlanFixtures.blocked)) =
       Some published /\
       Partitioner.TrajectoryPartition
         (libm_tanh (Bench.env Status.OK))
         (provider_vehicle_state (PlanFixtures.framed PlanFixtures.blocked))
         published pbd =
       Done (Status.OK, plan_record blocked_plan) /\
       IsCollisionFreeTrajectory
         (Bench.env Status.OK)
         (predicted_bounding_rectangles_
            (plan_members blocked_plan (PlanFixtures.framed PlanFixtures.blocked)))
         (plan_record blocked_plan) =
       Done (Status.eqb (plan_status blocked_plan) Status.OK) /\
       (plan_status blocked_plan = Status.OK \/
        plan_status blocked_plan = collision_check_failed))).
Proof.
  split.
  - vm_compute. repeat split.
  - exact (@collision_failure_keeps_the_trajectory _ _ _ _ _
             (Bench.env Status.OK) 10 100%float [Bench.point 0 0 0]%float
             (PlanFixtures.framed PlanFixtures.blocked)
             (plan_members blocked_plan (PlanFixtures.framed PlanFixtures.blocked))
             ADCTrajectory.fresh (plan_record blocked_plan)
             (plan_status blocked_plan) blocked_plan_returns).
Defined.

(** X20, witness: the bench with a stitcher that returns no point. *)
Lemma empty_stitching_trajectory_is_undefined_witness :
  RunOnce PlanFixtures.without_stitching 10 (Bench.initial Bench.forward)
          (Bench.view Bench.origin) ADCTrajectory.fresh = Undefined.
Proof.
  apply (@empty_stitching_trajectory_is_undefined _ _ _ _ _
           PlanFixtures.without_stitching 10 (Bench.initial Bench.forward)
           (Bench.view Bench.origin) ADCTrajectory.fresh).
  - vm_compute; reflexivity.
  - vm_compute; reflexivity.
Defined.

(** * The gear partitioner: arc length along the partition *)

Module Arcs.
Import Partitioner InitialGear PartitionLoop.
Local Open Scope float_scope.

Definition arc (p : TrajectoryPoint.t) : double :=
  PathPoint.s (TrajectoryPoint.path_point p).

Definition position (p : TrajectoryPoint.t) : double * double :=
  (PathPoint.x (TrajectoryPoint.path_point p),
   PathPoint.y (TrajectoryPoint.path_point p)).

(** The distance the loop adds for the step from [p] to [q]. *)
Definition step (p q : TrajectoryPoint.t) : double :=
  PrimFloat.sqrt
    ((fst (position q) - fst (position p)) * (fst (position q) - fst (position p)) +
     (snd (position q) - snd (position p)) * (snd (position q) - snd (position p))).

(** From [p] on, each point is one step further than the point before. *)
Fixpoint accumulates (p : TrajectoryPoint.t) (rest : list TrajectoryPoint.t)
  : Prop :=
  match rest with
  | [] => True
  | q :: rest' => arc q = arc p + step p q /\ accumulates q rest'
  end.

Definition chained (t : list TrajectoryPoint.t) : Prop :=
  match t with
  | [] => True
  | h :: rest => accumulates h rest
  end.

(** The first point of [t2] is at zero plus the step from the last
    point of [t1]. *)
Definition linked (t1 t2 : list TrajectoryPoint.t) : Prop :=
  match t1, t2 with
  | p :: rest, h :: _ => arc h = 0 + step (last rest p) h
  | _, _ => True
  end.

Fixpoint links (ts : list (list TrajectoryPoint.t)) : Prop :=
  match ts with
  | t1 :: ((t2 :: _) as rest) => linked t1 t2 /\ links rest
  | _ => True
  end.

(** The arc lengths of a partition: the first trajectory starts at
    zero, every trajectory accumulates the steps between its points, and
    every further trajectory starts at the step from the last point of
    the trajectory before it. *)
Definition arcs (ts : list (list TrajectoryPoint.t)) : Prop :=
  match ts with
  | (h :: _) :: _ => arc h = 0
  | _ => True
  end /\
  Forall chained ts /\
  links ts.

Lemma last_cons {A : Type} (l : list A) (a d : A) :
  last (a :: l) d = last l a.
Proof.
  revert a. induction l as [| b l IH]; intros a; [reflexivity |].
  cbn [last] in *. destruct l; [reflexivity | apply IH].
Qed.

Lemma accumulates_snoc (rest : list TrajectoryPoint.t) :
  forall p q : TrajectoryPoint.t,
    accumulates p rest ->
    arc q = arc (last rest p) + step (last rest p) q ->
    accumulates p (rest ++ [q]).
Proof.
  induction rest as [| a rest IH]; intros p q Hacc Hq.
  - cbn in *. auto.
  - destruct Hacc as [Ha Hacc]. cbn [app accumulates]. split; [exact Ha |].
    apply IH; [exact Hacc |]. rewrite last_cons in Hq. exact Hq.
Qed.

Lemma links_snoc_trajectory (ts : list (list TrajectoryPoint.t)) :
  forall t t' : list TrajectoryPoint.t,
    links (ts ++ [t]) -> linked t t' -> links ((ts ++ [t]) ++ [t']).
Proof.
  induction ts as [| a ts IH]; intros t t' Hl Hlink.
  - cbn. auto.
  - destruct ts as [| b ts].
    + cbn [app links] in *. destruct Hl as [Hab _]. auto.
    + cbn [app links] in *. destruct Hl as [Hab Hl]. split; [exact Hab |].
      exact (IH t t' Hl Hlink).
Qed.

Lemma links_snoc_point (ts : list (list TrajectoryPoint.t)) :
  forall (t : list TrajectoryPoint.t) (q : TrajectoryPoint.t),
    links (ts ++ [t]) -> t <> [] -> links (ts ++ [t ++ [q]]).
Proof.
  induction ts as [| a ts IH]; intros t q Hl Hne.
  - cbn. exact I.
  - cbn [app] in *.
    destruct ts as [| b ts].
    + cbn [app links] in *. destruct Hl as [Hab _]. split; [| exact I].
      destruct t as [| h rest]; [contradiction |]. exact Hab.
    + cbn [app links] in *. destruct Hl as [Hab Hl]. split; [exact Hab |].
      exact (IH t q Hl Hne).
Qed.

Section WithLibm.
Variable tanh : double -> double.

Lemma partitioned_point_position (g : GearPosition) (d : double)
      (p : TrajectoryPoint.t) :
  position (partitioned_point tanh g d p) = position p /\
  arc (partitioned_point tanh g d p) = d.
Proof. split; reflexivity. Qed.

Lemma step_positions (p q p' q' : TrajectoryPoint.t) :
  position p' = position p -> position q' = position q ->
  step p' q' = step p q.
Proof. unfold step. intros -> ->. reflexivity. Qed.

(** What the loop keeps, once it has added a point: [q] is the input
    point it has read last. *)
Definition follows (q : TrajectoryPoint.t) (st : loop_state) : Prop :=
  arcs (trajectory_partition st) /\
  exists h rest,
    current_trajectory st = h :: rest /\
    position (last rest h) = position q /\
    arc (last rest h) = distance_s st.

Lemma partition_step_follows (q p : TrajectoryPoint.t) (st : loop_state) :
  follows q st -> follows p (partition_step tanh (Some q) p st).
Proof.
  intros ((Hzero & Hchained & Hlinks) & h & rest & Hcur & Hpos & Harc).
  unfold partition_step. rewrite shift_if_reversed_spec.
  unfold trajectory_partition in *.
  destruct (shifts (gear_back st) p);
    cbn [closed current_trajectory gear_back distance_s shift_gear
         accumulate_distance].
  - (* a new trajectory is opened *)
    set (p' := partitioned_point tanh (opposite (gear_back st))
                 (0 + PrimFloat.sqrt _) p).
    assert (Hstep : arc p' = 0 + step (last rest h) p').
    { rewrite (@step_positions q p (last rest h) p' Hpos eq_refl).
      reflexivity. }
    split; [split; [| split] |].
    + destruct (closed st) as [| [| c0 c] cl]; cbn in *;
        try rewrite Hcur in *; cbn in *; assumption.
    + apply Forall_app. split; [exact Hchained | repeat constructor].
    + apply links_snoc_trajectory; [exact Hlinks |].
      rewrite Hcur. exact Hstep.
    + exists p', []. cbn. auto.
  - (* the point joins the current trajectory *)
    set (p' := partitioned_point tanh (gear_back st)
                 (distance_s st + PrimFloat.sqrt _) p).
    assert (Hstep : arc p' = arc (last rest h) + step (last rest h) p').
    { rewrite (@step_positions q p (last rest h) p' Hpos eq_refl), Harc.
      reflexivity. }
    apply Forall_app in Hchained. destruct Hchained as [Hclosed Hcurrent].
    inversion Hcurrent as [| ? ? Hc _]; subst. rewrite Hcur in Hc. cbn in Hc.
    split; [split; [| split] |].
    + destruct (closed st) as [| [| c0 c] cl]; cbn in *;
        try rewrite Hcur in *; cbn in *; assumption.
    + apply Forall_app. split; [exact Hclosed |]. repeat constructor.
      rewrite Hcur. cbn [app chained].
      apply accumulates_snoc; assumption.
    + apply links_snoc_point; [exact Hlinks | rewrite Hcur; discriminate].
    + exists h, (rest ++ [p']). rewrite Hcur. split; [reflexivity |].
      rewrite last_last. auto.
Qed.

Lemma partition_loop_follows (pts : list TrajectoryPoint.t) :
  forall (q : TrajectoryPoint.t) (st : loop_state),
    follows q st ->
    arcs (trajectory_partition (partition_loop tanh (Some q) pts st)).
Proof.
  induction pts as [| p l IH]; intros q st Hf; [exact (proj1 Hf) |].
  cbn [partition_loop]. apply (IH p). apply partition_step_follows. exact Hf.
Qed.

(** X21: the arc lengths of a partition.  The first point of the first
    trajectory is at zero and, within every trajectory, each point is at
    the arc length of the point before it plus the step between the two;
    the first point of every further trajectory is at zero plus the step
    from the last point of the trajectory before it: the arc length is
    set to zero at a gear shift and the step is added afterwards. *)
Theorem arc_length_along_the_partition
        (pts : list TrajectoryPoint.t) (st : loop_state) :
  partition tanh pts = Done (inr st) ->
  arcs (trajectory_partition st).
Proof.
  intros Hpart. destruct (partition_Done tanh _ Hpart) as (g0 & Hg & -> & _).
  destruct pts as [| p0 rest].
  - unfold initial_gear in Hg. cbn in Hg. discriminate.
  - cbn [partition_loop]. apply partition_loop_follows.
    destruct (first_point_does_not_shift _ _ Hg) as [Hs _].
    unfold follows, partition_step. rewrite shift_if_reversed_spec.
    cbn [gear_back]. rewrite Hs.
    cbn [closed current_trajectory distance_s accumulate_distance
         trajectory_partition app].
    split.
    + unfold arcs. cbn. repeat split. repeat constructor.
    + eexists _, []. cbn. auto.
Qed.

End WithLibm.
End Arcs.

(** X21, witness: the bench's trajectory that goes forward, then back. *)
Lemma arc_length_along_the_partition_witness :
  Arcs.arcs (Partitioner.trajectory_partition Segments.there_and_back_partitioned).
Proof.
  exact (@Arcs.arc_length_along_the_partition
           (libm_tanh (Bench.env Status.OK)) Bench.there_and_back
           Segments.there_and_back_partitioned eq_refl).
Defined.

(** * The gear partitioner run again on what it has published *)

Module SecondRun.
Import Partitioner InitialGear PartitionLoop Closest Published.
Local Open Scope float_scope.

Section WithLibm.
Variable tanh : double -> double.

(** The points [TrajectoryPartition] has published come from one
    trajectory of the partition, and none of them moves backward. *)
Lemma published_from_one_trajectory
      (vehicle_state : VehicleState.t) (published : PublishableTrajectory.t)
      (pb pb' : ADCTrajectory.t) :
  TrajectoryPartition tanh vehicle_state published pb = Done (Status.OK, pb') ->
  exists st chosen time_shift g,
    partition tanh (PublishableTrajectory.trajectory_points published) =
    Done (inr st) /\
    In chosen (trajectory_partition st) /\
    In g (gear_positions st) /\
    pb' = ADCTrajectory.with_gear (Some g)
            (ADCTrajectory.with_trajectory_point
               (map (shift_time time_shift) chosen) pb) /\
    Forall (fun p => moves_backward p = false)
           (ADCTrajectory.trajectory_point pb').
Proof.
  intros H. apply Segments.TrajectoryPartition_Done in H.
  destruct H as [(_ & Hs & _) | (st & chosen & nearest & g & Hpart & Hc & _ & Hg & _ & ->)];
    [discriminate |].
  exists st, chosen, (TrajectoryPoint.relative_time nearest), g.
  repeat (split; [assumption || reflexivity |]).
  destruct (partition_Done tanh _ Hpart) as (g0 & Hg0 & Hst & _).
  assert (Hd : Segments.drive_or_reverse g0 = true).
  { destruct (PublishableTrajectory.trajectory_points published) as [| p0 rest].
    - unfold initial_gear in Hg0. cbn in Hg0. discriminate.
    - destruct (first_point_does_not_shift _ _ Hg0) as [_ [-> | ->]]; reflexivity. }
  pose proof (Segments.partition_loop_forward tanh
                (PublishableTrajectory.trajectory_points published) None
                (mk_loop_state [] [] [] g0 0) Hd (Forall_nil _)) as Hall.
  rewrite <- Hst in Hall.
  pose proof (Segments.In_concat_Forall _ _ Hall Hc) as Hchosen.
  cbn [ADCTrajectory.trajectory_point ADCTrajectory.with_gear
       ADCTrajectory.with_trajectory_point].
  apply Forall_map. revert Hchosen. apply Forall_impl.
  intros p Hp. exact Hp.
Qed.

(** The second run on points none of which moves backward, three of
    them at least moving forward: one trajectory, in gear Drive. *)
Lemma forward_points_make_one_trajectory (out : list TrajectoryPoint.t) :
  Forall (fun p => moves_backward p = false) out ->
  (3 <= List.length (filter decisive out))%nat ->
  exists st2,
    partition tanh out = Done (inr st2) /\
    closed st2 = [] /\
    List.length (current_trajectory st2) = List.length out /\
    gear_back st2 = GEAR_DRIVE.
Proof.
  intros Hback Hthree.
  destruct (filter decisive out) as [| q1 [| q2 [| q3 more]]] eqn:Hf;
    cbn in Hthree; try lia.
  assert (Hq1 : moves_forward q1 = true).
  { assert (Hin : In q1 (filter decisive out)) by (rewrite Hf; left; reflexivity).
    apply filter_In in Hin. destruct Hin as [Hin Hd].
    rewrite Forall_forall in Hback. specialize (Hback _ Hin).
    unfold decisive in Hd. rewrite Hback, orb_false_r in Hd. exact Hd. }
  pose proof (initial_gear_of_first_decisive _ Hf) as Hinit2.
  rewrite Hq1 in Hinit2.
  assert (Hshift2 : Forall (fun p' => shifts GEAR_DRIVE p' = false) out)
    by exact Hback.
  destruct (@Rerun.no_shift_no_new_trajectory tanh out None
              (mk_loop_state [] [] [] GEAR_DRIVE 0) Hshift2)
    as (Hc2 & Hg2 & Hl2).
  eexists. split; [unfold partition; rewrite Hinit2; reflexivity |].
  split; [exact Hc2 |]. split; [exact Hl2 |]. exact Hg2.
Qed.

(** C8, as the code has it.  What [TrajectoryPartition] publishes is one
    trajectory in which no velocity is below [-kepsilon], labelled Drive
    or Reverse.  Run again on these points, with whatever vehicle state
    and output record, the partitioner
    - returns the error of the short trajectory, the record left alone,
      when the points are fewer than three;
    - reads past the end of the vector when they are three or more but
      fewer than three have a velocity beyond the threshold;
    - otherwise yields one trajectory with as many points and publishes
      it with the gear Drive, whatever the gear of the first run was.
    When the partition of the first run is a single trajectory, what is
    published has every point of the input and the gear of that
    trajectory, and the second run is in the last case. *)
Theorem rerun_yields_one_trajectory_labelled_drive
        (vehicle_state : VehicleState.t) (published : PublishableTrajectory.t)
        (pb pb' : ADCTrajectory.t) :
  TrajectoryPartition tanh vehicle_state published pb = Done (Status.OK, pb') ->
  let out := ADCTrajectory.trajectory_point pb' in
  Forall (fun p => moves_backward p = false) out /\
  (ADCTrajectory.gear pb' = Some GEAR_DRIVE \/
   ADCTrajectory.gear pb' = Some GEAR_REVERSE) /\
  (forall (vehicle_state2 : VehicleState.t) (header_time2 : double)
          (pb2 : ADCTrajectory.t),
      let again :=
        TrajectoryPartition tanh vehicle_state2
          (PublishableTrajectory.mk header_time2 out) pb2 in
      if Nat.ltb (List.length out) 3 then again = Done (too_short, pb2)
      else if Nat.ltb (List.length (filter decisive out)) 3
      then again = Undefined
      else exists st2 pb'',
          partition tanh out = Done (inr st2) /\
          closed st2 = [] /\
          List.length (current_trajectory st2) = List.length out /\
          gear_back st2 = GEAR_DRIVE /\
          again = Done (Status.OK, pb'') /\
          ADCTrajectory.gear pb'' = Some GEAR_DRIVE /\
          List.length (ADCTrajectory.trajectory_point pb'') = List.length out) /\
  (forall st : loop_state,
      partition tanh (PublishableTrajectory.trajectory_points published) =
      Done (inr st) ->
      closed st = [] ->
      ADCTrajectory.gear pb' = Some (gear_back st) /\
      List.length out =
      List.length (PublishableTrajectory.trajectory_points published) /\
      Nat.ltb (List.length out) 3 = false /\
      Nat.ltb (List.length (filter decisive out)) 3 = false).
Proof.
  intros H. cbv zeta.
  destruct (published_from_one_trajectory _ _ _ H)
    as (st & chosen & time_shift & g & Hpart & Hc & Hg & Hpb & Hback).
  split; [exact Hback |].
  split.
  { pose proof (@Segments.partition_gears tanh _ _ Hpart) as Hgears.
    rewrite Forall_forall in Hgears.
    rewrite Hpb. cbn [ADCTrajectory.gear ADCTrajectory.with_gear].
    destruct (Segments.drive_or_reverse_cases g (Hgears g Hg)) as [-> | ->]; auto. }
  split.
  - (* the second run *)
    intros vehicle_state2 header_time2 pb2. cbv zeta.
    set (out := ADCTrajectory.trajectory_point pb') in *.
    destruct (Nat.ltb (List.length out) 3) eqn:Hlen.
    { unfold TrajectoryPartition, partition.
      cbn [PublishableTrajectory.trajectory_points].
      rewrite Segments.initial_gear_outcome, Hlen. reflexivity. }
    destruct (Nat.ltb (List.length (filter decisive out)) 3) eqn:Hdec.
    { unfold TrajectoryPartition, partition.
      cbn [PublishableTrajectory.trajectory_points].
      rewrite Segments.initial_gear_outcome, Hlen.
      apply Nat.ltb_lt in Hdec.
      destruct (filter decisive out) as [| q1 [| q2 [| q3 more]]];
        cbn in Hdec; try lia; reflexivity. }
    apply Nat.ltb_ge in Hdec.
    destruct (forward_points_make_one_trajectory Hback Hdec)
      as (st2 & Hpart2 & Hc2 & Hl2 & Hg2).
    destruct (@Rerun.single_trajectory_is_published tanh vehicle_state2
                (PublishableTrajectory.mk header_time2 out) pb2 st2 Hpart2 Hc2)
      as [time_shift2 Hres2].
    exists st2. eexists.
    repeat (split; [assumption |]).
    split; [exact Hres2 |].
    cbn [ADCTrajectory.gear ADCTrajectory.with_gear
         ADCTrajectory.trajectory_point ADCTrajectory.with_trajectory_point].
    split; [rewrite Hg2; reflexivity |].
    rewrite length_map. exact Hl2.
  - (* a first run with a single trajectory *)
    intros st' Hpart' Hclosed.
    rewrite Hpart in Hpart'. inversion Hpart'; subst st'; clear Hpart'.
    destruct (@Rerun.single_trajectory_is_published tanh vehicle_state
                published pb st Hpart Hclosed) as [time_shift1 Hres].
    rewrite H in Hres. inversion Hres as [Hpb1]; clear Hres.
    set (pts := PublishableTrajectory.trajectory_points published) in *.
    destruct (partition_Done tanh _ Hpart) as (g0 & Hinit & Hst & _).
    assert (Hsingle := Rerun.single_trajectory tanh pts None
                         (mk_loop_state [] [] [] g0 0)).
    rewrite <- Hst in Hsingle. specialize (Hsingle Hclosed).
    destruct Hsingle as (Hall & Hgear & _ & Hvel). cbn in Hall, Hgear, Hvel.
    assert (Hg0 : g0 = GEAR_DRIVE \/ g0 = GEAR_REVERSE).
    { destruct pts as [| p0 rest].
      - unfold initial_gear in Hinit. cbn in Hinit. discriminate.
      - apply (first_point_does_not_shift _ _ Hinit). }
    cbn [ADCTrajectory.gear ADCTrajectory.with_gear
         ADCTrajectory.trajectory_point ADCTrajectory.with_trajectory_point].
    set (pts' := map (shift_time time_shift1) (current_trajectory st)).
    assert (Hvel' : Rerun.velocities pts' =
                    map (fun p => TrajectoryPoint.v p * gear_drive g0) pts).
    { rewrite <- Hvel. unfold pts', Rerun.velocities. rewrite map_map.
      reflexivity. }
    assert (Hlen' : List.length pts' = List.length pts).
    { apply (f_equal (@List.length _)) in Hvel'. unfold Rerun.velocities in Hvel'.
      rewrite !length_map in Hvel'. exact Hvel'. }
    destruct (Rerun.tests_after_sign Hg0 pts' Hall Hvel') as (_ & Hdec).
    assert (Hlong : (3 <= List.length pts)%nat /\
                    (3 <= List.length (filter decisive pts))%nat).
    { unfold initial_gear, initial_gear_check_horizon in Hinit.
      destruct (Nat.ltb_spec (List.length pts) 3); [discriminate |].
      split; [assumption |].
      destruct (initial_gear_scan pts 0 0%Z 0%Z) as [[f d] | | |] eqn:Hscan;
        try discriminate.
      apply initial_gear_scan_Done in Hscan; lia. }
    destruct Hlong as [Hlong Hthree].
    split; [reflexivity |]. split; [exact Hlen' |].
    split; apply Nat.ltb_ge; [rewrite Hlen' | rewrite Hdec]; assumption.
Qed.

End WithLibm.
End SecondRun.

(** C8, witness: three samples in reverse.  The first run publishes them
    with the gear Reverse; the second run is in the last case, and the
    partition of the first run is a single trajectory. *)
Lemma rerun_yields_one_trajectory_labelled_drive_witness :
  let tanh := libm_tanh (Bench.env Status.OK) in
  let pb' :=
    record_after
      (Partitioner.TrajectoryPartition tanh Bench.origin
         (PublishableTrajectory.mk 0%float Bench.backing) ADCTrajectory.fresh) in
  let out := ADCTrajectory.trajectory_point pb' in
  Forall (fun p => Partitioner.moves_backward p = false) out /\
  (ADCTrajectory.gear pb' = Some GEAR_DRIVE \/
   ADCTrajectory.gear pb' = Some GEAR_REVERSE) /\
  (forall (vehicle_state2 : VehicleState.t) (header_time2 : double)
          (pb2 : ADCTrajectory.t),
      exists st2 pb'',
        Partitioner.partition tanh out = Done (inr st2) /\
        Partitioner.closed st2 = [] /\
        List.length (Partitioner.current_trajectory st2) = List.length out /\
        Partitioner.gear_back st2 = GEAR_DRIVE /\
        Partitioner.TrajectoryPartition tanh vehicle_state2
          (PublishableTrajectory.mk header_time2 out) pb2 =
        Done (Status.OK, pb'') /\
        ADCTrajectory.gear pb'' = Some GEAR_DRIVE /\
        List.length (ADCTrajectory.trajectory_point pb'') = List.length out) /\
  (ADCTrajectory.gear pb' = Some GEAR_REVERSE /\
   List.length out = List.length Bench.backing /\
   Nat.ltb (List.length out) 3 = false /\
   Nat.ltb (List.length (filter InitialGear.decisive out)) 3 = false).
Proof.
  destruct (@SecondRun.rerun_yields_one_trajectory_labelled_drive
              (libm_tanh (Bench.env Status.OK)) Bench.origin
              (PublishableTrajectory.mk 0%float Bench.backing) ADCTrajectory.fresh
              _ backing_is_partitioned)
    as (Hforward & Hgear & Hagain & Hsingle).
  cbv zeta. split; [exact Hforward |]. split; [exact Hgear |].
  split.
  - intros vehicle_state2 header_time2 pb2.
    exact (Hagain vehicle_state2 header_time2 pb2).
  - exact (Hsingle
             (Partitioner.partition_loop (libm_tanh (Bench.env Status.OK)) None
                Bench.backing
                (Partitioner.mk_loop_state [] [] [] GEAR_REVERSE 0%float))
             eq_refl eq_refl).
Defined.

(** The other two cases of the second run, on the bench.  With the
    velocities 1, -1, 1, 1 and the vehicle between the second and the
    third point, the first run publishes the second point alone, with
    the gear Reverse, and the second run refuses it. *)
Lemma rerun_of_a_short_trajectory_is_refused :
  let tanh := libm_tanh (Bench.env Status.OK) in
  match Partitioner.TrajectoryPartition tanh (Bench.pose 0x1.8p+0 0)%float
          (PublishableTrajectory.mk 0%float
             [Bench.point 0 1 0; Bench.point 1 (-1) 1;
              Bench.point 2 1 2; Bench.point 3 1 3]%float)
          ADCTrajectory.fresh with
  | Done (status, pb') =>
      status = Status.OK /\
      ADCTrajectory.gear pb' = Some GEAR_REVERSE /\
      List.length (ADCTrajectory.trajectory_point pb') = 1%nat /\
      Partitioner.TrajectoryPartition tanh (Bench.pose 0x1.8p+0 0)%float
        (PublishableTrajectory.mk 0%float (ADCTrajectory.trajectory_point pb'))
        ADCTrajectory.fresh =
      Done (Partitioner.too_short, ADCTrajectory.fresh)
  | _ => False
  end.
Proof. vm_compute. repeat split. Qed.

(** With the velocities 1, 0, 0, -1, -1, -1 and the vehicle at the first
    point, the first run publishes the first three points with the gear
    Drive; one of them only has a velocity beyond the threshold, and the
    second run reads past the end of the vector. *)
Lemma rerun_of_a_slow_trajectory_reads_past_the_end :
  let tanh := libm_tanh (Bench.env Status.OK) in
  match Partitioner.TrajectoryPartition tanh Bench.origin
          (PublishableTrajectory.mk 0%float
             [Bench.point 0 1 0; Bench.point 1 0 1; Bench.point 2 0 2;
              Bench.point 3 (-1) 3; Bench.point 4 (-1) 4;
              Bench.point 5 (-1) 5]%float)
          ADCTrajectory.fresh with
  | Done (status, pb') =>
      status = Status.OK /\
      ADCTrajectory.gear pb' = Some GEAR_DRIVE /\
      List.length (ADCTrajectory.trajectory_point pb') = 3%nat /\
      Partitioner.TrajectoryPartition tanh Bench.origin
        (PublishableTrajectory.mk 0%float (ADCTrajectory.trajectory_point pb'))
        ADCTrajectory.fresh = Undefined
  | _ => False
  end.
Proof. vm_compute. repeat split. Qed.

(** * The cycle: the correction of the times when [InitFrame] fails *)

(** How a point of the output record relates to the point it was made
    from when [FillPlanningPb] has run twice on the record: the pose,
    the velocity, the acceleration and the steering angle are kept, and
    the relative time has had [dt1] subtracted, then [dt2]. *)
Definition corrected_twice (dt1 dt2 : double) (p' p : TrajectoryPoint.t) : Prop :=
  TrajectoryPoint.path_point p' = TrajectoryPoint.path_point p /\
  TrajectoryPoint.v p' = TrajectoryPoint.v p /\
  TrajectoryPoint.a p' = TrajectoryPoint.a p /\
  TrajectoryPoint.steer p' = TrajectoryPoint.steer p /\
  TrajectoryPoint.relative_time p' =
  (TrajectoryPoint.relative_time p - dt1 - dt2)%float.

Section InitFailureFacts.
Variables Localization Chassis Obstacle Box2d PlannerState : Type.
Local Notation "'State'" :=
  (Planning Localization Chassis Obstacle Box2d PlannerState).
Variable env : Collaborators Localization Chassis Obstacle Box2d PlannerState.
Local Open Scope float_scope.

Lemma correct_relative_time_twice (dt1 dt2 : double)
      (l : list TrajectoryPoint.t) :
  Forall2 (corrected_twice dt1 dt2)
          (map (fun p => correct_relative_time dt2 (correct_relative_time dt1 p)) l)
          l.
Proof.
  induction l as [| p l IH]; cbn [map]; constructor; [| exact IH].
  unfold corrected_twice, correct_relative_time. cbn. repeat split.
Qed.

(** The record the failure branch hands to the first [FillPlanningPb]:
    a new record with the e-stop when e-stops are published, the record
    of the cycle otherwise. *)
Lemma init_failure_record_fields (status : Status.t) (pb : ADCTrajectory.t) :
  ADCTrajectory.trajectory_point (init_failure_record env status pb) =
  (if FLAGS_publish_estop (flags env) then []
   else ADCTrajectory.trajectory_point pb) /\
  header_status (init_failure_record env status pb) = Some status.
Proof.
  unfold init_failure_record, header_status.
  destruct (FLAGS_publish_estop (flags env)); cbn; auto.
Qed.

Lemma fill_header_fields (t : double) (st : State) (m : ADCTrajectory.t) :
  header_timestamp (fill_header t st m) = Some t /\
  header_status (fill_header t st m) = header_status m.
Proof.
  unfold fill_header, header_timestamp, header_status.
  destruct (PredictionObstacles.header _);
    destruct m as [[h |] ? ? ? ? ? ? ? ?]; cbn; auto.
Qed.

(** C10: when the state passes the gate and [InitFrame] fails, the cycle
    returns the failure record after [FillPlanningPb] has run on it
    twice.  The points the corrections apply to are the points of the
    record handed to the first run (none when e-stops are published,
    the points of the cycle's record otherwise), or, when there is none
    and [FLAGS_use_planning_fallback] is set, the points
    [SetFallbackTrajectory] gives for that record; the second run finds
    these points and substitutes nothing.  Every point of the output has
    its pose, velocity, acceleration and steering angle unchanged and
    its relative time corrected twice: first by the start timestamp
    minus the third clock reading of the cycle, then by the start
    timestamp minus the fourth. *)
Theorem init_failure_corrects_relative_time_twice
        (fuel : nat) (st : State) (lv : LocalView Localization Chassis)
        (pb : ADCTrajectory.t) :
  forall t status0 vs st1 stitching start init_status st2 pb2,
    begin_cycle env st lv = (t, status0, vs, st1) ->
    IsVehicleStateValid vs = true ->
    prepare_frame env t vs st1 lv pb =
    Done (stitching, start, init_status, st2, pb2) ->
    Status.ok init_status = false ->
    let reads := clock_reads st in
    let dt1 := NowInSeconds env reads - NowInSeconds env (S (S reads)) in
    let dt2 := NowInSeconds env reads - NowInSeconds env (S (S (S reads))) in
    let handed :=
      if FLAGS_publish_estop (flags env) then []
      else ADCTrajectory.trajectory_point pb in
    let record := fill_header t st2 (init_failure_record env init_status pb2) in
    exists st' pb',
      RunOnce env fuel st lv pb = Done (st', pb') /\
      t = NowInSeconds env reads /\
      ADCTrajectory.trajectory_point record = handed /\
      header_timestamp record = Some t /\
      header_status record = Some init_status /\
      Forall2 (corrected_twice dt1 dt2)
              (ADCTrajectory.trajectory_point pb')
              (if FLAGS_use_planning_fallback (flags env)
                  && Nat.eqb (List.length handed) 0
               then SetFallbackTrajectory
                      env (last_publishable_trajectory_ st) record
               else handed).
Proof.
  unfold RunOnce.
  pose proof (begin_cycle_members env st lv) as Hb.
  intros t status0 vs st1 stitching start init_status st2 pb2
         Hbegin Hvalid Hprep Hok.
  rewrite Hbegin in Hb |- *.
  destruct Hb as (Ht & _ & Hpub1 & _ & _ & Hclock1).
  rewrite Hvalid, Hprep. cbn [negb obind]. rewrite Hok. cbn [negb].
  apply prepare_frame_Done in Hprep.
  destruct Hprep as (_ & _ & Hpub2 & _ & _ & Hclock2 & [f [Hf _]] & _ & Hpts2).
  cbv zeta.
  destruct (init_failure_record_fields init_status pb2) as [Hrec Hstat].
  rewrite Hpts2 in Hrec.
  destruct (fill_header_fields t st2 (init_failure_record env init_status pb2))
    as [Hts Hhs].
  unfold fail_init_frame.
  rewrite (FillPlanningPb_eta env t st2).
  rewrite (FillPlanningPb_eta env t (with_clock_reads _ st2)).
  unfold archive, deref_frame. cbn [frame_ with_clock_reads]. rewrite Hf.
  cbn [obind].
  eexists _, _. split; [reflexivity |].
  split; [exact Ht |].
  split; [rewrite fill_header_points; exact Hrec |].
  split; [exact Hts |].
  split; [rewrite Hhs; exact Hstat |].
  pose proof (second_fill_keeps_points env t st2
                (init_failure_record env init_status pb2)) as Hsecond.
  cbv zeta in Hsecond. rewrite FillPlanningPb_members in Hsecond.
  rewrite (FillPlanningPb_points env t (with_clock_reads _ st2)).
  rewrite Hsecond, FillPlanningPb_points, map_map.
  cbn [clock_reads with_clock_reads].
  rewrite Hclock2, Hclock1, <- Ht.
  unfold points_after_fallback.
  rewrite fill_header_points, Hrec, Hpub2, Hpub1.
  apply correct_relative_time_twice.
Qed.

End InitFailureFacts.

(** C10, witness: [InitFrame] fails in a cycle that starts with a
    trajectory of two points published earlier.  The bench publishes
    e-stops and uses the fallback, so the first fill substitutes the two
    points; its clock reads 100, 101, 102 and 103, so the two corrections
    are by -2 and by -3. *)
Lemma init_failure_corrects_relative_time_twice_witness :
  exists st' pb',
    RunOnce (Bench.env Bench.init_failure) 10 (Bench.warm Bench.forward)
            (Bench.view Bench.origin) ADCTrajectory.fresh = Done (st', pb') /\
    Forall2 (corrected_twice (-2)%float (-3)%float)
            (ADCTrajectory.trajectory_point pb')
            [Bench.point 0 1 0; Bench.point 1 1 1]%float.
Proof.
  edestruct (@init_failure_corrects_relative_time_twice _ _ _ _ _
               (Bench.env Bench.init_failure) 10 (Bench.warm Bench.forward)
               (Bench.view Bench.origin) ADCTrajectory.fresh)
    as (st' & pb' & Hrun & _ & _ & _ & _ & Hall).
  - vm_compute; reflexivity.
  - vm_compute; reflexivity.
  - vm_compute; reflexivity.
  - vm_compute; reflexivity.
  - exists st', pb'. split; [exact Hrun | exact Hall].
Defined.

(** On the bench the two points of the fallback, at times 0 and 1, leave
    the cycle at times 5 and 6; one correction by the clock reading of
    the first fill would have left them at 2 and 3. *)
Lemma init_failure_times_on_the_bench :
  match RunOnce (Bench.env Bench.init_failure) 10 (Bench.warm Bench.forward)
                (Bench.view Bench.origin) ADCTrajectory.fresh with
  | Done (_, pb') =>
      map TrajectoryPoint.relative_time (ADCTrajectory.trajectory_point pb') =
      [5; 6]%float /\
      map (fun p => (TrajectoryPoint.relative_time p - (100 - 102))%float)
          [Bench.point 0 1 0; Bench.point 1 1 1]%float = [2; 3]%float
  | _ => False
  end.
Proof. vm_compute. split; reflexivity. Qed.
